(** * Internship tracker: the request handlers of [server.js]

    A shallow embedding of the Express handlers that own the application
    lifecycle, the subscription registry, the clarification thread and the
    change broadcasts, together with the properties the specification states
    about them.

    Conventions of the embedding.

    - The SQLite file is a record of tables; a table is the list of its rows
      in rowid order plus its AUTOINCREMENT counter.  Statements are
      translated one by one ([SELECT ... WHERE] as [find]/[filter],
      [UPDATE] as [map], [DELETE] as [filter], [INSERT] as an append).
    - A nullable column is an [option]; [NULL] never satisfies [col = ?].
    - [datetime('now')] is read from the clock value carried by the request.
    - A handler runs in a small monad over the server state: it either goes
      on with a value or has answered the request ([send]).  Storage errors
      ([err] in the callbacks) are not modelled: every statement succeeds.
    - [io] is assigned before [server.listen], so it is set whenever a
      handler runs; [emit] is [io.emit].
    - Path and body fields carry the types the client sends: ids are
      integers, texts are strings, an absent field is [None].  JavaScript
      truthiness is kept: [0], the empty string and absent are falsy.
    - Columns that no modelled statement reads or writes by name (profile
      and branding columns) are left out of the row records. *)

From Stdlib Require Import List ZArith String Bool Lia.
Import ListNotations.
Open Scope Z_scope.
Open Scope string_scope.

Set Implicit Arguments.

(** ** JavaScript values of the typed fields *)

Definition truthyZ (v : option Z) : bool :=
  match v with
  | Some z => negb (Z.eqb z 0)
  | None => false
  end.

Definition truthyS (v : option string) : bool :=
  match v with
  | Some s => negb (String.eqb s "")
  | None => false
  end.

(** [v || null] on a text field. *)
Definition orNullS (v : option string) : option string :=
  if truthyS v then v else None.

(** [v || null] on a numeric field. *)
Definition orNullZ (v : option Z) : option Z :=
  if truthyZ v then v else None.

(** [a || b] on text fields. *)
Definition orElseS (a b : option string) : option string :=
  if truthyS a then a else b.

(** [a === b] between a JavaScript number-or-null and a column value. *)
Definition strictEqZ (a b : option Z) : bool :=
  match a, b with
  | Some x, Some y => Z.eqb x y
  | None, None => true
  | _, _ => false
  end.

(** [role === 'name'] *)
Definition roleIs (r : option string) (name : string) : bool :=
  match r with
  | Some s => String.eqb s name
  | None => false
  end.

(** SQL [col = ?] with a non-null integer parameter. *)
Definition colEqZ (col : option Z) (p : Z) : bool :=
  match col with
  | Some z => Z.eqb z p
  | None => false
  end.

(** SQL [col = 'literal'] on a text column. *)
Definition colEqS (col : option string) (lit : string) : bool :=
  match col with
  | Some s => String.eqb s lit
  | None => false
  end.

(** Values that appear in event payloads and audit details. *)
Inductive jsval : Type :=
| JNull
| JNum (z : Z)
| JStr (s : string).

Definition jnum (v : option Z) : jsval :=
  match v with Some z => JNum z | None => JNull end.

Definition jstr (v : option string) : jsval :=
  match v with Some s => JStr s | None => JNull end.

(** ** Rows *)

Record user_row : Type := {
  us_id : Z;
  us_role : option string;
  us_student_id : option Z;
  us_company_id : option Z
}.

Record student_row : Type := {
  st_id : Z;
  st_phone : option string
}.

Record company_row : Type := {
  co_id : Z;
  co_name : option string
}.

Record application : Type := {
  app_id : Z;
  app_student_id : option Z;
  app_company_id : option Z;
  app_position : option string;
  app_department : option string;
  app_why_internship : option string;
  app_skills_fit : option string;
  app_career_goals : option string;
  app_relevant_experience : option string;
  app_stage : option string;
  app_notes : option string;
  app_created_at : Z
}.

Record opening : Type := {
  op_id : Z;
  op_company_id : option Z;
  op_department : option string;
  op_role_title : option string;
  op_expectations : option string;
  op_slots : option string;
  op_location : option string;
  op_deadline : option string;
  op_created_at : Z
}.

Record interview : Type := {
  iv_id : Z;
  iv_company_id : option Z;
  iv_application_id : option Z;
  iv_interview_date : option string;
  iv_interview_time : option string;
  iv_mode : option string;
  iv_location : option string;
  iv_updated_at : Z
}.

Record app_request : Type := {
  rq_id : Z;
  rq_application_id : option Z;
  rq_request_text : option string;
  rq_response_text : option string;
  rq_created_at : Z;
  rq_updated_at : Z
}.

Record subscription : Type := {
  sub_id : Z;
  sub_student_id : Z;
  sub_company_id : Z;
  sub_created_at : Z
}.

Record audit_log : Type := {
  au_id : Z;
  au_actor_user_id : option Z;
  au_action_type : string;
  au_entity_type : string;
  au_entity_id : option Z;
  au_details : list (string * jsval);
  au_created_at : Z
}.

(** ** Tables *)

Record table (A : Type) : Type := {
  rows : list A;
  seq : Z
}.

Definition empty_table {A : Type} : table A := {| rows := []; seq := 0 |}.

Section Tables.
Variable A : Type.
Variable key : A -> Z.

(** The rowid an [INTEGER PRIMARY KEY AUTOINCREMENT] insert receives: one
    more than the largest of the counter and of the rowids in use. *)
Definition next_id (t : table A) : Z :=
  1 + fold_right Z.max (seq t) (map key (rows t)).

Definition insert_row (t : table A) (mk : Z -> A) : table A :=
  {| rows := rows t ++ [mk (next_id t)]; seq := next_id t |}.

Definition update_where (p : A -> bool) (f : A -> A) (t : table A) : table A :=
  {| rows := map (fun r => if p r then f r else r) (rows t); seq := seq t |}.

Definition delete_where (p : A -> bool) (t : table A) : table A :=
  {| rows := filter (fun r => negb (p r)) (rows t); seq := seq t |}.

(** [db.get]: the first matching row, if any. *)
Definition select_one (p : A -> bool) (t : table A) : option A :=
  find p (rows t).

(** [db.all] *)
Definition select_all (p : A -> bool) (t : table A) : list A :=
  filter p (rows t).
End Tables.

Record db : Type := {
  users : table user_row;
  students : table student_row;
  companies : table company_row;
  applications : table application;
  company_openings : table opening;
  company_interviews : table interview;
  application_requests : table app_request;
  student_company_subscriptions : table subscription;
  audit_logs : table audit_log
}.

Definition set_applications (t : table application) (d : db) : db :=
  {| users := users d; students := students d; companies := companies d;
     applications := t;
     company_openings := company_openings d;
     company_interviews := company_interviews d;
     application_requests := application_requests d;
     student_company_subscriptions := student_company_subscriptions d;
     audit_logs := audit_logs d |}.

Definition set_company_openings (t : table opening) (d : db) : db :=
  {| users := users d; students := students d; companies := companies d;
     applications := applications d;
     company_openings := t;
     company_interviews := company_interviews d;
     application_requests := application_requests d;
     student_company_subscriptions := student_company_subscriptions d;
     audit_logs := audit_logs d |}.

Definition set_application_requests (t : table app_request) (d : db) : db :=
  {| users := users d; students := students d; companies := companies d;
     applications := applications d;
     company_openings := company_openings d;
     company_interviews := company_interviews d;
     application_requests := t;
     student_company_subscriptions := student_company_subscriptions d;
     audit_logs := audit_logs d |}.

Definition set_subscriptions (t : table subscription) (d : db) : db :=
  {| users := users d; students := students d; companies := companies d;
     applications := applications d;
     company_openings := company_openings d;
     company_interviews := company_interviews d;
     application_requests := application_requests d;
     student_company_subscriptions := t;
     audit_logs := audit_logs d |}.

Definition set_students (t : table student_row) (d : db) : db :=
  {| users := users d; students := t; companies := companies d;
     applications := applications d;
     company_openings := company_openings d;
     company_interviews := company_interviews d;
     application_requests := application_requests d;
     student_company_subscriptions := student_company_subscriptions d;
     audit_logs := audit_logs d |}.

Definition set_companies (t : table company_row) (d : db) : db :=
  {| users := users d; students := students d; companies := t;
     applications := applications d;
     company_openings := company_openings d;
     company_interviews := company_interviews d;
     application_requests := application_requests d;
     student_company_subscriptions := student_company_subscriptions d;
     audit_logs := audit_logs d |}.

Definition set_audit_logs (t : table audit_log) (d : db) : db :=
  {| users := users d; students := students d; companies := companies d;
     applications := applications d;
     company_openings := company_openings d;
     company_interviews := company_interviews d;
     application_requests := application_requests d;
     student_company_subscriptions := student_company_subscriptions d;
     audit_logs := t |}.

Definition empty_db : db :=
  {| users := empty_table; students := empty_table; companies := empty_table;
     applications := empty_table; company_openings := empty_table;
     company_interviews := empty_table; application_requests := empty_table;
     student_company_subscriptions := empty_table; audit_logs := empty_table |}.

(** ** Events, responses and the server state *)

(** The payloads handed to [io.emit]. *)
Inductive payload : Type :=
| PApplication (action : string) (a : application)
| PApplicationId (action : string) (applicationId : Z)
| POpening (action : string) (openingId : Z) (companyId : option Z)
| PAdmin (actionType entityType : string) (entityId : option Z)
         (details : list (string * jsval)).

Record event : Type := {
  ev_name : string;
  ev_payload : payload
}.

(** The bodies passed to [res.json]. *)
Inductive resbody : Type :=
| RError (msg : string)
| RStatus (s : string)
| RApplied (id : Z)
| ROpening (o : opening)
| RJoinedOpenings (l : list (opening * company_row))
| RApplication (a : option application).

Record response : Type := {
  status : Z;
  resp_body : resbody
}.

Record server : Type := {
  store : db;
  outbox : list event;            (* what [io.emit] has broadcast, oldest first *)
  sms_out : list (string * string) (* the calls of [sendSMS]: recipient, text *)
}.

Definition boot (d : db) : server :=
  {| store := d; outbox := []; sms_out := [] |}.

(** ** The handler monad *)

Definition M (A : Type) : Type := server -> (response + A) * server.

Definition ret {A : Type} (a : A) : M A := fun s => (inr a, s).

Definition bind {A B : Type} (m : M A) (k : A -> M B) : M B :=
  fun s =>
    match m s with
    | (inl r, s') => (inl r, s')
    | (inr a, s') => k a s'
    end.

Declare Scope handler_scope.
Delimit Scope handler_scope with handler.
Notation "x <- m ;; k" := (bind m (fun x => k))
  (at level 61, m at next level, right associativity) : handler_scope.
Notation "m ;; k" := (bind m (fun _ => k))
  (at level 61, right associativity) : handler_scope.
Open Scope handler_scope.

(** [return res.status(code).json(b)]: the request is answered. *)
Definition send {A : Type} (code : Z) (b : resbody) : M A :=
  fun s => (inl {| status := code; resp_body := b |}, s).

(** [res.json(b)] *)
Definition json {A : Type} (b : resbody) : M A := send 200 b.

Definition query {A : Type} (f : db -> A) : M A :=
  fun s => (inr (f (store s)), s).

Definition exec (f : db -> db) : M unit :=
  fun s => (inr tt, {| store := f (store s); outbox := outbox s; sms_out := sms_out s |}).

Definition emit (name : string) (p : payload) : M unit :=
  fun s => (inr tt, {| store := store s;
                       outbox := outbox s ++ [{| ev_name := name; ev_payload := p |}];
                       sms_out := sms_out s |}).

Definition sendSMS (to body : string) : M unit :=
  fun s => (inr tt, {| store := store s; outbox := outbox s;
                       sms_out := sms_out s ++ [(to, body)] |}).

(** A handler always answers. *)
Definition handler : Type := M Empty_set.

Definition run (h : handler) (s : server) : response * server :=
  match h s with
  | (inl r, s') => (r, s')
  | (inr e, _) => match e with end
  end.

(** ** Requests *)

(** The verified payload of a token, which becomes [req.user]. *)
Record user : Type := {
  userId : option Z;
  role : option string;
  studentId : option Z;
  companyId : option Z
}.

(** The [Authorization] header, with [jwt.verify] already applied to a
    well-formed one. *)
Inductive auth_header : Type :=
| NoHeader
| Malformed
| BadToken
| Bearer (decoded : user).

Record body : Type := {
  b_company_id : option Z;
  b_student_id : option Z;
  b_stage : option string;
  b_notes : option string;
  b_position : option string;
  b_department : option string;
  b_why_internship : option string;
  b_skills_fit : option string;
  b_career_goals : option string;
  b_relevant_experience : option string;
  b_request_text : option string;
  b_response_text : option string;
  b_role_title : option string;
  b_expectations : option string;
  b_slots : option string;
  b_location : option string;
  b_deadline : option string
}.

Record request : Type := {
  authorization : auth_header;
  p_id : Z;                          (* req.params.id *)
  p_companyId : Z;                   (* req.params.companyId *)
  p_type : string;                   (* req.params.type *)
  req_query : list (string * string);
  req_body : body;
  clock : Z                          (* datetime('now') while it is served *)
}.

Definition no_body : body :=
  {| b_company_id := None; b_student_id := None; b_stage := None;
     b_notes := None; b_position := None; b_department := None;
     b_why_internship := None; b_skills_fit := None; b_career_goals := None;
     b_relevant_experience := None; b_request_text := None;
     b_response_text := None; b_role_title := None; b_expectations := None;
     b_slots := None; b_location := None; b_deadline := None |}.

(** ** Middleware and helpers *)

Definition authenticateToken (req : request) : M user :=
  match authorization req with
  | NoHeader => send 401 (RError "Missing token")
  | Malformed => send 401 (RError "Invalid token format")
  | BadToken => send 403 (RError "Invalid token")
  | Bearer decoded =>
      if negb (truthyZ (userId decoded)) then send 403 (RError "Invalid token")
      else if truthyZ (studentId decoded) || truthyZ (companyId decoded)
      then ret decoded
      else
        row <- query (fun d =>
                 match userId decoded with
                 | Some uid => select_one (fun u => Z.eqb (us_id u) uid) (users d)
                 | None => None
                 end) ;;
        ret {| userId := userId decoded;
               role := orElseS (match row with Some r => us_role r | None => None end)
                               (role decoded);
               studentId := orNullZ (match row with Some r => us_student_id r | None => None end);
               companyId := orNullZ (match row with Some r => us_company_id r | None => None end) |}
  end.

(** Who the request is served as: the outcome of [authenticateToken] on a
    given store. *)
Definition identity (req : request) (d : db) : response + user :=
  fst (authenticateToken req (boot d)).

Definition authorizeRole (allowed : list string) (u : user) : M unit :=
  if negb (Nat.eqb (List.length allowed) 0)
     && negb (existsb (fun r => roleIs (role u) r) allowed)
  then send 403 (RError "Forbidden")
  else ret tt.

Definition logAudit (now : Z) (actorUserId : option Z) (actionType entityType : string)
    (entityId : option Z) (details : list (string * jsval)) : M unit :=
  exec (fun d =>
    set_audit_logs
      (insert_row au_id (audit_logs d) (fun i =>
         {| au_id := i; au_actor_user_id := actorUserId;
            au_action_type := actionType; au_entity_type := entityType;
            au_entity_id := entityId; au_details := details;
            au_created_at := now |})) d) ;;
  emit "admin:changed" (PAdmin actionType entityType entityId details).

Definition emitApplicationsChanged (p : payload) : M unit :=
  emit "applications:changed" p.

Definition emitOpeningsChanged (p : payload) : M unit :=
  emit "openings:changed" p.

(** [if (!v) return res.status(code).json({ error: msg })] on a numeric value. *)
Definition requireZ (v : option Z) (code : Z) (msg : string) : M Z :=
  match v with
  | Some z => if Z.eqb z 0 then send code (RError msg) else ret z
  | None => send code (RError msg)
  end.

(** The same on a text value. *)
Definition requireS (v : option string) (code : Z) (msg : string) : M string :=
  match v with
  | Some s => if String.eqb s "" then send code (RError msg) else ret s
  | None => send code (RError msg)
  end.

(** [if (!row) return res.status(code).json({ error: msg })] *)
Definition requireRow {A : Type} (row : option A) (code : Z) (msg : string) : M A :=
  match row with
  | Some r => ret r
  | None => send code (RError msg)
  end.

(** [if (!ok) return res.status(code).json({ error: msg })] *)
Definition guard (ok : bool) (code : Z) (msg : string) : M unit :=
  if ok then ret tt else send code (RError msg).

(** ** Subscription registry *)

Module Subscriptions.

Definition matches (s c : Z) (r : subscription) : bool :=
  Z.eqb (sub_student_id r) s && Z.eqb (sub_company_id r) c.

(** [INSERT OR IGNORE INTO student_company_subscriptions (student_id,
    company_id)] under [UNIQUE(student_id, company_id)]: a pair already
    present keeps the rows as they are.  The rowid the statement had taken
    for the new row is spent all the same: SQLite records it in the
    AUTOINCREMENT counter before it meets the conflict. *)
Definition insert_or_ignore (now s c : Z) (t : table subscription) : table subscription :=
  if existsb (matches s c) (rows t)
  then {| rows := rows t; seq := next_id sub_id t |}
  else insert_row sub_id t (fun i =>
         {| sub_id := i; sub_student_id := s; sub_company_id := c;
            sub_created_at := now |}).

(** [POST /api/subscriptions] *)
Definition post_subscriptions (req : request) : handler :=
  u <- authenticateToken req ;;
  authorizeRole ["student"] u ;;
  s <- requireZ (studentId u) 400 "Student profile not linked to account" ;;
  c <- requireZ (b_company_id (req_body req)) 400 "company_id required" ;;
  exec (fun d => set_subscriptions
                   (insert_or_ignore (clock req) s c (student_company_subscriptions d)) d) ;;
  logAudit (clock req) (userId u) "subscription_add" "subscription" None
           [("student_id", JNum s); ("company_id", JNum c)] ;;
  json (RStatus "subscribed").

(** [DELETE /api/subscriptions/:companyId] *)
Definition delete_subscription (req : request) : handler :=
  u <- authenticateToken req ;;
  authorizeRole ["student"] u ;;
  s <- requireZ (studentId u) 400 "Student profile not linked to account" ;;
  exec (fun d => set_subscriptions
                   (delete_where (matches s (p_companyId req))
                                 (student_company_subscriptions d)) d) ;;
  logAudit (clock req) (userId u) "subscription_remove" "subscription" None
           [("student_id", JNum s); ("company_id", JNum (p_companyId req))] ;;
  json (RStatus "unsubscribed").

(** How many rows the registry holds for a pair. *)
Definition count_pair (d : db) (s c : Z) : nat :=
  List.length (select_all (matches s c) (student_company_subscriptions d)).

(** [UNIQUE(student_id, company_id)] *)
Definition unique_pairs (t : table subscription) : Prop :=
  forall s c, (List.length (select_all (matches s c) t) <= 1)%nat.

End Subscriptions.

(** ** Opening catalog *)

Module Openings.

(** [ORDER BY co.created_at DESC] as an insertion sort; rows with equal
    keys stay in the order of the join (SQLite leaves that order open). *)
Fixpoint insert_desc {A : Type} (k : A -> Z) (x : A) (l : list A) : list A :=
  match l with
  | [] => [x]
  | y :: l' => if Z.leb (k y) (k x) then x :: l else y :: insert_desc k x l'
  end.

Definition order_by_desc {A : Type} (k : A -> Z) (l : list A) : list A :=
  fold_right (insert_desc k) [] l.

(** [FROM company_openings co JOIN companies c ON c.id = co.company_id] *)
Definition join_companies (d : db) : list (opening * company_row) :=
  flat_map (fun o =>
    map (fun c => (o, c))
        (filter (fun c => colEqZ (op_company_id o) (co_id c)) (rows (companies d))))
    (rows (company_openings d)).

(** [... JOIN student_company_subscriptions s ON s.company_id =
    co.company_id WHERE s.student_id = ?] *)
Definition join_subscriptions (d : db) (s : Z) : list (opening * company_row) :=
  flat_map (fun oc =>
    map (fun _ => oc)
        (filter (fun r => colEqZ (op_company_id (fst oc)) (sub_company_id r)
                          && Z.eqb (sub_student_id r) s)
                (rows (student_company_subscriptions d))))
    (join_companies d).

(** [GET /api/openings] *)
Definition get_openings (req : request) : handler :=
  u <- authenticateToken req ;;
  if roleIs (role u) "student" then
    s <- requireZ (studentId u) 400 "Student profile not linked to account" ;;
    l <- query (fun d => order_by_desc (fun oc => op_created_at (fst oc))
                                        (join_subscriptions d s)) ;;
    json (RJoinedOpenings l)
  else
    l <- query (fun d => order_by_desc (fun oc => op_created_at (fst oc))
                                        (join_companies d)) ;;
    json (RJoinedOpenings l).

(** [POST /api/company-openings].  The mail to the subscribers
    ([notifySubscribersForOpening]) leaves the store and the broadcast
    untouched and is not represented. *)
Definition post_company_openings (req : request) : handler :=
  u <- authenticateToken req ;;
  guard (roleIs (role u) "company" || roleIs (role u) "admin") 403 "Forbidden" ;;
  let b := req_body req in
  c <- requireZ (if roleIs (role u) "admin" then b_company_id b else companyId u)
                400 "company_id required" ;;
  guard (truthyS (b_department b) && truthyS (b_expectations b))
        400 "department and expectations required" ;;
  lastID <- query (fun d => next_id op_id (company_openings d)) ;;
  exec (fun d => set_company_openings
          (insert_row op_id (company_openings d) (fun i =>
             {| op_id := i; op_company_id := Some c;
                op_department := b_department b;
                op_role_title := orNullS (b_role_title b);
                op_expectations := b_expectations b;
                op_slots := orNullS (b_slots b);
                op_location := orNullS (b_location b);
                op_deadline := orNullS (b_deadline b);
                op_created_at := clock req |})) d) ;;
  row <- query (fun d => select_one (fun o => Z.eqb (op_id o) lastID) (company_openings d)) ;;
  (* [row.id] on a missing row would throw; the row just inserted is found *)
  row <- requireRow row 500 "TypeError" ;;
  logAudit (clock req) (userId u) "opening_create" "opening" (Some (op_id row))
           [("company_id", JNum c); ("department", jstr (b_department b));
            ("role_title", jstr (b_role_title b))] ;;
  emitOpeningsChanged (POpening "created" (op_id row) (Some c)) ;;
  json (ROpening row).

(** [DELETE /api/company-openings/:id] *)
Definition delete_company_opening (req : request) : handler :=
  u <- authenticateToken req ;;
  row <- query (fun d => select_one (fun o => Z.eqb (op_id o) (p_id req)) (company_openings d)) ;;
  row <- requireRow row 404 "Not found" ;;
  guard (roleIs (role u) "admin"
         || (roleIs (role u) "company" && truthyZ (companyId u)
             && strictEqZ (companyId u) (op_company_id row)))
        403 "Forbidden" ;;
  exec (fun d => set_company_openings
          (delete_where (fun o => Z.eqb (op_id o) (p_id req)) (company_openings d)) d) ;;
  logAudit (clock req) (userId u) "opening_delete" "opening" (Some (p_id req))
           [("company_id", jnum (op_company_id row))] ;;
  json (RStatus "deleted").

End Openings.

(** ** Application record store *)

Module Applications.

Definition has_id (id : Z) (a : application) : bool := Z.eqb (app_id a) id.

(** [SELECT 1 FROM student_company_subscriptions WHERE student_id = ? AND
    company_id = ?] *)
Definition subscribed (d : db) (s c : Z) : bool :=
  existsb (Subscriptions.matches s c) (rows (student_company_subscriptions d)).

(** [SELECT 1 FROM applications WHERE student_id = ? AND company_id = ?
    AND stage = 'Rejected'] *)
Definition is_rejected_for (s c : Z) (a : application) : bool :=
  colEqZ (app_student_id a) s && colEqZ (app_company_id a) c
  && colEqS (app_stage a) "Rejected".

Definition rejected_before (d : db) (s c : Z) : bool :=
  existsb (is_rejected_for s c) (rows (applications d)).

(** The row [POST /api/applications] inserts. *)
Definition new_application (req : request) (s c i : Z) : application :=
  let b := req_body req in
  {| app_id := i;
     app_student_id := Some s;
     app_company_id := Some c;
     app_position := orElseS (b_position b) (orElseS (b_department b) (Some ""));
     app_department := orNullS (b_department b);
     app_why_internship := orNullS (b_why_internship b);
     app_skills_fit := orNullS (b_skills_fit b);
     app_career_goals := orNullS (b_career_goals b);
     app_relevant_experience := orNullS (b_relevant_experience b);
     app_stage := Some "Applied";
     app_notes := None;
     app_created_at := clock req |}.

(** [POST /api/applications] *)
Definition post_applications (req : request) : handler :=
  u <- authenticateToken req ;;
  authorizeRole ["student"] u ;;
  s <- requireZ (studentId u) 400 "Student profile not linked to account" ;;
  c <- requireZ (b_company_id (req_body req)) 400 "company_id required" ;;
  row <- query (fun d => subscribed d s c) ;;
  guard row 403 "Subscribe to this company before applying" ;;
  rejectedRow <- query (fun d => rejected_before d s c) ;;
  guard (negb rejectedRow) 403
        "You cannot reapply to this company in the current cycle after a rejection." ;;
  insertedId <- query (fun d => next_id app_id (applications d)) ;;
  exec (fun d => set_applications
          (insert_row app_id (applications d) (new_application req s c)) d) ;;
  row2 <- query (fun d => select_one (has_id insertedId) (applications d)) ;;
  match row2 with
  | Some a => emitApplicationsChanged (PApplication "created" a)
  | None => ret tt
  end ;;
  json (RApplied insertedId).

(** The ownership test shared by the stage and the edit routes. *)
Definition may_touch (u : user) (row : application) : bool :=
  roleIs (role u) "admin"
  || (roleIs (role u) "company" && truthyZ (companyId u)
      && strictEqZ (companyId u) (app_company_id row))
  || (roleIs (role u) "student" && truthyZ (studentId u)
      && strictEqZ (studentId u) (app_student_id row)).

Definition set_stage (stage : option string) (a : application) : application :=
  {| app_id := app_id a; app_student_id := app_student_id a;
     app_company_id := app_company_id a; app_position := app_position a;
     app_department := app_department a;
     app_why_internship := app_why_internship a;
     app_skills_fit := app_skills_fit a;
     app_career_goals := app_career_goals a;
     app_relevant_experience := app_relevant_experience a;
     app_stage := stage;
     app_notes := app_notes a; app_created_at := app_created_at a |}.

Definition sms_text (stage : string) : string :=
  "Your internship application status has been updated to: " ++ stage
  ++ ". Check your dashboard for details.".

(** [PATCH /api/applications/:id/status] *)
Definition patch_application_status (req : request) : handler :=
  u <- authenticateToken req ;;
  let id := p_id req in
  stage <- requireS (b_stage (req_body req)) 400 "stage required" ;;
  row <- query (fun d => select_one (has_id id) (applications d)) ;;
  row <- requireRow row 404 "Not found" ;;
  guard (may_touch u row) 403 "Forbidden" ;;
  exec (fun d => set_applications
          (update_where (has_id id) (set_stage (Some stage)) (applications d)) d) ;;
  updated <- query (fun d => select_one (has_id id) (applications d)) ;;
  match updated with
  | Some a =>
      logAudit (clock req) (userId u) "application_stage" "application" (Some id)
               [("stage", JStr stage)] ;;
      emitApplicationsChanged (PApplication "updated" a) ;;
      studentRow <- query (fun d =>
                      match app_student_id a with
                      | Some sid => select_one (fun r => Z.eqb (st_id r) sid) (students d)
                      | None => None
                      end) ;;
      match studentRow with
      | Some r => if truthyS (st_phone r)
                  then sendSMS (match st_phone r with Some p => p | None => "" end)
                               (sms_text stage)
                  else ret tt
      | None => ret tt
      end
  | None => ret tt
  end ;;
  json (RStatus "updated").

(** [PUT /api/applications/:id] (admin) *)
Definition put_application (req : request) : handler :=
  u <- authenticateToken req ;;
  authorizeRole ["admin"] u ;;
  let id := p_id req in
  let b := req_body req in
  exec (fun d => set_applications
          (update_where (has_id id) (fun a =>
             {| app_id := app_id a;
                app_student_id := orNullZ (b_student_id b);
                app_company_id := orNullZ (b_company_id b);
                app_position := orNullS (b_position b);
                app_department := orNullS (b_department b);
                app_why_internship := orNullS (b_why_internship b);
                app_skills_fit := orNullS (b_skills_fit b);
                app_career_goals := orNullS (b_career_goals b);
                app_relevant_experience := orNullS (b_relevant_experience b);
                app_stage := orElseS (b_stage b) (Some "Applied");
                app_notes := orNullS (b_notes b);
                app_created_at := app_created_at a |}) (applications d)) d) ;;
  row <- query (fun d => select_one (has_id id) (applications d)) ;;
  logAudit (clock req) (userId u) "application_update" "application" (Some id)
           [("student_id", jnum (b_student_id b)); ("company_id", jnum (b_company_id b));
            ("stage", jstr (b_stage b))] ;;
  json (RApplication row).

(** [if (typeof v !== 'undefined') { fields.push('col = ?'); params.push(v || null); }] *)
Definition patched (v old : option string) : option string :=
  match v with
  | Some _ => orNullS v
  | None => old
  end.

Definition is_defined (v : option string) : bool :=
  match v with Some _ => true | None => false end.

(** The [SET] list [PATCH /api/applications/:id] builds from the body. *)
Definition apply_patch (b : body) (a : application) : application :=
  {| app_id := app_id a; app_student_id := app_student_id a;
     app_company_id := app_company_id a;
     app_position := patched (b_position b) (app_position a);
     app_department := patched (b_department b) (app_department a);
     app_why_internship := patched (b_why_internship b) (app_why_internship a);
     app_skills_fit := patched (b_skills_fit b) (app_skills_fit a);
     app_career_goals := patched (b_career_goals b) (app_career_goals a);
     app_relevant_experience :=
       patched (b_relevant_experience b) (app_relevant_experience a);
     app_stage := app_stage a;
     app_notes := patched (b_notes b) (app_notes a);
     app_created_at := app_created_at a |}.

Definition patch_fields (b : body) : list (option string) :=
  [b_notes b; b_position b; b_department b; b_why_internship b; b_skills_fit b;
   b_career_goals b; b_relevant_experience b].

(** What an edit does to one column, said apart from the route: a field
    the body names is written, an empty text as null; a field the body
    leaves out keeps its value. *)
Definition edited (sent old new : option string) : Prop :=
  match sent with
  | Some v => new = (if String.eqb v "" then None else Some v)
  | None => new = old
  end.

(** [PATCH /api/applications/:id] *)
Definition patch_application (req : request) : handler :=
  u <- authenticateToken req ;;
  let id := p_id req in
  let b := req_body req in
  row <- query (fun d => select_one (has_id id) (applications d)) ;;
  row <- requireRow row 404 "Not found" ;;
  guard (may_touch u row) 403 "Forbidden" ;;
  guard (existsb is_defined (patch_fields b)) 400 "No fields to update" ;;
  exec (fun d => set_applications
          (update_where (has_id id) (apply_patch b) (applications d)) d) ;;
  updated <- query (fun d => select_one (has_id id) (applications d)) ;;
  match updated with
  | Some a =>
      logAudit (clock req) (userId u) "application_edit" "application" (Some id) [] ;;
      emitApplicationsChanged (PApplication "updated" a)
  | None => ret tt
  end ;;
  json (RStatus "updated").

(** The handler of [DELETE /api/:type/:id], which is registered with no
    middleware and after every other route; which requests reach it is
    [Router.delete_api] below. *)
Definition delete_generic (req : request) : handler :=
  let id := p_id req in
  (if String.eqb (p_type req) "students"
   then exec (fun d => set_students
                (delete_where (fun r => Z.eqb (st_id r) id) (students d)) d)
   else exec (fun d => set_companies
                (delete_where (fun r => Z.eqb (co_id r) id) (companies d)) d)) ;;
  json (RStatus "Deleted").

End Applications.

(** ** Clarification thread *)

Module Thread.

Definition for_app (id : Z) (r : app_request) : bool :=
  colEqZ (rq_application_id r) id.

(** [SELECT * FROM application_requests WHERE application_id = ?] *)
Definition thread_of (d : db) (id : Z) : option app_request :=
  select_one (for_app id) (application_requests d).

(** [SET request_text = ?, response_text = NULL, updated_at = datetime('now')] *)
Definition overwrite_request (now : Z) (text : string) (r : app_request) : app_request :=
  {| rq_id := rq_id r; rq_application_id := rq_application_id r;
     rq_request_text := Some text; rq_response_text := None;
     rq_created_at := rq_created_at r; rq_updated_at := now |}.

(** [SET response_text = ?, updated_at = datetime('now')] *)
Definition write_response (now : Z) (text : string) (r : app_request) : app_request :=
  {| rq_id := rq_id r; rq_application_id := rq_application_id r;
     rq_request_text := rq_request_text r; rq_response_text := Some text;
     rq_created_at := rq_created_at r; rq_updated_at := now |}.

(** [POST /api/applications/:id/request] *)
Definition post_application_request (req : request) : handler :=
  u <- authenticateToken req ;;
  let id := p_id req in
  request_text <- requireS (b_request_text (req_body req)) 400 "request_text required" ;;
  guard (roleIs (role u) "company" || roleIs (role u) "admin") 403 "Forbidden" ;;
  appRow <- query (fun d => select_one (Applications.has_id id) (applications d)) ;;
  appRow <- requireRow appRow 404 "Not found" ;;
  guard (roleIs (role u) "admin"
         || (roleIs (role u) "company" && truthyZ (companyId u)
             && strictEqZ (companyId u) (app_company_id appRow)))
        403 "Forbidden" ;;
  row <- query (fun d => thread_of d id) ;;
  match row with
  | Some _ =>
      exec (fun d => set_application_requests
              (update_where (for_app id) (overwrite_request (clock req) request_text)
                            (application_requests d)) d) ;;
      emitApplicationsChanged (PApplicationId "request" id) ;;
      json (RStatus "updated")
  | None =>
      exec (fun d => set_application_requests
              (insert_row rq_id (application_requests d) (fun i =>
                 {| rq_id := i; rq_application_id := Some id;
                    rq_request_text := Some request_text; rq_response_text := None;
                    rq_created_at := clock req; rq_updated_at := clock req |})) d) ;;
      emitApplicationsChanged (PApplicationId "request" id) ;;
      json (RStatus "created")
  end.

(** [PATCH /api/applications/:id/request-response] *)
Definition patch_request_response (req : request) : handler :=
  u <- authenticateToken req ;;
  let id := p_id req in
  response_text <- requireS (b_response_text (req_body req)) 400 "response_text required" ;;
  guard (roleIs (role u) "student" && truthyZ (studentId u)) 403 "Forbidden" ;;
  appRow <- query (fun d => select_one (Applications.has_id id) (applications d)) ;;
  appRow <- requireRow appRow 404 "Not found" ;;
  guard (strictEqZ (app_student_id appRow) (studentId u)) 403 "Forbidden" ;;
  row <- query (fun d => thread_of d id) ;;
  _ <- requireRow row 404 "Request not found" ;;
  exec (fun d => set_application_requests
          (update_where (for_app id) (write_response (clock req) response_text)
                        (application_requests d)) d) ;;
  emitApplicationsChanged (PApplicationId "response" id) ;;
  json (RStatus "updated").

(** The company behind the request owns the application. *)
Definition company_owns (u : user) (a : application) : bool :=
  truthyZ (companyId u) && strictEqZ (companyId u) (app_company_id a).

(** The student behind the request owns the application. *)
Definition student_owns (u : user) (a : application) : bool :=
  roleIs (role u) "student" && truthyZ (studentId u)
  && strictEqZ (app_student_id a) (studentId u).

(** What [POST /api/applications/:id/request] writes. *)
Definition after_request (now id : Z) (text : string) (t : table app_request)
  : table app_request :=
  match select_one (for_app id) t with
  | Some _ => update_where (for_app id) (overwrite_request now text) t
  | None => insert_row rq_id t (fun i =>
              {| rq_id := i; rq_application_id := Some id;
                 rq_request_text := Some text; rq_response_text := None;
                 rq_created_at := now; rq_updated_at := now |})
  end.

(** Every thread row carries a request text: rows are inserted with one
    and no statement clears it. *)
Definition threads_have_request (d : db) : Prop :=
  forall r, In r (rows (application_requests d)) -> rq_request_text r <> None.

End Thread.

(** ** The stage machine of the specification

    Section 4.1 in its own words, to compare the route with: the
    transitions a company may make and the ones a student may make (an
    edge of the machine that the role is authorized for).  No definition of
    the server refers to it. *)

Module Spec41.

Definition terminal (s : string) : bool :=
  String.eqb s "Placed" || String.eqb s "Rejected" || String.eqb s "Withdrawn".

Definition company_edge (from to : string) : bool :=
  (String.eqb from "Applied" && String.eqb to "Interviewing")
  || (String.eqb from "Interviewing" && String.eqb to "Offer")
  || (String.eqb from "Offer" && String.eqb to "Placed")
  || (negb (terminal from) && String.eqb to "Rejected")
  || ((String.eqb from "Applied" || String.eqb from "Interviewing")
      && String.eqb to "Waitlisted")
  || (String.eqb from "Waitlisted" && String.eqb to "Interviewing").

Definition student_edge (from to : string) : bool :=
  negb (terminal from) && String.eqb to "Withdrawn".

End Spec41.

(** ** The mutating routes and their broadcasts *)

Module Routes.
Import Applications Openings Thread.

(** The successful mutations of an application, a clarification request
    or an opening that have a route of their own. *)
Inductive mutation : Type :=
| CreateApplication
| ChangeStage
| ReplaceApplication
| EditApplication
| SendRequest
| Respond
| CreateOpening
| DeleteOpening.

Definition route (m : mutation) : request -> handler :=
  match m with
  | CreateApplication => post_applications
  | ChangeStage => patch_application_status
  | ReplaceApplication => put_application
  | EditApplication => patch_application
  | SendRequest => post_application_request
  | Respond => patch_request_response
  | CreateOpening => post_company_openings
  | DeleteOpening => delete_company_opening
  end.

(** The names of the events a successful mutation broadcasts, in order. *)
Definition broadcast_of (m : mutation) : list string :=
  match m with
  | CreateApplication => ["applications:changed"]
  | ChangeStage => ["admin:changed"; "applications:changed"]
  | ReplaceApplication => ["admin:changed"]
  | EditApplication => ["admin:changed"; "applications:changed"]
  | SendRequest => ["applications:changed"]
  | Respond => ["applications:changed"]
  | CreateOpening => ["admin:changed"; "openings:changed"]
  | DeleteOpening => ["admin:changed"]
  end.

Definition kinds : list string :=
  ["applications:changed"; "openings:changed"; "admin:changed"].

(** What a call added to the broadcast: [names] when it answered 200,
    nothing otherwise. *)
Definition broadcasts (h : handler) (st : server) (names : list string) : Prop :=
  exists evs,
    outbox (snd (run h st)) = (outbox st ++ evs)%list
    /\ (if Z.eqb (status (fst (run h st))) 200
        then map ev_name evs = names
        else evs = []).

(** The same path parameters under any other caller, body, query string
    and time. *)
Definition same_target (req : request) (a : auth_header) (q : list (string * string))
    (b : body) (c now : Z) : request :=
  {| authorization := a; p_id := p_id req; p_companyId := c; p_type := p_type req;
     req_query := q; req_body := b; clock := now |}.

End Routes.

(** ** A sample deployment *)

Module Sample.

Definition student_user (s : Z) : user :=
  {| userId := Some 11; role := Some "student";
     studentId := Some s; companyId := None |}.

Definition company_user (c : Z) : user :=
  {| userId := Some 21; role := Some "company";
     studentId := None; companyId := Some c |}.

Definition student_token (s : Z) : auth_header := Bearer (student_user s).

Definition company_token (c : Z) : auth_header := Bearer (company_user c).

Definition fields (company : option Z) (stage request response why : option string)
  : body :=
  {| b_company_id := company; b_student_id := None; b_stage := stage;
     b_notes := None; b_position := None; b_department := None;
     b_why_internship := why; b_skills_fit := None; b_career_goals := None;
     b_relevant_experience := None; b_request_text := request;
     b_response_text := response; b_role_title := None; b_expectations := None;
     b_slots := None; b_location := None; b_deadline := None |}.

(** A body that names the four essay fields. *)
Definition essays (why skills goals experience : string) : body :=
  {| b_company_id := None; b_student_id := None; b_stage := None;
     b_notes := None; b_position := None; b_department := None;
     b_why_internship := Some why; b_skills_fit := Some skills;
     b_career_goals := Some goals; b_relevant_experience := Some experience;
     b_request_text := None; b_response_text := None; b_role_title := None;
     b_expectations := None; b_slots := None; b_location := None;
     b_deadline := None |}.

Definition call (a : auth_header) (id : Z) (b : body) : request :=
  {| authorization := a; p_id := id; p_companyId := id; p_type := "";
     req_query := []; req_body := b; clock := 1000 |}.

(** Application 1 of student 1 with company 7, in a given stage. *)
Definition the_application (stage : string) : application :=
  {| app_id := 1; app_student_id := Some 1; app_company_id := Some 7;
     app_position := Some "Analyst"; app_department := Some "Data";
     app_why_internship := Some "To learn"; app_skills_fit := None;
     app_career_goals := None; app_relevant_experience := None;
     app_stage := Some stage; app_notes := None; app_created_at := 10 |}.

Definition the_opening (i c : Z) : opening :=
  {| op_id := i; op_company_id := Some c; op_department := Some "Data";
     op_role_title := None; op_expectations := Some "Curiosity";
     op_slots := None; op_location := None; op_deadline := None;
     op_created_at := i |}.

Definition the_thread : app_request :=
  {| rq_id := 1; rq_application_id := Some 1;
     rq_request_text := Some "Please share your GPA"; rq_response_text := None;
     rq_created_at := 20; rq_updated_at := 20 |}.

(** Student 1 follows company 7 and not company 8; each company has one
    opening; application 1 has an open clarification request. *)
Definition deployment (stage : string) : db :=
  {| users := empty_table;
     students := {| rows := [{| st_id := 1; st_phone := None |}]; seq := 1 |};
     companies := {| rows := [{| co_id := 7; co_name := Some "Acme" |};
                              {| co_id := 8; co_name := Some "Bolt" |}];
                     seq := 8 |};
     applications := {| rows := [the_application stage]; seq := 1 |};
     company_openings := {| rows := [the_opening 1 7; the_opening 2 8]; seq := 2 |};
     company_interviews := empty_table;
     application_requests := {| rows := [the_thread]; seq := 1 |};
     student_company_subscriptions :=
       {| rows := [{| sub_id := 1; sub_student_id := 1; sub_company_id := 7;
                      sub_created_at := 5 |}];
          seq := 1 |};
     audit_logs := empty_table |}.

Definition stage_of (id : Z) (s : server) : option (option string) :=
  option_map app_stage (select_one (Applications.has_id id) (applications (store s))).

(** The four essay fields of application [id]. *)
Definition essays_of (id : Z) (s : server) : option (list (option string)) :=
  option_map (fun a => [app_why_internship a; app_skills_fit a; app_career_goals a;
                        app_relevant_experience a])
             (select_one (Applications.has_id id) (applications (store s))).

(** The exchange of the specification: a request, the student's answer,
    a second request. *)
Definition ask (text : string) : request :=
  call (company_token 7) 1 (fields None None (Some text) None None).

Definition answer (text : string) : request :=
  call (student_token 1) 1 (fields None None None (Some text) None).

Definition after_exchange : server :=
  snd (run (Thread.post_application_request (ask "Also share transcript"))
    (snd (run (Thread.patch_request_response (answer "3.8/4.0"))
      (snd (run (Thread.post_application_request (ask "Please share your GPA"))
                (boot (deployment "Applied"))))))).

Definition subscribe (s c : Z) : request :=
  call (student_token s) 0 (fields (Some c) None None None None).

Definition unsubscribe (s c : Z) : request :=
  call (student_token s) c no_body.

End Sample.

(** * Further routes

    The read routes, the interview slots, the deletions and the client
    functions that consume them.  A route that answers with data is a
    computation [M A]: it either has answered with an error response or
    returns the value it passes to [res.json].  Where a query names a column
    the row records leave out ([s.full_name as student_name]), its result
    keeps the joined row instead. *)

(** ** Joins and orderings *)

Module Sql.

(** [l LEFT JOIN r ON on]: every left row, with each right row it matches or
    with no row when it matches none. *)
Definition left_join {A B : Type} (on : A -> B -> bool) (l : list A) (r : list B)
  : list (A * option B) :=
  flat_map (fun a =>
    match filter (on a) r with
    | [] => [(a, None)]
    | m => map (fun b => (a, Some b)) m
    end) l.

(** [l JOIN r ON on] *)
Definition inner_join {A B : Type} (on : A -> B -> bool) (l : list A) (r : list B)
  : list (A * B) :=
  flat_map (fun a => map (fun b => (a, b)) (filter (on a) r)) l.

(** [col = ?] when the parameter is a JavaScript number or null: a null
    parameter matches nothing. *)
Definition eq_param (col p : option Z) : bool :=
  match p with
  | Some z => colEqZ col z
  | None => false
  end.

(** [col != 'literal']: a null column does not satisfy it. *)
Definition ne_lit (col : option string) (lit : string) : bool :=
  match col with
  | Some s => negb (String.eqb s lit)
  | None => false
  end.

(** [col IN (?, ..., ?)] *)
Definition in_params (col : option Z) (ps : list Z) : bool :=
  existsb (colEqZ col) ps.

(** [ORDER BY] with a ready comparison, as an insertion sort that keeps the
    order of equal rows. *)
Fixpoint insert_by {A : Type} (le : A -> A -> bool) (x : A) (l : list A) : list A :=
  match l with
  | [] => [x]
  | y :: l' => if le x y then x :: l else y :: insert_by le x l'
  end.

Definition order_by {A : Type} (le : A -> A -> bool) (l : list A) : list A :=
  fold_right (insert_by le) [] l.

(** The order of a nullable text column: nulls first, then byte order. *)
Definition text_le (a b : option string) : bool :=
  match a, b with
  | None, _ => true
  | Some _, None => false
  | Some x, Some y => String.leb x y
  end.

End Sql.

(** ** Listings of applications and of clarification threads *)

Module Listings.
Import Sql.

(** A row of [GET /api/applications]: [a.*] with the joined student and
    company. *)
Record application_view : Type := {
  av_app : application;
  av_student : option student_row;
  av_company : option company_row
}.

(** [FROM applications a LEFT JOIN students s ON s.id = a.student_id
     LEFT JOIN companies c ON c.id = a.company_id] *)
Definition joined_applications (d : db) : list application_view :=
  map (fun r => {| av_app := fst (fst r); av_student := snd (fst r);
                   av_company := snd r |})
      (left_join (fun as_ c => colEqZ (app_company_id (fst as_)) (co_id c))
         (left_join (fun a s => colEqZ (app_student_id a) (st_id s))
                    (rows (applications d)) (rows (students d)))
         (rows (companies d))).

(** [GET /api/applications] *)
Definition get_applications (req : request) : M (list application_view) :=
  u <- authenticateToken req ;;
  if roleIs (role u) "student" && truthyZ (studentId u) then
    query (fun d =>
      filter (fun v => eq_param (app_student_id (av_app v)) (studentId u))
             (joined_applications d))
  else if roleIs (role u) "company" && truthyZ (companyId u) then
    query (fun d =>
      filter (fun v => eq_param (app_company_id (av_app v)) (companyId u)
                       && ne_lit (app_stage (av_app v)) "Withdrawn")
             (joined_applications d))
  else query joined_applications.

(** A row of [GET /api/application-requests]. *)
Record thread_view : Type := {
  tv_request : app_request;
  tv_app : application;
  tv_company : company_row
}.

(** [FROM application_requests ar JOIN applications a ON a.id =
     ar.application_id JOIN companies c ON c.id = a.company_id] *)
Definition joined_threads (d : db) : list thread_view :=
  map (fun r => {| tv_request := fst (fst r); tv_app := snd (fst r);
                   tv_company := snd r |})
      (inner_join (fun ra c => colEqZ (app_company_id (snd ra)) (co_id c))
         (inner_join (fun r a => colEqZ (rq_application_id r) (app_id a))
                     (rows (application_requests d)) (rows (applications d)))
         (rows (companies d))).

(** [GET /api/application-requests] *)
Definition get_application_requests (req : request) : M (list thread_view) :=
  u <- authenticateToken req ;;
  if roleIs (role u) "student" && truthyZ (studentId u) then
    query (fun d =>
      filter (fun v => eq_param (app_student_id (tv_app v)) (studentId u))
             (joined_threads d))
  else if roleIs (role u) "company" && truthyZ (companyId u) then
    query (fun d =>
      filter (fun v => eq_param (app_company_id (tv_app v)) (companyId u))
             (joined_threads d))
  else query joined_threads.

End Listings.

(** ** Interview slots *)

Module Interviews.
Import Sql.

(** The fields [PUT /api/company-interviews/:applicationId] reads from the
    body; the application id is [p_id]. *)
Record slot_form : Type := {
  f_interview_date : option string;
  f_interview_time : option string;
  f_mode : option string;
  f_location : option string
}.

Definition for_application (id : Z) (i : interview) : bool :=
  colEqZ (iv_application_id i) id.

(** [SET interview_date = ?, interview_time = ?, mode = ?, location = ?,
     updated_at = datetime('now')] *)
Definition reschedule (now : Z) (f : slot_form) (i : interview) : interview :=
  {| iv_id := iv_id i; iv_company_id := iv_company_id i;
     iv_application_id := iv_application_id i;
     iv_interview_date := orNullS (f_interview_date f);
     iv_interview_time := orNullS (f_interview_time f);
     iv_mode := orNullS (f_mode f);
     iv_location := orNullS (f_location f);
     iv_updated_at := now |}.

(** The row the route inserts when the application has no slot yet. *)
Definition new_slot (now : Z) (f : slot_form) (company : option Z) (application i : Z)
  : interview :=
  {| iv_id := i; iv_company_id := company; iv_application_id := Some application;
     iv_interview_date := orNullS (f_interview_date f);
     iv_interview_time := orNullS (f_interview_time f);
     iv_mode := orNullS (f_mode f);
     iv_location := orNullS (f_location f);
     iv_updated_at := now |}.

Definition set_company_interviews (t : table interview) (d : db) : db :=
  {| users := users d; students := students d; companies := companies d;
     applications := applications d;
     company_openings := company_openings d;
     company_interviews := t;
     application_requests := application_requests d;
     student_company_subscriptions := student_company_subscriptions d;
     audit_logs := audit_logs d |}.

(** [PUT /api/company-interviews/:applicationId] *)
Definition put_company_interview (req : request) (f : slot_form)
  : M (option interview) :=
  u <- authenticateToken req ;;
  let applicationId := p_id req in
  guard (roleIs (role u) "company" || roleIs (role u) "admin") 403 "Forbidden" ;;
  appRow <- query (fun d => select_one (Applications.has_id applicationId) (applications d)) ;;
  appRow <- requireRow appRow 404 "Application not found" ;;
  guard (roleIs (role u) "admin"
         || (roleIs (role u) "company" && truthyZ (companyId u)
             && strictEqZ (companyId u) (app_company_id appRow)))
        403 "Forbidden" ;;
  row <- query (fun d => select_one (for_application applicationId) (company_interviews d)) ;;
  match row with
  | Some _ =>
      exec (fun d => set_company_interviews
              (update_where (for_application applicationId) (reschedule (clock req) f)
                            (company_interviews d)) d) ;;
      updated <- query (fun d => select_one (for_application applicationId)
                                            (company_interviews d)) ;;
      emitApplicationsChanged (PApplicationId "interview" applicationId) ;;
      ret updated
  | None =>
      exec (fun d => set_company_interviews
              (insert_row iv_id (company_interviews d)
                 (new_slot (clock req) f (app_company_id appRow) applicationId)) d) ;;
      created <- query (fun d => select_one (for_application applicationId)
                                            (company_interviews d)) ;;
      emitApplicationsChanged (PApplicationId "interview" applicationId) ;;
      ret created
  end.

(** The ownership test of the route: [allowed]. *)
Definition may_schedule (u : user) (a : application) : bool :=
  roleIs (role u) "admin"
  || (roleIs (role u) "company" && truthyZ (companyId u)
      && strictEqZ (companyId u) (app_company_id a)).

(** What the route writes for application [id]: the slots of the
    application rescheduled, or a first slot inserted. *)
Definition after_put (now id : Z) (f : slot_form) (company : option Z)
    (t : table interview) : table interview :=
  match select_one (for_application id) t with
  | Some _ => update_where (for_application id) (reschedule now f) t
  | None => insert_row iv_id t (new_slot now f company id)
  end.

(** How many slots an application has. *)
Definition slots_of (d : db) (id : Z) : nat :=
  List.length (select_all (for_application id) (company_interviews d)).

(** A row of [GET /api/my-interviews]. *)
Record interview_view : Type := {
  iw_slot : interview;
  iw_app : application;
  iw_company : company_row
}.

(** [FROM company_interviews ci JOIN applications a ON a.id =
     ci.application_id JOIN companies c ON c.id = a.company_id] *)
Definition joined_interviews (d : db) : list interview_view :=
  map (fun r => {| iw_slot := fst (fst r); iw_app := snd (fst r);
                   iw_company := snd r |})
      (inner_join (fun ia c => colEqZ (app_company_id (snd ia)) (co_id c))
         (inner_join (fun i a => colEqZ (iv_application_id i) (app_id a))
                     (rows (company_interviews d)) (rows (applications d)))
         (rows (companies d))).

(** [GET /api/my-interviews] *)
Definition get_my_interviews (req : request) : M (list interview_view) :=
  u <- authenticateToken req ;;
  guard (roleIs (role u) "student" && truthyZ (studentId u)) 403 "Forbidden" ;;
  query (fun d =>
    filter (fun v => eq_param (app_student_id (iw_app v)) (studentId u))
           (joined_interviews d)).

End Interviews.

(** ** Reading the subscription registry *)

Module Registry.
Import Sql.

(** A row of [GET /api/member-companies]: the company and
    [CASE WHEN s.id IS NULL THEN 0 ELSE 1 END as subscribed]. *)
Record member_company : Type := {
  mc_company : company_row;
  mc_subscribed : Z
}.

(** [GET /api/member-companies] *)
Definition get_member_companies (req : request) : M (list member_company) :=
  u <- authenticateToken req ;;
  authorizeRole ["student"] u ;;
  s <- requireZ (studentId u) 400 "Student profile not linked to account" ;;
  query (fun d =>
    order_by (fun x y => text_le (co_name (mc_company x)) (co_name (mc_company y)))
      (map (fun cs => {| mc_company := fst cs;
                         mc_subscribed := match snd cs with Some _ => 1 | None => 0 end |})
           (left_join (fun c r => Z.eqb (sub_company_id r) (co_id c)
                                  && Z.eqb (sub_student_id r) s)
                      (rows (companies d))
                      (rows (student_company_subscriptions d))))).

(** [GET /api/subscriptions]: the ids of the companies the student follows. *)
Definition get_subscriptions (req : request) : M (list Z) :=
  u <- authenticateToken req ;;
  authorizeRole ["student"] u ;;
  s <- requireZ (studentId u) 400 "Student profile not linked to account" ;;
  query (fun d =>
    map sub_company_id
        (select_all (fun r => Z.eqb (sub_student_id r) s)
                    (student_company_subscriptions d))).

(** [GET /api/companies/:id/subscribers-count]; [companyId == id] compares
    the number of the token with the number the path segment spells. *)
Definition get_subscribers_count (req : request) : M Z :=
  u <- authenticateToken req ;;
  let id := p_id req in
  guard (roleIs (role u) "admin"
         || (roleIs (role u) "company" && truthyZ (companyId u)
             && eq_param (companyId u) (Some id)))
        403 "Forbidden" ;;
  query (fun d =>
    Z.of_nat (List.length
                (select_all (fun r => Z.eqb (sub_company_id r) id)
                            (student_company_subscriptions d)))).

(** The student follows a company that has a row. *)
Definition follows (d : db) (s c : Z) : Prop :=
  Applications.subscribed d s c = true
  /\ exists co, In co (rows (companies d)) /\ co_id co = c.

(** The ownership test of the count and of [DELETE /api/companies/:id]. *)
Definition admin_or_company (u : user) (id : Z) : bool :=
  roleIs (role u) "admin"
  || (roleIs (role u) "company" && truthyZ (companyId u)
      && eq_param (companyId u) (Some id)).

End Registry.

(** ** Deleting students and companies *)

Module Removal.
Import Sql.

(** [DELETE /api/students/:id] *)
Definition delete_student (req : request) : handler :=
  u <- authenticateToken req ;;
  authorizeRole ["admin"] u ;;
  let id := p_id req in
  exec (fun d => set_students
          (delete_where (fun r => Z.eqb (st_id r) id) (students d)) d) ;;
  logAudit (clock req) (userId u) "student_delete" "student" (Some id) [] ;;
  json (RStatus "deleted").

(** [DELETE /api/companies/:id] *)
Definition delete_company (req : request) : handler :=
  u <- authenticateToken req ;;
  let id := p_id req in
  guard (roleIs (role u) "admin"
         || (roleIs (role u) "company" && truthyZ (companyId u)
             && eq_param (companyId u) (Some id)))
        403 "Forbidden" ;;
  exec (fun d => set_companies
          (delete_where (fun r => Z.eqb (co_id r) id) (companies d)) d) ;;
  logAudit (clock req) (userId u) "company_delete" "company" (Some id) [] ;;
  json (RStatus "deleted").

End Removal.

(** ** Dispatch of the DELETE routes

    Express answers a request with the first registered route that matches
    its method and path, and matches the fixed segments of a path without
    regard to case.  Five DELETE routes have a path of the form
    [/api/<type>/<id>]; four name their type and are registered before
    [/api/:type/:id], which is last.  The request carries the two segments,
    decoded, as [p_type] and [p_id]. *)

Module Router.

Definition lower_ascii (c : Ascii.ascii) : Ascii.ascii :=
  let n := Ascii.nat_of_ascii c in
  if Nat.leb 65 n && Nat.leb n 90 then Ascii.ascii_of_nat (n + 32) else c.

Fixpoint lower (s : string) : string :=
  match s with
  | EmptyString => EmptyString
  | String c s' => String (lower_ascii c) (lower s')
  end.

(** The path segment matches the fixed segment of a route. *)
Definition segment_is (segment name : string) : bool :=
  String.eqb (lower segment) name.

(** [/api/subscriptions/:companyId] binds the second segment to
    [companyId]. *)
Definition as_companyId (req : request) : request :=
  {| authorization := authorization req; p_id := p_id req;
     p_companyId := p_id req; p_type := p_type req;
     req_query := req_query req; req_body := req_body req; clock := clock req |}.

(** [DELETE /api/<type>/<id>].  [segment] is the type segment of the path
    as it was sent: the fixed segment of a route is compared with it before
    any percent-decoding and without regard to the case of letters.
    [p_type req] is what the last route reads in [req.params.type], the
    segment decoded, so that [DELETE /api/stud%65nts/1] has the segment
    ["stud%65nts"] and the type ["students"]. *)
Definition delete_api (segment : string) (req : request) : handler :=
  if segment_is segment "subscriptions"
  then Subscriptions.delete_subscription (as_companyId req)
  else if segment_is segment "students" then Removal.delete_student req
  else if segment_is segment "company-openings"
  then Openings.delete_company_opening req
  else if segment_is segment "companies" then Removal.delete_company req
  else Applications.delete_generic req.

(** The segments that have a route of their own. *)
Definition guarded_types : list string :=
  ["subscriptions"; "students"; "company-openings"; "companies"].

End Router.

(** ** The client ([App.js]) *)

Module Client.
Import Listings Registry.

(** [app.stage || 'Applied'] *)
Definition shown_stage (a : application) : string :=
  match orElseS (app_stage a) (Some "Applied") with
  | Some s => s
  | None => "Applied"
  end.

(** [hasRejectionForCompany]: the Apply button is disabled when it holds. *)
Definition hasRejectionForCompany (applications : list application_view)
    (companyId : option Z) : bool :=
  existsb (fun v => strictEqZ (app_company_id (av_app v)) companyId
                    && String.eqb (shown_stage (av_app v)) "Rejected")
          applications.

Definition getNextStage (stage : string) : option string :=
  if String.eqb stage "Applied" then Some "Interviewing"
  else if String.eqb stage "Interviewing" then Some "Offer"
  else if String.eqb stage "Offer" then Some "Placed"
  else None.

Definition getStageActionLabel (stage : string) : option string :=
  if String.eqb stage "Applied" then Some "Invite to Interview"
  else if String.eqb stage "Interviewing" then Some "Extend Offer"
  else if String.eqb stage "Offer" then Some "Mark Accepted"
  else None.

(** The call [axios.patch(`${API}/applications/${app.id}/status`,
    { stage: nextStage })] of a session, served at time [now]. *)
Definition stage_request (session : auth_header) (now : Z) (app : application)
    (nextStage : string) : request :=
  {| authorization := session; p_id := app_id app; p_companyId := 0; p_type := "";
     req_query := [];
     req_body :=
       {| b_company_id := None; b_student_id := None; b_stage := Some nextStage;
          b_notes := None; b_position := None; b_department := None;
          b_why_internship := None; b_skills_fit := None; b_career_goals := None;
          b_relevant_experience := None; b_request_text := None;
          b_response_text := None; b_role_title := None; b_expectations := None;
          b_slots := None; b_location := None; b_deadline := None |};
     clock := now |}.

(** [updateApplicationStage]: the request it sends, if any. *)
Definition updateApplicationStage (session : auth_header) (now : Z)
    (app : option application) (nextStage : option string) : option request :=
  match app, nextStage with
  | Some a, Some n => if truthyS nextStage then Some (stage_request session now a n)
                      else None
  | _, _ => None
  end.

(** The stages the buttons of a company's application card (in the full
    view) would send to [updateApplicationStage], in the order of the
    card: the advance button, Waitlist, Reject. *)
Definition company_card_actions (a : application) : list string :=
  let stage := shown_stage a in
  (match getNextStage stage with Some n => [n] | None => [] end)
  ++ (if negb (String.eqb stage "Waitlisted") && negb (String.eqb stage "Rejected")
         && negb (String.eqb stage "Placed")
      then ["Waitlisted"] else [])
  ++ (if negb (String.eqb stage "Rejected") then ["Rejected"] else []).

(** The tab a student's session flags when [applications:changed] arrives,
    from the two lists it has just fetched. *)
Definition student_target (requestList : list thread_view)
    (apps : list application_view) : string :=
  if existsb (fun r => negb (truthyS (rq_response_text (tv_request r)))) requestList
  then "applications"
  else if existsb (fun a =>
            existsb (String.eqb (shown_stage (av_app a)))
                    ["Rejected"; "Interviewing"; "Offer"; "Placed"; "Waitlisted"]) apps
  then "applications"
  else "dashboard".

(** The same for a company's session. *)
Definition company_target (requestList : list thread_view)
    (apps : list application_view) : string :=
  if existsb (fun r => truthyS (rq_response_text (tv_request r))) requestList
  then "company-applications"
  else if existsb (fun a => String.eqb (shown_stage (av_app a)) "Interviewing") apps
  then "company-applications"
  else "company-applications".

(** [subscribedCompanyIds]: the ids of the member companies flagged as
    subscribed (the set as a list). *)
Definition subscribedCompanyIds (memberCompanies : list member_company) : list Z :=
  map (fun c => co_id (mc_company c))
      (filter (fun c => negb (Z.eqb (mc_subscribed c) 0)) memberCompanies).

Definition has (ids : list Z) (id : option Z) : bool :=
  match id with
  | Some z => existsb (Z.eqb z) ids
  | None => false
  end.

(** [visibleStudentApplications] of a student's session. *)
Definition visibleStudentApplications (memberCompanies : list member_company)
    (applications : list application_view) : list application_view :=
  match subscribedCompanyIds memberCompanies with
  | [] => applications
  | ids => filter (fun v => has ids (app_company_id (av_app v))) applications
  end.

(** Whether a student's session reacts to [openings:changed] with the
    given [companyId]: it reloads and flags the internships tab unless the
    company is known not to be followed. *)
Definition student_heeds_opening (memberCompanies : list member_company)
    (companyId : option Z) : bool :=
  negb (truthyZ companyId
        && negb (Nat.eqb (List.length (subscribedCompanyIds memberCompanies)) 0)
        && negb (has (subscribedCompanyIds memberCompanies) companyId)).

End Client.

(** ** Deleting an account with everything it owns *)

Module Accounts.
Import Sql.

(** The two tables the cascade clears besides those of [db], with the
    columns it names. *)
Record ticket : Type := {
  tk_id : Z;
  tk_user_id : option Z
}.

Record profile : Type := {
  pf_id : Z;
  pf_student_id : option Z
}.

Record office : Type := {
  front : server;
  support_tickets : table ticket;
  student_profiles_extended : table profile
}.

Definition on_db (f : db -> db) (o : office) : office :=
  {| front := {| store := f (store (front o)); outbox := outbox (front o);
                 sms_out := sms_out (front o) |};
     support_tickets := support_tickets o;
     student_profiles_extended := student_profiles_extended o |}.

Definition with_front (s : server) (o : office) : office :=
  {| front := s; support_tickets := support_tickets o;
     student_profiles_extended := student_profiles_extended o |}.

Definition set_users (t : table user_row) (d : db) : db :=
  {| users := t; students := students d; companies := companies d;
     applications := applications d;
     company_openings := company_openings d;
     company_interviews := company_interviews d;
     application_requests := application_requests d;
     student_company_subscriptions := student_company_subscriptions d;
     audit_logs := audit_logs d |}.

(** [deleteByAppIds]: the threads and the slots of the listed applications;
    nothing is run for an empty list. *)
Definition deleteByAppIds (appIds : list Z) (d : db) : db :=
  match appIds with
  | [] => d
  | _ =>
      let d1 := set_application_requests
                  (delete_where (fun r => in_params (rq_application_id r) appIds)
                                (application_requests d)) d in
      Interviews.set_company_interviews
        (delete_where (fun i => in_params (iv_application_id i) appIds)
                      (company_interviews d1)) d1
  end.

(** The statements run [if (user.student_id)]. *)
Definition purge_student (sid : Z) (o : office) : office :=
  let appIds := fun d =>
    map app_id (select_all (fun a => colEqZ (app_student_id a) sid) (applications d)) in
  let o1 := on_db (fun d => deleteByAppIds (appIds d) d) o in
  let o2 := on_db (fun d => set_applications
                     (delete_where (fun a => colEqZ (app_student_id a) sid)
                                   (applications d)) d) o1 in
  let o3 := on_db (fun d => set_subscriptions
                     (delete_where (fun r => Z.eqb (sub_student_id r) sid)
                                   (student_company_subscriptions d)) d) o2 in
  let o4 := {| front := front o3; support_tickets := support_tickets o3;
               student_profiles_extended :=
                 delete_where (fun p => colEqZ (pf_student_id p) sid)
                              (student_profiles_extended o3) |} in
  on_db (fun d => set_students
           (delete_where (fun r => Z.eqb (st_id r) sid) (students d)) d) o4.

(** The statements run [if (user.company_id)]. *)
Definition purge_company (cid : Z) (o : office) : office :=
  let appIds := fun d =>
    map app_id (select_all (fun a => colEqZ (app_company_id a) cid) (applications d)) in
  let o1 := on_db (fun d => deleteByAppIds (appIds d) d) o in
  let o2 := on_db (fun d => set_applications
                     (delete_where (fun a => colEqZ (app_company_id a) cid)
                                   (applications d)) d) o1 in
  let o3 := on_db (fun d => set_company_openings
                     (delete_where (fun x => colEqZ (op_company_id x) cid)
                                   (company_openings d)) d) o2 in
  let o4 := on_db (fun d => Interviews.set_company_interviews
                     (delete_where (fun i => colEqZ (iv_company_id i) cid)
                                   (company_interviews d)) d) o3 in
  let o5 := on_db (fun d => set_subscriptions
                     (delete_where (fun r => Z.eqb (sub_company_id r) cid)
                                   (student_company_subscriptions d)) d) o4 in
  on_db (fun d => set_companies
           (delete_where (fun r => Z.eqb (co_id r) cid) (companies d)) d) o5.

(** The deletions of [DELETE /api/admin/users/:id], in the order they
    run: what the student of the account owns, what its company owns, its
    support tickets, the account. *)
Definition cascade (user : user_row) (uid : Z) (o : office) : office :=
  let o1 := match us_student_id user with
            | Some sid => if Z.eqb sid 0 then o else purge_student sid o
            | None => o
            end in
  let o2 := match us_company_id user with
            | Some cid => if Z.eqb cid 0 then o1 else purge_company cid o1
            | None => o1
            end in
  let o3 := {| front := front o2;
               support_tickets :=
                 delete_where (fun t => colEqZ (tk_user_id t) uid) (support_tickets o2);
               student_profiles_extended := student_profiles_extended o2 |} in
  on_db (fun d => set_users (delete_where (fun x => Z.eqb (us_id x) uid) (users d)) d) o3.

Section Status.

(** The [status] column of [users], which [user_row] leaves out, read off
    the row. *)
Variable us_status : user_row -> option string.

Definition active_admin (x : user_row) : bool :=
  colEqS (us_role x) "admin" && colEqS (us_status x) "active".

(** [SELECT COUNT( * ) FROM users WHERE role = 'admin' AND status = 'active'
     AND id != ?] *)
Definition other_active_admins (userId : Z) (d : db) : nat :=
  List.length
    (select_all (fun x => colEqS (us_role x) "admin" && colEqS (us_status x) "active"
                          && negb (Z.eqb (us_id x) userId))
                (users d)).

Definition refuse (code : Z) (msg : string) (o : office) : response * office :=
  ({| status := code; resp_body := RError msg |}, o).

(** [DELETE /api/admin/users/:id] *)
Definition delete_user (req : request) (o : office) : response * office :=
  match authenticateToken req (front o) with
  | (inl r, s) => (r, with_front s o)
  | (inr u, s) =>
      match authorizeRole ["admin"] u s with
      | (inl r, s') => (r, with_front s' o)
      | (inr _, s') =>
          let o := with_front s' o in
          let uid := p_id req in
          if Z.eqb uid 0 then refuse 400 "Invalid user id" o
          else
            match select_one (fun x => Z.eqb (us_id x) uid) (users (store (front o))) with
            | None => refuse 404 "User not found" o
            | Some user =>
                if roleIs (us_role user) "admin"
                   && Nat.eqb (other_active_admins uid (store (front o))) 0
                then refuse 409 "Cannot delete the last admin" o
                else
                  let o4 := cascade user uid o in
                  let s4 := snd (logAudit (clock req) (userId u) "user_delete" "user"
                                          (Some uid)
                                          [("role", jstr (us_role user));
                                           ("student_id", jnum (orNullZ (us_student_id user)));
                                           ("company_id", jnum (orNullZ (us_company_id user)))]
                                          (front o4)) in
                  ({| status := 200; resp_body := RStatus "deleted" |}, with_front s4 o4)
            end
      end
  end.

End Status.

End Accounts.

(** ** Reading student rows *)

Module Students.
Import Sql.



End Students.

(** ** The accounts and their administration

    The [users] table with every column the routes below name; the
    [users] table of [db] is its projection on the columns
    [authenticateToken] selects.  [UNIQUE] on [email] is kept: an update
    that would break it fails and changes nothing.  The functions of the
    platform that the routes call on texts ([trim], [toLowerCase],
    [bcrypt.compare]) are parameters. *)

Module Directory.

(** A body field that holds a text when it is sent: [undefined], [null]
    or a string. *)
Inductive field : Type :=
| Undefined
| Null
| Text (s : string).

(** [typeof f !== 'undefined'] *)
Definition sent (f : field) : bool :=
  match f with Undefined => false | _ => true end.

(** The field as a statement parameter. *)
Definition as_param (f : field) : option string :=
  match f with Text s => Some s | _ => None end.

(** [f || null] as a statement parameter. *)
Definition or_null (f : field) : option string := orNullS (as_param f).

(** [(f || '')] *)
Definition or_empty (f : field) : string :=
  match f with Text s => s | _ => "" end.

Record account : Type := {
  ac_id : Z;
  ac_email : option string;
  ac_username : option string;
  ac_password_hash : option string;
  ac_role : option string;
  ac_student_id : option Z;
  ac_company_id : option Z;
  ac_status : option string
}.

(** [SELECT role, student_id, company_id FROM users WHERE id = ?] *)
Definition view (a : account) : user_row :=
  {| us_id := ac_id a; us_role := ac_role a;
     us_student_id := ac_student_id a; us_company_id := ac_company_id a |}.

Record realm : Type := {
  accounts : table account;
  rest : server   (* the other tables, the broadcast and the messages *)
}.

(** The server the middleware sees. *)
Definition whole (r : realm) : server :=
  {| store := Accounts.set_users
                {| rows := map view (rows (accounts r)); seq := seq (accounts r) |}
                (store (rest r));
     outbox := outbox (rest r);
     sms_out := sms_out (rest r) |}.

Definition refuse (code : Z) (msg : string) (r : realm) : response * realm :=
  ({| status := code; resp_body := RError msg |}, r).

(** [authenticateToken, authorizeRole(['admin'])] *)
Definition as_admin (req : request) (r : realm) : response + user :=
  match authenticateToken req (whole r) with
  | (inl e, _) => inl e
  | (inr u, s) =>
      match authorizeRole ["admin"] u s with
      | (inl e, _) => inl e
      | (inr _, _) => inr u
      end
  end.

(** [role = 'admin' AND status = 'active'] *)
Definition active_admin (x : account) : bool :=
  colEqS (ac_role x) "admin" && colEqS (ac_status x) "active".

(** [SELECT COUNT( * ) as cnt FROM users WHERE role = 'admin' AND status =
     'active' AND id != ?] *)
Definition other_active_admins (id : Z) (t : table account) : nat :=
  List.length (select_all (fun x => active_admin x && negb (Z.eqb (ac_id x) id)) t).

(** *** [PATCH /api/admin/users/:id] *)

Record user_form : Type := {
  f_role : field;
  f_status : field;
  f_email : field;
  f_username : field
}.

(** [typeof f !== 'undefined' ? f : old] *)
Definition next (f : field) (old : option string) : option string :=
  match f with Undefined => old | _ => as_param f end.

(** The [SET] list the route builds. *)
Definition set_fields (f : user_form) (a : account) : account :=
  {| ac_id := ac_id a;
     ac_email := match f_email f with Undefined => ac_email a | v => or_null v end;
     ac_username := match f_username f with Undefined => ac_username a | v => or_null v end;
     ac_password_hash := ac_password_hash a;
     ac_role := next (f_role f) (ac_role a);
     ac_student_id := ac_student_id a;
     ac_company_id := ac_company_id a;
     ac_status := next (f_status f) (ac_status a) |}.

(** Whether the update would leave two rows with one email. *)
Definition email_taken (f : user_form) (id : Z) (t : table account) : bool :=
  match f_email f with
  | Undefined => false
  | v => match or_null v with
         | Some e => existsb (fun x => colEqS (ac_email x) e && negb (Z.eqb (ac_id x) id))
                             (rows t)
         | None => false
         end
  end.

(** An entry of [details]; an [undefined] value is no entry. *)
Definition detail (key : string) (f : field) : list (string * jsval) :=
  match f with
  | Undefined => []
  | Null => [(key, JNull)]
  | Text s => [(key, JStr s)]
  end.

Definition patch_user (req : request) (f : user_form) (r : realm) : response * realm :=
  match as_admin req r with
  | inl e => (e, r)
  | inr u =>
      let id := p_id req in
      if negb (sent (f_role f) || sent (f_status f) || sent (f_email f)
               || sent (f_username f))
      then refuse 400 "No updates provided" r
      else
        match select_one (fun x => Z.eqb (ac_id x) id) (accounts r) with
        | None => refuse 409 "User not found" r
        | Some row =>
            let wasAdmin := roleIs (ac_role row) "admin" in
            let nextRole := next (f_role f) (ac_role row) in
            let nextStatus := next (f_status f) (ac_status row) in
            let removingAdmin :=
              wasAdmin && (negb (roleIs nextRole "admin")
                           || negb (roleIs nextStatus "active")) in
            if removingAdmin && Nat.eqb (other_active_admins id (accounts r)) 0
            then refuse 409 "Cannot remove the last admin" r
            else if email_taken f id (accounts r)
            then refuse 500 "SQLITE_CONSTRAINT: UNIQUE constraint failed: users.email" r
            else
              ({| status := 200; resp_body := RStatus "updated" |},
               {| accounts := update_where (fun x => Z.eqb (ac_id x) id) (set_fields f)
                                           (accounts r);
                  rest := snd (logAudit (clock req) (userId u) "user_update" "user"
                                 (Some id)
                                 (detail "role" (f_role f) ++ detail "status" (f_status f)
                                  ++ detail "email" (f_email f)
                                  ++ detail "username" (f_username f))%list
                                 (rest r)) |})
        end
  end.

Section Texts.

Variable trim : string -> string.
Variable toLowerCase : string -> string.
Variable compare : string -> string -> bool.   (* bcrypt.compare *)

(** *** [POST /api/admin/users/bulk] *)

Record bulk_form : Type := {
  f_action : field;
  f_user_ids : option (list Z)   (* [None]: not an array *)
}.

Definition listed (ids : list Z) (x : account) : bool :=
  existsb (Z.eqb (ac_id x)) ids.

Definition set_status (v : string) (a : account) : account :=
  {| ac_id := ac_id a; ac_email := ac_email a; ac_username := ac_username a;
     ac_password_hash := ac_password_hash a; ac_role := ac_role a;
     ac_student_id := ac_student_id a; ac_company_id := ac_company_id a;
     ac_status := Some v |}.

Definition next_status (normalizedAction : string) : option string :=
  let s1 := if String.eqb normalizedAction "disable" then Some "disabled" else None in
  if String.eqb normalizedAction "enable" || String.eqb normalizedAction "approve"
  then Some "active" else s1.

(** The route answers with the number of rows it has changed. *)
Definition bulk_users (req : request) (f : bulk_form) (r : realm)
  : (response + Z) * realm :=
  match as_admin req r with
  | inl e => (inl e, r)
  | inr u =>
      match f_user_ids f with
      | None | Some [] =>
          (inl {| status := 400; resp_body := RError "user_ids required" |}, r)
      | Some ids =>
          let normalizedAction := trim (or_empty (f_action f)) in
          match next_status normalizedAction with
          | None => (inl {| status := 400; resp_body := RError "Invalid action" |}, r)
          | Some v =>
              (inr (Z.of_nat (List.length (select_all (listed ids) (accounts r)))),
               {| accounts := update_where (listed ids) (set_status v) (accounts r);
                  rest := snd (logAudit (clock req) (userId u) "user_bulk_update" "user"
                                 None
                                 (("action", JStr normalizedAction)
                                  :: map (fun i => ("user_ids", JNum i)) ids)
                                 (rest r)) |})
          end
      end
  end.

(** *** [POST /api/auth/login] *)

Record login_form : Type := {
  l_username : field;
  l_login : field;
  l_identifier : field;
  l_email : field;
  l_password : field;
  l_admin_only : bool   (* [Boolean(admin_only || adminOnly)] *)
}.

(** [a || b || c || ''] on text fields. *)
Definition first_of (a b c : field) : string :=
  if truthyS (as_param a) then or_empty a
  else if truthyS (as_param b) then or_empty b
  else or_empty c.

(** [s || t || null] on texts. *)
Definition either (s t : string) : option string :=
  if negb (String.eqb s "") then Some s
  else if negb (String.eqb t "") then Some t
  else None.

Definition eq_text (col p : option string) : bool :=
  match p with
  | Some v => colEqS col v
  | None => false
  end.

(** The verified payload of the token the route signs. *)
Definition payload_of (a : account) : user :=
  {| userId := Some (ac_id a); role := ac_role a;
     studentId := orNullZ (ac_student_id a);
     companyId := orNullZ (ac_company_id a) |}.

Definition deny (code : Z) (msg : string) : response + user :=
  inl {| status := code; resp_body := RError msg |}.

Definition login (f : login_form) (r : realm) : response + user :=
  let username := trim (first_of (l_username f) (l_login f) (l_identifier f)) in
  let email := trim (first_of (l_email f) (l_login f) (l_identifier f)) in
  let password := or_empty (l_password f) in
  if (String.eqb username "" && String.eqb email "") || String.eqb password ""
  then deny 400 "username/email and password required"
  else
    match select_one (fun x => eq_text (ac_username x) (either username email)
                               || eq_text (ac_email x) (either email username))
                     (accounts r) with
    | None => deny 401 "Invalid credentials"
    | Some a =>
        if l_admin_only f && negb (roleIs (ac_role a) "admin")
        then deny 403 "Admin access only"
        else if negb (l_admin_only f) && roleIs (ac_role a) "admin"
        then deny 403 "Please sign in from the admin portal"
        else if negb (compare password
                        (match orElseS (ac_password_hash a) (Some "") with
                         | Some h => h
                         | None => ""
                         end))
        then deny 401 "Invalid credentials"
        else
          let status := toLowerCase (match orElseS (ac_status a) (Some "active") with
                                     | Some t => t
                                     | None => "active"
                                     end) in
          if negb (String.eqb status "active")
          then deny 403 (if String.eqb status "pending" then "Account pending approval"
                         else "Account disabled")
          else inr (payload_of a)
    end.

End Texts.

End Directory.

(** ** The audit trail *)

Module Audit.

(** The routes that answer with a status only, or with the rows of the
    openings. *)
Inductive endpoint : Type :=
| Mutation (m : Routes.mutation)
| Subscribe
| Unsubscribe
| DeleteStudent
| DeleteCompany
| DeleteAny
| ListOpenings.

Definition serve (e : endpoint) : request -> handler :=
  match e with
  | Mutation m => Routes.route m
  | Subscribe => Subscriptions.post_subscriptions
  | Unsubscribe => Subscriptions.delete_subscription
  | DeleteStudent => Removal.delete_student
  | DeleteCompany => Removal.delete_company
  | DeleteAny => Applications.delete_generic
  | ListOpenings => Openings.get_openings
  end.

(** The event [logAudit] broadcasts for the row it writes. *)
Definition announced (l : audit_log) : event :=
  {| ev_name := "admin:changed";
     ev_payload := PAdmin (au_action_type l) (au_entity_type l) (au_entity_id l)
                          (au_details l) |}.

Definition is_admin_event (e : event) : bool := String.eqb (ev_name e) "admin:changed".

(** Between two states the audit log and the broadcast have only grown,
    and the [admin:changed] events added are those of the rows added, in
    order. *)
Definition in_step (st st' : server) : Prop :=
  exists logs evs,
    rows (audit_logs (store st')) = (rows (audit_logs (store st)) ++ logs)%list
    /\ outbox st' = (outbox st ++ evs)%list
    /\ filter is_admin_event evs = map announced logs.

End Audit.

(** ** The sample deployment, staffed *)

Module Staffed.
Import Sample.

Definition admin_user : user :=
  {| userId := Some 31; role := Some "admin"; studentId := None; companyId := None |}.

Definition admin_token : auth_header := Bearer admin_user.

(** The accounts of student 1, of company 7 and of the admin. *)
Definition accounts : table user_row :=
  {| rows := [{| us_id := 11; us_role := Some "student";
                 us_student_id := Some 1; us_company_id := None |};
              {| us_id := 21; us_role := Some "company";
                 us_student_id := None; us_company_id := Some 7 |};
              {| us_id := 31; us_role := Some "admin";
                 us_student_id := None; us_company_id := None |}];
     seq := 31 |}.

Definition the_slot : interview :=
  {| iv_id := 1; iv_company_id := Some 7; iv_application_id := Some 1;
     iv_interview_date := Some "2025-03-01"; iv_interview_time := Some "10:00";
     iv_mode := Some "Online"; iv_location := None; iv_updated_at := 30 |}.

(** The sample deployment with its accounts and a slot for application 1. *)
Definition deployment (stage : string) : db :=
  Interviews.set_company_interviews {| rows := [the_slot]; seq := 1 |}
    (Accounts.set_users accounts (Sample.deployment stage)).

Definition office (stage : string) : Accounts.office :=
  {| Accounts.front := boot (deployment stage);
     Accounts.support_tickets :=
       {| rows := [{| Accounts.tk_id := 1; Accounts.tk_user_id := Some 11 |};
                   {| Accounts.tk_id := 2; Accounts.tk_user_id := Some 21 |}];
          seq := 2 |};
     Accounts.student_profiles_extended :=
       {| rows := [{| Accounts.pf_id := 1; Accounts.pf_student_id := Some 1 |}];
          seq := 1 |} |}.

(** Every account is active. *)
Definition all_active (x : user_row) : option string := Some "active".

Definition form : Interviews.slot_form :=
  {| Interviews.f_interview_date := Some "2025-04-02";
     Interviews.f_interview_time := Some "14:30";
     Interviews.f_mode := Some "";
     Interviews.f_location := None |}.

Definition acme : company_row := {| co_id := 7; co_name := Some "Acme" |}.

(** Requests of student 1, of companies 7 and 8 and of the admin about
    [id], with no body. *)
Definition student_asks (id : Z) : request := call (student_token 1) id no_body.

Definition company_asks (c id : Z) : request := call (company_token c) id no_body.

Definition admin_asks (id : Z) : request := call admin_token id no_body.

(** A student account that is not linked to a student profile. *)
Definition unlinked_student : user :=
  {| userId := Some 12; role := Some "student"; studentId := None; companyId := None |}.

Definition start : server := boot (Sample.deployment "Applied").

(** A request for [DELETE /api/<type>/<id>]. *)
Definition delete_request (a : auth_header) (type : string) (id : Z) : request :=
  {| authorization := a; p_id := id; p_companyId := 0; p_type := type;
     req_query := []; req_body := no_body; clock := 1000 |}.

(** The requests, with no [Authorization] header, for
    [DELETE /api/internships/7] and for the paths that name student 1. *)
Definition anonymous_internships : request :=
  delete_request NoHeader "internships" 7.

Definition anonymous_students : request :=
  delete_request NoHeader "students" 1.

(** The sample deployment after company 7 has deleted itself. *)
Definition company_seven_gone : server :=
  snd (run (Removal.delete_company (company_asks 7 7)) start).

End Staffed.

(** ** The accounts of the sample deployment *)

Module Desk.
Import Directory.

Definition sam : account :=
  {| ac_id := 11; ac_email := Some "sam@uni.example"; ac_username := Some "sam";
     ac_password_hash := Some "hash-of-sam"; ac_role := Some "student";
     ac_student_id := Some 1; ac_company_id := None; ac_status := Some "active" |}.

Definition acme_hr : account :=
  {| ac_id := 21; ac_email := Some "hr@acme.example"; ac_username := Some "acme";
     ac_password_hash := Some "hash-of-acme"; ac_role := Some "company";
     ac_student_id := None; ac_company_id := Some 7; ac_status := Some "active" |}.

Definition root : account :=
  {| ac_id := 31; ac_email := Some "root@tracker.example"; ac_username := None;
     ac_password_hash := Some "hash-of-root"; ac_role := Some "admin";
     ac_student_id := None; ac_company_id := None; ac_status := Some "active" |}.

Definition staff : realm :=
  {| accounts := {| rows := [sam; acme_hr; root]; seq := 31 |};
     rest := boot (Sample.deployment "Applied") |}.

(** The admin asks to become a student. *)
Definition demotion : user_form :=
  {| f_role := Text "student"; f_status := Undefined;
     f_email := Undefined; f_username := Undefined |}.

Definition disable_everyone : bulk_form :=
  {| f_action := Text "disable"; f_user_ids := Some [11; 21; 31] |}.

Definition sam_signs_in : login_form :=
  {| l_username := Text "sam"; l_login := Undefined; l_identifier := Undefined;
     l_email := Undefined; l_password := Text "hash-of-sam"; l_admin_only := false |}.

(** Stand-ins for [trim] and [toLowerCase] on texts they leave alone, and
    for [bcrypt.compare] on a hash that is the password. *)
Definition as_is (s : string) : string := s.

Definition same_text (password hash : string) : bool := String.eqb password hash.

End Desk.

(** * Properties *)

(** ** Stepping through a handler *)

Lemma bind_inr : forall (A B : Type) (m : M A) (k : A -> M B) s a s',
    m s = (inr a, s') -> bind m k s = k a s'.
Proof. intros A B m k s a s' H. unfold bind. now rewrite H. Qed.

Lemma bind_inl : forall (A B : Type) (m : M A) (k : A -> M B) s r s',
    m s = (inl r, s') -> bind m k s = (inl r, s').
Proof. intros A B m k s r s' H. unfold bind. now rewrite H. Qed.

Lemma authenticateToken_spec : forall req s,
    authenticateToken req s = (identity req (store s), s).
Proof.
  intros req s. unfold identity, authenticateToken.
  destruct (authorization req) as [| | |dec]; try reflexivity.
  destruct (negb (truthyZ (userId dec))); [reflexivity|].
  destruct (truthyZ (studentId dec) || truthyZ (companyId dec)); reflexivity.
Qed.

Lemma identity_users : forall req d d',
    users d = users d' -> identity req d = identity req d'.
Proof.
  intros req d d' H. unfold identity, authenticateToken.
  destruct (authorization req) as [| | |dec]; try reflexivity.
  destruct (negb (truthyZ (userId dec))); [reflexivity|].
  destruct (truthyZ (studentId dec) || truthyZ (companyId dec)); [reflexivity|].
  unfold bind, query, ret; cbn. now rewrite H.
Qed.

Lemma authenticated : forall req s u (B : Type) (k : user -> M B),
    identity req (store s) = inr u ->
    bind (authenticateToken req) k s = k u s.
Proof.
  intros req s u B k H. apply bind_inr. now rewrite authenticateToken_spec, H.
Qed.

Lemma unauthenticated : forall req s r (B : Type) (k : user -> M B),
    identity req (store s) = inl r ->
    bind (authenticateToken req) k s = (inl r, s).
Proof.
  intros req s r B k H. apply bind_inl. now rewrite authenticateToken_spec, H.
Qed.

Lemma roleIs_eq : forall r name, role r = Some name -> roleIs (role r) name = true.
Proof. intros r name H. unfold roleIs. rewrite H. apply String.eqb_refl. Qed.

Lemma requireZ_some : forall z code msg s,
    z <> 0 -> requireZ (Some z) code msg s = (inr z, s).
Proof. intros z code msg s H. unfold requireZ. apply Z.eqb_neq in H. now rewrite H. Qed.

Lemma requireS_some : forall t code msg s,
    t <> "" -> requireS (Some t) code msg s = (inr t, s).
Proof.
  intros t code msg s H. unfold requireS.
  destruct (String.eqb_spec t ""); [contradiction|reflexivity].
Qed.

(** The unfolding used by the proofs below: every monadic primitive, but
    not [authenticateToken]. *)
Ltac step :=
  unfold authorizeRole, guard, requireRow, logAudit, emitApplicationsChanged,
    emitOpeningsChanged, emit, exec, query, json, send, sendSMS, ret, bind;
  cbn -[next_id].

(** ** Tables *)

Section TableFacts.
Variable A : Type.
Variable key : A -> Z.

Lemma next_id_above : forall (t : table A) r,
    In r (rows t) -> key r < next_id key t.
Proof.
  intros [l n] r. unfold next_id; cbn [rows seq].
  induction l as [|x l IH]; cbn [map fold_right In].
  - contradiction.
  - intros [->|H]; [lia|]. specialize (IH H). lia.
Qed.

Lemma find_app_fresh : forall (p : A -> bool) l x,
    (forall r, In r l -> p r = false) -> p x = true -> find p (l ++ [x]) = Some x.
Proof.
  intros p l x. induction l as [|y l IH]; cbn; intros Hl Hx.
  - now rewrite Hx.
  - rewrite (Hl y (or_introl eq_refl)). apply IH; auto.
Qed.

Lemma find_app_some : forall (p : A -> bool) l x,
    p x = true -> exists y, find p (l ++ [x]) = Some y.
Proof.
  intros p l x Hx. induction l as [|y l IH]; cbn.
  - rewrite Hx. now exists x.
  - destruct (p y); [now exists y|exact IH].
Qed.

(** After [UPDATE ... SET f WHERE p], the row [SELECT ... WHERE p] returns
    is the updated image of the one it returned before, provided the
    update keeps the row selected. *)
Lemma find_update : forall (p : A -> bool) (f : A -> A) l,
    (forall r, p r = true -> p (f r) = true) ->
    find p (map (fun r => if p r then f r else r) l) = option_map f (find p l).
Proof.
  intros p f l Hf. induction l as [|x l IH]; cbn; [reflexivity|].
  destruct (p x) eqn:E.
  - now rewrite (Hf x E).
  - now rewrite E.
Qed.

Lemma filter_all : forall (p : A -> bool) l,
    (forall r, In r l -> p r = true) -> filter p l = l.
Proof.
  intros p l. induction l as [|x l IH]; cbn; intros H; [reflexivity|].
  rewrite (H x (or_introl eq_refl)). f_equal. apply IH. auto.
Qed.

Lemma existsb_count : forall (p : A -> bool) l,
    existsb p l = negb (Nat.eqb (List.length (filter p l)) 0).
Proof.
  intros p l. induction l as [|x l IH]; cbn; [reflexivity|].
  destruct (p x); cbn; [reflexivity|exact IH].
Qed.
End TableFacts.

(** ** Subscription registry *)

Module SubscriptionFacts.
Import Subscriptions.

Lemma insert_or_ignore_count : forall now s c t,
    unique_pairs t ->
    List.length (select_all (matches s c) (insert_or_ignore now s c t)) = 1%nat.
Proof.
  intros now s c t U. unfold insert_or_ignore.
  rewrite existsb_count. specialize (U s c). unfold select_all in *.
  destruct (List.length (filter (matches s c) (rows t))) as [|[|n]] eqn:E;
    cbn -[next_id].
  - rewrite filter_app, length_app, E. cbn -[next_id]. unfold matches; cbn -[next_id].
    now rewrite !Z.eqb_refl.
  - exact E.
  - lia.
Qed.

(** A second insert of a pair adds no row. *)
Lemma insert_or_ignore_rows : forall now s c t,
    existsb (matches s c) (rows t) = true ->
    rows (insert_or_ignore now s c t) = rows t.
Proof. intros now s c t H. unfold insert_or_ignore. now rewrite H. Qed.

(** The statement keeps the table's constraint. *)
Lemma insert_or_ignore_unique : forall now s c t,
    unique_pairs t -> unique_pairs (insert_or_ignore now s c t).
Proof.
  intros now s c t U s' c'. unfold insert_or_ignore.
  destruct (existsb (matches s c) (rows t)) eqn:E; [apply U|].
  unfold select_all, insert_row; cbn -[next_id]. rewrite filter_app, length_app.
  cbn -[next_id].
  destruct (matches s' c' _) eqn:E'; cbn -[next_id];
    [|specialize (U s' c'); unfold select_all in U; lia].
  assert (s' = s /\ c' = c) as [-> ->].
  { unfold matches in E'; cbn in E'. apply andb_prop in E' as [H1 H2].
    apply Z.eqb_eq in H1, H2. lia. }
  rewrite existsb_count in E. unfold select_all in *.
  destruct (List.length (filter (matches s c) (rows t))); [lia|discriminate].
Qed.

Lemma post_subscriptions_run : forall st req u s c,
    identity req (store st) = inr u ->
    role u = Some "student" ->
    studentId u = Some s -> s <> 0 ->
    b_company_id (req_body req) = Some c -> c <> 0 ->
    exists st',
      run (post_subscriptions req) st
        = ({| status := 200; resp_body := RStatus "subscribed" |}, st')
      /\ student_company_subscriptions (store st')
         = insert_or_ignore (clock req) s c (student_company_subscriptions (store st))
      /\ users (store st') = users (store st).
Proof.
  intros st req u s c Hid Hrole Hs Hs0 Hc Hc0.
  unfold run, post_subscriptions. rewrite (authenticated _ _ _ Hid).
  step. rewrite (roleIs_eq _ Hrole); cbn.
  rewrite Hs, Hc. unfold requireZ.
  apply Z.eqb_neq in Hs0, Hc0. rewrite Hs0, Hc0. cbn.
  eexists. split; [reflexivity|]. cbn. split; reflexivity.
Qed.

Lemma delete_absent_pair : forall s c (t : table subscription),
    List.length (select_all (matches s c) t) = 0%nat ->
    delete_where (matches s c) t = t.
Proof.
  intros s c [l n] H. unfold delete_where, select_all in *. cbn [rows seq] in *.
  f_equal. apply filter_all. intros x Hx.
  destruct (matches s c x) eqn:E; [|reflexivity].
  apply length_zero_iff_nil in H.
  assert (In x (filter (matches s c) l)) as I by (apply filter_In; auto).
  rewrite H in I. destruct I.
Qed.

(** C8, as the code has it.  [POST /api/subscriptions] is idempotent on
    the rows: after a student has called it twice for a company the
    registry holds exactly one row for the pair, the second call has added
    no row, and both calls answer 200.  [DELETE
    /api/subscriptions/:companyId] on a pair with no row answers 200 and
    leaves every table but the audit log as it was; it is no error, and no
    no-op either: like every call of the route it appends one audit row,
    of type "subscription_remove", and broadcasts one [admin:changed]
    event. *)
Theorem subscribe_twice_unsubscribe_absent :
  (forall st req1 req2 u1 u2 s c,
      unique_pairs (student_company_subscriptions (store st)) ->
      identity req1 (store st) = inr u1 -> role u1 = Some "student" ->
      studentId u1 = Some s ->
      identity req2 (store st) = inr u2 -> role u2 = Some "student" ->
      studentId u2 = Some s ->
      s <> 0 ->
      b_company_id (req_body req1) = Some c ->
      b_company_id (req_body req2) = Some c ->
      c <> 0 ->
      let r1 := run (post_subscriptions req1) st in
      let r2 := run (post_subscriptions req2) (snd r1) in
      status (fst r1) = 200 /\ status (fst r2) = 200
      /\ count_pair (store (snd r1)) s c = 1%nat
      /\ count_pair (store (snd r2)) s c = 1%nat
      /\ rows (student_company_subscriptions (store (snd r2)))
         = rows (student_company_subscriptions (store (snd r1))))
  /\
  (forall st req u s,
      identity req (store st) = inr u -> role u = Some "student" ->
      studentId u = Some s -> s <> 0 ->
      count_pair (store st) s (p_companyId req) = 0%nat ->
      let r := run (delete_subscription req) st in
      status (fst r) = 200
      /\ resp_body (fst r) = RStatus "unsubscribed"
      /\ set_audit_logs (audit_logs (store st)) (store (snd r)) = store st
      /\ (exists row,
             rows (audit_logs (store (snd r)))
             = (rows (audit_logs (store st)) ++ [row])%list
             /\ au_action_type row = "subscription_remove")
      /\ (exists ev,
             outbox (snd r) = (outbox st ++ [ev])%list
             /\ ev_name ev = "admin:changed")
      /\ sms_out (snd r) = sms_out st).
Proof.
  split.
  - intros st req1 req2 u1 u2 s c U Hid1 Hr1 Hs1 Hid2 Hr2 Hs2 Hs0 Hc1 Hc2 Hc0 r1 r2.
    destruct (post_subscriptions_run st req1 Hid1 Hr1 Hs1 Hs0 Hc1 Hc0)
      as (st1 & E1 & T1 & K1).
    assert (Hid2' : identity req2 (store st1) = inr u2).
    { rewrite <- Hid2. apply identity_users. exact K1. }
    destruct (post_subscriptions_run st1 req2 Hid2' Hr2 Hs2 Hs0 Hc2 Hc0)
      as (st2 & E2 & T2 & K2).
    subst r2 r1. rewrite E1. cbn [fst snd]. rewrite E2. cbn [fst snd status].
    assert (C1 : count_pair (store st1) s c = 1%nat).
    { unfold count_pair. rewrite T1. now apply insert_or_ignore_count. }
    assert (T21 : rows (student_company_subscriptions (store st2))
                  = rows (student_company_subscriptions (store st1))).
    { rewrite T2. apply insert_or_ignore_rows. rewrite existsb_count.
      unfold count_pair, select_all in C1. now rewrite C1. }
    repeat split; auto.
    unfold count_pair, select_all. rewrite T21. exact C1.
  - intros st req u s Hid Hrole Hs Hs0 Hcount r. subst r.
    unfold run, delete_subscription. rewrite (authenticated _ _ _ Hid).
    step. rewrite (roleIs_eq _ Hrole); cbn -[next_id].
    rewrite Hs. unfold requireZ. apply Z.eqb_neq in Hs0. rewrite Hs0. cbn -[next_id].
    fold (delete_where (matches s (p_companyId req))
            (student_company_subscriptions (store st))).
    rewrite (delete_absent_pair _ _ _ Hcount).
    split; [reflexivity|]. split; [reflexivity|].
    split; [destruct (store st); reflexivity|].
    split; [eexists; split; reflexivity|].
    split; [eexists; split; reflexivity|reflexivity].
Qed.

End SubscriptionFacts.

(** ** Unsubscribing and the other tables *)

Module UnsubscribeFacts.
Import Subscriptions.

(** No outcome of the route touches the applications or the interview
    slots. *)
Lemma delete_subscription_frame : forall st req,
    let r := run (delete_subscription req) st in
    applications (store (snd r)) = applications (store st)
    /\ company_interviews (store (snd r)) = company_interviews (store st).
Proof.
  intros st req r. subst r. unfold run, delete_subscription.
  destruct (identity req (store st)) as [e|u] eqn:Hid.
  - rewrite (unauthenticated _ _ _ Hid). now split.
  - rewrite (authenticated _ _ _ Hid). step.
    destruct (roleIs (role u) "student"); cbn; [|now split].
    unfold requireZ. destruct (studentId u) as [z|]; [|now split].
    destruct (Z.eqb z 0); cbn; now split.
Qed.

(** C10.  [DELETE /api/subscriptions/:companyId] by a student removes the
    registry rows of that student and that company and nothing else: the
    other registry rows stay, and the applications and the interview slots
    are the same tables afterwards. *)
Theorem unsubscribe_removes_only_the_pair :
  forall st req u s,
    identity req (store st) = inr u -> role u = Some "student" ->
    studentId u = Some s -> s <> 0 ->
    let r := run (delete_subscription req) st in
    status (fst r) = 200
    /\ (forall x, In x (rows (student_company_subscriptions (store (snd r))))
                  <-> In x (rows (student_company_subscriptions (store st)))
                      /\ matches s (p_companyId req) x = false)
    /\ applications (store (snd r)) = applications (store st)
    /\ company_interviews (store (snd r)) = company_interviews (store st).
Proof.
  intros st req u s Hid Hrole Hs Hs0 r.
  destruct (delete_subscription_frame st req) as [FA FI]. fold r in FA, FI.
  split; [|split; [|now split]]; subst r.
  - unfold run, delete_subscription. rewrite (authenticated _ _ _ Hid).
    step. rewrite (roleIs_eq _ Hrole); cbn.
    rewrite Hs. unfold requireZ. apply Z.eqb_neq in Hs0. now rewrite Hs0.
  - intros x. unfold run, delete_subscription. rewrite (authenticated _ _ _ Hid).
    step. rewrite (roleIs_eq _ Hrole); cbn.
    rewrite Hs. unfold requireZ. apply Z.eqb_neq in Hs0. rewrite Hs0. cbn.
    rewrite filter_In. rewrite negb_true_iff. reflexivity.
Qed.

End UnsubscribeFacts.

(** ** Opening catalog *)

Module OpeningFacts.
Import Openings.

Lemma insert_desc_In : forall (A : Type) (k : A -> Z) x y l,
    In y (insert_desc k x l) <-> y = x \/ In y l.
Proof.
  intros A k x y l. induction l as [|z l IH]; cbn.
  - intuition.
  - destruct (Z.leb (k z) (k x)); cbn; [intuition|]. rewrite IH. intuition.
Qed.

Lemma order_by_desc_In : forall (A : Type) (k : A -> Z) y l,
    In y (order_by_desc k l) <-> In y l.
Proof.
  intros A k y l. unfold order_by_desc. induction l as [|x l IH]; cbn.
  - reflexivity.
  - rewrite insert_desc_In, IH. intuition.
Qed.

Lemma join_companies_In : forall d o c,
    In (o, c) (join_companies d)
    <-> In o (rows (company_openings d)) /\ In c (rows (companies d))
        /\ op_company_id o = Some (co_id c).
Proof.
  intros d o c. unfold join_companies. rewrite in_flat_map. split.
  - intros (o' & Ho & H). apply in_map_iff in H as (c' & E & H).
    inversion E; subst. apply filter_In in H as [Hc H].
    unfold colEqZ in H. destruct (op_company_id o) as [z|]; [|discriminate].
    apply Z.eqb_eq in H. subst. auto.
  - intros (Ho & Hc & E). exists o. split; [exact Ho|].
    apply in_map_iff. exists c. split; [reflexivity|].
    apply filter_In. split; [exact Hc|]. rewrite E. cbn. apply Z.eqb_refl.
Qed.

Lemma join_subscriptions_In : forall d s o c,
    In (o, c) (join_subscriptions d s)
    <-> In (o, c) (join_companies d)
        /\ Applications.subscribed d s (co_id c) = true.
Proof.
  intros d s o c. unfold join_subscriptions. rewrite in_flat_map. split.
  - intros (oc & Hoc & H). apply in_map_iff in H as (r & E & H). subst oc.
    split; [exact Hoc|]. apply filter_In in H as [Hr H].
    apply join_companies_In in Hoc as (_ & _ & E). cbn in H. rewrite E in H.
    apply andb_prop in H as [H1 H2]. cbn in H1.
    unfold Applications.subscribed. apply existsb_exists. exists r.
    split; [exact Hr|]. unfold Subscriptions.matches.
    apply Z.eqb_eq in H1. rewrite H2, <- H1. cbn. apply Z.eqb_refl.
  - intros [Hoc H]. exists (o, c). split; [exact Hoc|].
    unfold Applications.subscribed in H. apply existsb_exists in H as (r & Hr & H).
    apply in_map_iff. exists r. split; [reflexivity|].
    apply filter_In. split; [exact Hr|].
    apply join_companies_In in Hoc as (_ & _ & E). cbn. rewrite E.
    unfold Subscriptions.matches in H. apply andb_prop in H as [H1 H2].
    rewrite H1, andb_true_r. cbn. apply Z.eqb_eq in H2. rewrite H2. apply Z.eqb_refl.
Qed.

Lemma identity_authorization : forall req req' d,
    authorization req' = authorization req -> identity req' d = identity req d.
Proof.
  intros req req' d H. unfold identity, authenticateToken. now rewrite H.
Qed.

(** C9, as the code has it.  [GET /api/openings] served as a student
    answers 200 with the
    joined rows (opening, company) of exactly the openings whose company
    has a row and is one the student is subscribed to; the store is not
    changed; and two requests with the same verified token get the same
    answer whatever else they carry (path, query string, body, time). *)
Theorem student_lists_subscribed_openings :
  forall st req u s,
    identity req (store st) = inr u -> role u = Some "student" ->
    studentId u = Some s -> s <> 0 ->
    (exists l,
        run (get_openings req) st
          = ({| status := 200; resp_body := RJoinedOpenings l |}, st)
        /\ forall o c,
            In (o, c) l
            <-> In o (rows (company_openings (store st)))
                /\ In c (rows (companies (store st)))
                /\ op_company_id o = Some (co_id c)
                /\ Applications.subscribed (store st) s (co_id c) = true)
    /\ forall req',
        authorization req' = authorization req ->
        run (get_openings req') st = run (get_openings req) st.
Proof.
  intros st req u s Hid Hrole Hs Hs0. split.
  - unfold run, get_openings. rewrite (authenticated _ _ _ Hid).
    rewrite (roleIs_eq _ Hrole). unfold bind at 1.
    rewrite Hs, (requireZ_some _ _ _ Hs0). step.
    eexists. split; [reflexivity|].
    intros o c. rewrite order_by_desc_In, join_subscriptions_In, join_companies_In.
    intuition.
  - intros req' Ha. unfold run, get_openings.
    assert (Hid' : identity req' (store st) = inr u)
      by (rewrite <- Hid; now apply identity_authorization).
    now rewrite (authenticated _ _ _ Hid), (authenticated _ _ _ Hid').
Qed.

End OpeningFacts.

(** ** Creating an application *)

Module CreateFacts.
Import Applications.

Lemma subscribed_iff : forall d s c,
    subscribed d s c = true
    <-> exists x, In x (rows (student_company_subscriptions d))
                  /\ sub_student_id x = s /\ sub_company_id x = c.
Proof.
  intros d s c. unfold subscribed. rewrite existsb_exists.
  split; intros (x & Hx & H); exists x; (split; [exact Hx|]).
  - unfold Subscriptions.matches in H. apply andb_prop in H as [H1 H2].
    apply Z.eqb_eq in H1, H2. auto.
  - destruct H as [<- <-]. unfold Subscriptions.matches. now rewrite !Z.eqb_refl.
Qed.

Lemma is_rejected_for_iff : forall s c a,
    is_rejected_for s c a = true
    <-> app_student_id a = Some s /\ app_company_id a = Some c
        /\ app_stage a = Some "Rejected".
Proof.
  intros s c a. unfold is_rejected_for, colEqZ, colEqS.
  rewrite !andb_true_iff.
  destruct (app_student_id a) as [x|], (app_company_id a) as [y|],
    (app_stage a) as [t|];
    rewrite ?Z.eqb_eq, ?String.eqb_eq;
    (split; [intros [[H1 H2] H3]; subst; auto; discriminate
            |intros (H1 & H2 & H3); inversion H1; inversion H2; inversion H3; auto]).
Qed.

Lemma rejected_before_false_iff : forall d s c,
    rejected_before d s c = false
    <-> forall a, In a (rows (applications d)) ->
                  app_student_id a = Some s -> app_company_id a = Some c ->
                  app_stage a <> Some "Rejected".
Proof.
  intros d s c. unfold rejected_before. split.
  - intros H a Ha H1 H2 H3.
    assert (existsb (is_rejected_for s c) (rows (applications d)) = true) as E.
    { apply existsb_exists. exists a. split; [exact Ha|].
      apply is_rejected_for_iff. auto. }
    congruence.
  - intros H. destruct (existsb _ _) eqn:E; [|reflexivity].
    apply existsb_exists in E as (a & Ha & E).
    apply is_rejected_for_iff in E as (H1 & H2 & H3).
    exfalso. exact (H a Ha H1 H2 H3).
Qed.

(** C1.  [POST /api/applications] served as student [s] for company [c]
    answers 200 exactly when the registry has a row for (s, c) and no
    application of (s, c) is in stage Rejected.  It then appends one
    application row, for (s, c), in stage Applied and with an id above every
    id in use, and changes no other row.  Otherwise it answers 403 and
    leaves the server state as it was. *)
Theorem create_application_gate :
  forall st req u s c,
    identity req (store st) = inr u -> role u = Some "student" ->
    studentId u = Some s -> s <> 0 ->
    b_company_id (req_body req) = Some c -> c <> 0 ->
    let r := run (post_applications req) st in
    (status (fst r) = 200
     <-> (exists x, In x (rows (student_company_subscriptions (store st)))
                    /\ sub_student_id x = s /\ sub_company_id x = c)
         /\ (forall a, In a (rows (applications (store st))) ->
                       app_student_id a = Some s -> app_company_id a = Some c ->
                       app_stage a <> Some "Rejected"))
    /\ (status (fst r) = 200 ->
        exists a,
          rows (applications (store (snd r)))
            = (rows (applications (store st)) ++ [a])%list
          /\ app_student_id a = Some s /\ app_company_id a = Some c
          /\ app_stage a = Some "Applied"
          /\ (forall x, In x (rows (applications (store st))) -> app_id x < app_id a)
          /\ set_applications (applications (store st)) (store (snd r)) = store st)
    /\ (status (fst r) <> 200 -> status (fst r) = 403 /\ snd r = st).
Proof.
  intros st req u s c Hid Hrole Hs Hs0 Hc Hc0 r.
  rewrite <- subscribed_iff, <- rejected_before_false_iff.
  subst r. unfold run, post_applications. rewrite (authenticated _ _ _ Hid).
  step. rewrite (roleIs_eq _ Hrole); cbn -[next_id].
  rewrite Hs, Hc. unfold requireZ.
  apply Z.eqb_neq in Hs0, Hc0. rewrite Hs0, Hc0. cbn -[next_id].
  destruct (subscribed (store st) s c) eqn:Esub; cbn -[next_id].
  - destruct (rejected_before (store st) s c) eqn:Erej; cbn -[next_id].
    + repeat split; try discriminate; try (intros [_ H]; discriminate).
    + assert (Fresh : forall x, In x (rows (applications (store st))) ->
                                app_id x < next_id app_id (applications (store st)))
        by (intros x Hx; now apply next_id_above).
      match goal with
      | |- context [match ?x with Some _ => _ | None => _ end] => destruct x
      end; cbn -[next_id];
        (split; [tauto|]; split; [|congruence]; intros _; eexists;
         split; [reflexivity|]; repeat split; [exact Fresh|];
         destruct (store st); reflexivity).
  - repeat split; try discriminate; try (intros [H _]; discriminate).
Qed.

End CreateFacts.

(** ** Clarification thread *)

Module ThreadFacts.
Import Thread.

Lemma after_request_thread : forall now id text t,
    exists r, select_one (for_app id) (after_request now id text t) = Some r
              /\ rq_request_text r = Some text /\ rq_response_text r = None
              /\ rq_updated_at r = now.
Proof.
  intros now id text t. unfold after_request, select_one.
  destruct (find (for_app id) (rows t)) as [r|] eqn:E.
  - unfold update_where; cbn. rewrite find_update by (intros; assumption).
    rewrite E. cbn. eexists. split; [reflexivity|]. now cbn.
  - unfold insert_row; cbn. eexists. split.
    + apply find_app_fresh.
      * intros r Hr. exact (find_none _ _ E r Hr).
      * unfold for_app; cbn. apply Z.eqb_refl.
    + now cbn.
Qed.

Lemma post_application_request_run : forall st req u a text,
    identity req (store st) = inr u -> role u = Some "company" ->
    select_one (Applications.has_id (p_id req)) (applications (store st)) = Some a ->
    b_request_text (req_body req) = Some text -> text <> "" ->
    company_owns u a = true ->
    exists b st',
      run (post_application_request req) st = ({| status := 200; resp_body := b |}, st')
      /\ store st'
         = set_application_requests
             (after_request (clock req) (p_id req) text (application_requests (store st)))
             (store st).
Proof.
  intros st req u a text Hid Hrole Ha Ht Ht0 Hown.
  unfold run, post_application_request. rewrite (authenticated _ _ _ Hid).
  unfold bind at 1. rewrite Ht, (requireS_some _ _ _ Ht0).
  step. unfold roleIs. rewrite Hrole. cbn. rewrite Ha. cbn.
  unfold company_owns in Hown. rewrite Hown. cbn.
  unfold after_request, thread_of.
  destruct (select_one (for_app (p_id req)) _); cbn; eauto.
Qed.

Lemma patch_request_response_run : forall st req u a text t,
    identity req (store st) = inr u ->
    select_one (Applications.has_id (p_id req)) (applications (store st)) = Some a ->
    b_response_text (req_body req) = Some text -> text <> "" ->
    student_owns u a = true ->
    thread_of (store st) (p_id req) = Some t ->
    exists st',
      run (patch_request_response req) st
        = ({| status := 200; resp_body := RStatus "updated" |}, st')
      /\ store st'
         = set_application_requests
             (update_where (for_app (p_id req)) (write_response (clock req) text)
                           (application_requests (store st)))
             (store st).
Proof.
  intros st req u a text t Hid Ha Ht Ht0 Hown Hthr.
  unfold run, patch_request_response. rewrite (authenticated _ _ _ Hid).
  unfold bind at 1. rewrite Ht, (requireS_some _ _ _ Ht0).
  unfold student_owns in Hown. apply andb_prop in Hown as [Hown H3].
  step. rewrite Hown. cbn. rewrite Ha. cbn. rewrite H3. cbn.
  rewrite Hthr. cbn. eauto.
Qed.

Lemma response_thread : forall now id text t r,
    select_one (for_app id) t = Some r ->
    select_one (for_app id) (update_where (for_app id) (write_response now text) t)
    = Some (write_response now text r).
Proof.
  intros now id text t r H. unfold select_one, update_where in *; cbn.
  rewrite find_update by (intros; assumption). now rewrite H.
Qed.

(** The invariant holds of a fresh database; the routes that write thread
    rows keep it ([thread_routes_keep_requests] below). *)
Lemma empty_db_threads : threads_have_request empty_db.
Proof. intros r []. Qed.

(** C6.  [POST /api/applications/:id/request] served as a company, with a
    text, for an existing application: when the company owns the
    application the answer is 200 and the application's thread then holds
    the new request text, no response text, and the time of the request as
    [updated_at], whether or not a thread existed (an existing row is
    overwritten, else one is inserted, and no other table changes); when it
    does not, the answer is 403 and the server state is unchanged.  Consequently
    request, response, request leaves the second request text and no
    response text. *)
Theorem send_request_supersedes :
  (forall st req u a text,
      identity req (store st) = inr u -> role u = Some "company" ->
      select_one (Applications.has_id (p_id req)) (applications (store st)) = Some a ->
      b_request_text (req_body req) = Some text -> text <> "" ->
      let r := run (post_application_request req) st in
      if company_owns u a
      then status (fst r) = 200
           /\ store (snd r)
              = set_application_requests
                  (after_request (clock req) (p_id req) text
                                 (application_requests (store st)))
                  (store st)
           /\ exists t, thread_of (store (snd r)) (p_id req) = Some t
                        /\ rq_request_text t = Some text
                        /\ rq_response_text t = None
                        /\ rq_updated_at t = clock req
      else status (fst r) = 403 /\ snd r = st)
  /\
  (forall st req1 req2 req3 uc us a text1 answer text2,
      identity req1 (store st) = inr uc -> identity req3 (store st) = inr uc ->
      role uc = Some "company" -> company_owns uc a = true ->
      identity req2 (store st) = inr us -> student_owns us a = true ->
      p_id req2 = p_id req1 -> p_id req3 = p_id req1 ->
      select_one (Applications.has_id (p_id req1)) (applications (store st)) = Some a ->
      b_request_text (req_body req1) = Some text1 -> text1 <> "" ->
      b_response_text (req_body req2) = Some answer -> answer <> "" ->
      b_request_text (req_body req3) = Some text2 -> text2 <> "" ->
      let r1 := run (post_application_request req1) st in
      let r2 := run (patch_request_response req2) (snd r1) in
      let r3 := run (post_application_request req3) (snd r2) in
      status (fst r1) = 200 /\ status (fst r2) = 200 /\ status (fst r3) = 200
      /\ (exists t, thread_of (store (snd r2)) (p_id req1) = Some t
                    /\ rq_request_text t = Some text1
                    /\ rq_response_text t = Some answer)
      /\ (exists t, thread_of (store (snd r3)) (p_id req1) = Some t
                    /\ rq_request_text t = Some text2
                    /\ rq_response_text t = None)).
Proof.
  split.
  - intros st req u a text Hid Hrole Ha Ht Ht0 r.
    destruct (company_owns u a) eqn:Hown.
    + destruct (post_application_request_run st req Hid Hrole Ha Ht Ht0 Hown)
        as (b & st' & E & S).
      subst r. rewrite E. cbn [fst snd status]. split; [reflexivity|].
      split; [exact S|].
      rewrite S. unfold thread_of; cbn.
      destruct (after_request_thread (clock req) (p_id req) text
                  (application_requests (store st))) as (t & H); eauto.
    + assert (E : r = ({| status := 403; resp_body := RError "Forbidden" |}, st)).
      { subst r. unfold run, post_application_request.
        rewrite (authenticated _ _ _ Hid).
        unfold bind at 1. rewrite Ht, (requireS_some _ _ _ Ht0).
        step. unfold roleIs. rewrite Hrole. cbn. rewrite Ha. cbn.
        unfold company_owns in Hown. now rewrite Hown. }
      rewrite E. now split.
  - intros st req1 req2 req3 uc us a text1 answer text2
           Hid1 Hid3 Hrole Hown Hid2 Hsown P2 P3 Ha T1 T10 T2 T20 T3 T30 r1 r2 r3.
    destruct (post_application_request_run st req1 Hid1 Hrole Ha T1 T10 Hown)
      as (b1 & st1 & E1 & S1).
    destruct (after_request_thread (clock req1) (p_id req1) text1
                (application_requests (store st))) as (t1 & H1 & Q1 & _).
    assert (Hthr1 : thread_of (store st1) (p_id req2) = Some t1)
      by (rewrite S1, P2; exact H1).
    assert (Hid2' : identity req2 (store st1) = inr us)
      by (rewrite <- Hid2; apply identity_users; now rewrite S1).
    assert (Ha2 : select_one (Applications.has_id (p_id req2))
                    (applications (store st1)) = Some a)
      by (rewrite S1, P2; exact Ha).
    destruct (patch_request_response_run st1 req2 Hid2' Ha2 T2 T20 Hsown Hthr1)
      as (st2 & E2 & S2).
    assert (Hid3' : identity req3 (store st2) = inr uc).
    { rewrite <- Hid3. apply identity_users. now rewrite S2, S1. }
    assert (Ha3 : select_one (Applications.has_id (p_id req3))
                    (applications (store st2)) = Some a)
      by (rewrite S2, S1, P3; exact Ha).
    destruct (post_application_request_run st2 req3 Hid3' Hrole Ha3 T3 T30 Hown)
      as (b3 & st3 & E3 & S3).
    subst r3 r2 r1. rewrite E1. cbn [fst snd]. rewrite E2. cbn [fst snd].
    rewrite E3. cbn [fst snd status].
    repeat split.
    + exists (write_response (clock req2) answer t1). rewrite S2. unfold thread_of.
      cbn [application_requests set_application_requests].
      rewrite <- P2. erewrite response_thread by exact Hthr1. now cbn.
    + rewrite S3. unfold thread_of. cbn [application_requests set_application_requests].
      rewrite P3.
      destruct (after_request_thread (clock req3) (p_id req1) text2
                  (application_requests (store st2))) as (t3 & H3 & Q3 & R3 & _).
      eauto.
Qed.

(** C7.  [PATCH /api/applications/:id/request-response] with a text, for
    an existing application, on a store whose thread rows all carry a
    request text: the answer is 200 exactly when the request is served as
    the student who owns the application and the application has a thread
    (whose request text is then not null), and the thread then holds the
    response text; a caller who is not the owning student gets 403, an
    owner without a thread gets 404, and in both cases the server state is
    unchanged. *)
Theorem respond_requires_owner_and_request :
  forall st req u a text,
    threads_have_request (store st) ->
    identity req (store st) = inr u ->
    select_one (Applications.has_id (p_id req)) (applications (store st)) = Some a ->
    b_response_text (req_body req) = Some text -> text <> "" ->
    let r := run (patch_request_response req) st in
    (status (fst r) = 200
     <-> student_owns u a = true
         /\ exists t q, thread_of (store st) (p_id req) = Some t
                        /\ rq_request_text t = Some q)
    /\ (status (fst r) = 200 ->
        exists t t', thread_of (store st) (p_id req) = Some t
                     /\ thread_of (store (snd r)) (p_id req) = Some t'
                     /\ rq_response_text t' = Some text
                     /\ rq_request_text t' = rq_request_text t)
    /\ (student_owns u a = false -> status (fst r) = 403 /\ snd r = st)
    /\ (student_owns u a = true -> thread_of (store st) (p_id req) = None ->
        status (fst r) = 404 /\ snd r = st).
Proof.
  intros st req u a text W Hid Ha Ht Ht0 r.
  destruct (student_owns u a) eqn:Hown.
  - destruct (thread_of (store st) (p_id req)) as [t|] eqn:Hthr.
    + destruct (patch_request_response_run st req Hid Ha Ht Ht0 Hown Hthr)
        as (st' & E & S).
      subst r. rewrite E. cbn [fst snd status].
      assert (exists q, rq_request_text t = Some q) as [q Hq].
      { destruct (rq_request_text t) as [q|] eqn:Q; [eauto|].
        exfalso. apply (W t); [|exact Q].
        unfold thread_of, select_one in Hthr. now apply find_some in Hthr. }
      split; [split; eauto|]. split; [|split; [discriminate|discriminate]].
      intros _. exists t, (write_response (clock req) text t).
      split; [reflexivity|]. rewrite S. unfold thread_of.
      cbn [application_requests set_application_requests].
      erewrite response_thread by exact Hthr. now cbn.
    + assert (E : r = ({| status := 404; resp_body := RError "Request not found" |}, st)).
      { subst r. unfold run, patch_request_response.
        rewrite (authenticated _ _ _ Hid).
        unfold bind at 1. rewrite Ht, (requireS_some _ _ _ Ht0).
        unfold student_owns in Hown. apply andb_prop in Hown as [Hown H3].
        step. rewrite Hown. cbn. rewrite Ha. cbn. rewrite H3. cbn.
        now rewrite Hthr. }
      rewrite E. cbn [fst snd status].
      split; [split; [discriminate|intros (_ & t & q & H & _); discriminate]|].
      split; [discriminate|]. split; [discriminate|]. auto.
  - assert (E : r = ({| status := 403; resp_body := RError "Forbidden" |}, st)).
    { subst r. unfold run, patch_request_response.
      rewrite (authenticated _ _ _ Hid).
      unfold bind at 1. rewrite Ht, (requireS_some _ _ _ Ht0).
      unfold student_owns in Hown. step.
      destruct (roleIs (role u) "student" && truthyZ (studentId u)); cbn;
        [|reflexivity].
      rewrite Ha. cbn. cbn in Hown. now rewrite Hown. }
    rewrite E. cbn [fst snd status].
    split; [split; [discriminate|intros [H _]; discriminate]|].
    split; [discriminate|]. split; [auto|discriminate].
Qed.

End ThreadFacts.

(** ** Stage changes and edits *)

Module StageFacts.
Import Applications.

Lemma has_id_set_stage : forall id stage a,
    has_id id a = true -> has_id id (set_stage stage a) = true.
Proof. intros id stage a H. exact H. Qed.

Lemma has_id_apply_patch : forall id b a,
    has_id id a = true -> has_id id (apply_patch b a) = true.
Proof. intros id b a H. exact H. Qed.

Lemma patch_application_status_run : forall st req u a stage,
    identity req (store st) = inr u ->
    select_one (has_id (p_id req)) (applications (store st)) = Some a ->
    b_stage (req_body req) = Some stage -> stage <> "" ->
    may_touch u a = true ->
    exists st',
      run (patch_application_status req) st
        = ({| status := 200; resp_body := RStatus "updated" |}, st')
      /\ store st'
         = set_audit_logs (audit_logs (store st'))
             (set_applications
                (update_where (has_id (p_id req)) (set_stage (Some stage))
                              (applications (store st)))
                (store st))
      /\ exists e1 e2, outbox st' = (outbox st ++ [e1; e2])%list
                       /\ ev_name e1 = "admin:changed"
                       /\ ev_name e2 = "applications:changed".
Proof.
  intros st req u a stage Hid Ha Hs Hs0 Hmay.
  unfold run, patch_application_status. rewrite (authenticated _ _ _ Hid).
  unfold bind at 1. rewrite Hs, (requireS_some _ _ _ Hs0).
  unfold bind at 1, query at 1. rewrite Ha.
  unfold bind at 1, requireRow at 1, ret at 1.
  unfold bind at 1, guard at 1. rewrite Hmay. unfold ret at 1.
  unfold bind at 1, exec at 1.
  unfold bind at 1, query at 1. cbn [store applications set_applications].
  unfold select_one at 1, update_where at 1. cbn [rows].
  rewrite (find_update _ _ _ (has_id_set_stage (p_id req) (Some stage))).
  unfold select_one in Ha. rewrite Ha. cbn [option_map].
  step.
  destruct (match app_student_id a with
            | Some sid => select_one (fun r => Z.eqb (st_id r) sid) (students (store st))
            | None => None
            end) as [row|]; cbn.
  - destruct (truthyS (st_phone row)); cbn;
      (eexists; split; [reflexivity|]; cbn; split; [reflexivity|];
       do 2 eexists; rewrite <- app_assoc; cbn; split; [reflexivity|]; now split).
  - eexists; split; [reflexivity|]; cbn; split; [reflexivity|].
    do 2 eexists; rewrite <- app_assoc; cbn; split; [reflexivity|]; now split.
Qed.

(** C2, as the code has it.  [PATCH /api/applications/:id/status] with a
    stage, for an existing application: when the request is served as an
    admin, as the company that owns the application or as the student who
    owns it, the answer is 200 and the application's stage becomes the
    requested text, whatever the current stage and whatever the text,
    and no other column of the row changes; otherwise the answer is 403
    and the server state is unchanged. *)
Theorem stage_change_is_gated_by_ownership_only :
  forall st req u a stage,
    identity req (store st) = inr u ->
    select_one (has_id (p_id req)) (applications (store st)) = Some a ->
    b_stage (req_body req) = Some stage -> stage <> "" ->
    let r := run (patch_application_status req) st in
    if may_touch u a
    then status (fst r) = 200
         /\ select_one (has_id (p_id req)) (applications (store (snd r)))
            = Some (set_stage (Some stage) a)
         /\ (exists a',
                select_one (has_id (p_id req)) (applications (store (snd r))) = Some a'
                /\ app_stage a' = Some stage
                /\ app_id a' = app_id a
                /\ app_student_id a' = app_student_id a
                /\ app_company_id a' = app_company_id a
                /\ [app_position a'; app_department a'; app_why_internship a';
                    app_skills_fit a'; app_career_goals a';
                    app_relevant_experience a'; app_notes a']
                   = [app_position a; app_department a; app_why_internship a;
                      app_skills_fit a; app_career_goals a;
                      app_relevant_experience a; app_notes a])
    else status (fst r) = 403 /\ snd r = st.
Proof.
  intros st req u a stage Hid Ha Hs Hs0 r.
  destruct (may_touch u a) eqn:Hmay.
  - destruct (patch_application_status_run st req Hid Ha Hs Hs0 Hmay)
      as (st' & E & S & _).
    subst r. rewrite E. cbn [fst snd status]. split; [reflexivity|].
    assert (F : select_one (has_id (p_id req)) (applications (store st'))
                = Some (set_stage (Some stage) a)).
    { rewrite S. cbn [applications set_audit_logs set_applications].
      unfold select_one, update_where in *. cbn [rows].
      rewrite (find_update _ _ _ (has_id_set_stage (p_id req) (Some stage))).
      now rewrite Ha. }
    split; [exact F|]. exists (set_stage (Some stage) a).
    split; [exact F|]. cbn. repeat split.
  - assert (E : r = ({| status := 403; resp_body := RError "Forbidden" |}, st)).
    { subst r. unfold run, patch_application_status.
      rewrite (authenticated _ _ _ Hid).
      unfold bind at 1. rewrite Hs, (requireS_some _ _ _ Hs0).
      step. rewrite Ha. cbn. now rewrite Hmay. }
    rewrite E. now split.
Qed.

End StageFacts.

(** ** Editing an application *)

Module EditFacts.
Import Applications.

Lemma patched_edited : forall v old, edited v old (patched v old).
Proof.
  intros [v|] old; [|reflexivity]. unfold edited, patched, orNullS, truthyS.
  now destruct (String.eqb v "").
Qed.

(** C4, as the code has it.  [PATCH /api/applications/:id] served as a
    student, naming at least one field, for an existing application: when
    the student owns the application the answer is 200 in whatever stage
    the application is, and in the stored row each of the four essay
    fields, like the notes, the position and the department, has the text
    of the body when the body names it (null for an empty text) and its
    former value when it does not, while the stage, the ids and the date
    are kept; when the student does not own it the answer is 403 and the
    server state is unchanged. *)
Theorem student_edit_is_gated_by_ownership_only :
  forall st req u a,
    identity req (store st) = inr u -> role u = Some "student" ->
    select_one (has_id (p_id req)) (applications (store st)) = Some a ->
    existsb is_defined (patch_fields (req_body req)) = true ->
    let r := run (patch_application req) st in
    if truthyZ (studentId u) && strictEqZ (studentId u) (app_student_id a)
    then status (fst r) = 200
         /\ exists a',
             select_one (has_id (p_id req)) (applications (store (snd r))) = Some a'
             /\ edited (b_why_internship (req_body req))
                       (app_why_internship a) (app_why_internship a')
             /\ edited (b_skills_fit (req_body req))
                       (app_skills_fit a) (app_skills_fit a')
             /\ edited (b_career_goals (req_body req))
                       (app_career_goals a) (app_career_goals a')
             /\ edited (b_relevant_experience (req_body req))
                       (app_relevant_experience a) (app_relevant_experience a')
             /\ edited (b_notes (req_body req)) (app_notes a) (app_notes a')
             /\ edited (b_position (req_body req)) (app_position a) (app_position a')
             /\ edited (b_department (req_body req))
                       (app_department a) (app_department a')
             /\ app_stage a' = app_stage a
             /\ app_id a' = app_id a
             /\ app_student_id a' = app_student_id a
             /\ app_company_id a' = app_company_id a
             /\ app_created_at a' = app_created_at a
    else status (fst r) = 403 /\ snd r = st.
Proof.
  intros st req u a Hid Hrole Ha Hf r.
  assert (Hmay : may_touch u a
                 = truthyZ (studentId u) && strictEqZ (studentId u) (app_student_id a)).
  { unfold may_touch, roleIs. rewrite Hrole. reflexivity. }
  destruct (truthyZ (studentId u) && strictEqZ (studentId u) (app_student_id a)).
  - assert (E : exists st',
               r = ({| status := 200; resp_body := RStatus "updated" |}, st')
               /\ applications (store st')
                  = update_where (has_id (p_id req)) (apply_patch (req_body req))
                                 (applications (store st))).
    { subst r. unfold run, patch_application. rewrite (authenticated _ _ _ Hid).
      unfold bind at 1, query at 1. rewrite Ha.
      unfold bind at 1, requireRow at 1, ret at 1.
      unfold bind at 1, guard at 1. rewrite Hmay. unfold ret at 1.
      unfold bind at 1, guard at 1. rewrite Hf. unfold ret at 1.
      unfold bind at 1, exec at 1.
      unfold bind at 1, query at 1. cbn [store applications set_applications].
      unfold select_one at 1, update_where at 1. cbn [rows].
      rewrite (find_update _ _ _ (StageFacts.has_id_apply_patch (p_id req) (req_body req))).
      unfold select_one in Ha. rewrite Ha. cbn [option_map].
      step. eexists. split; reflexivity. }
    destruct E as (st' & E & S). rewrite E. cbn [fst snd status].
    split; [reflexivity|]. exists (apply_patch (req_body req) a). split.
    + rewrite S. unfold select_one, update_where in *. cbn [rows].
      rewrite (find_update _ _ _
                 (StageFacts.has_id_apply_patch (p_id req) (req_body req))).
      now rewrite Ha.
    + cbn [apply_patch app_why_internship app_skills_fit app_career_goals
             app_relevant_experience app_notes app_position app_department
             app_stage app_id app_student_id app_company_id app_created_at].
      repeat (split; [apply patched_edited|]). repeat split.
  - assert (E : r = ({| status := 403; resp_body := RError "Forbidden" |}, st)).
    { subst r. unfold run, patch_application. rewrite (authenticated _ _ _ Hid).
      step. rewrite Ha. cbn. now rewrite Hmay. }
    rewrite E. now split.
Qed.

End EditFacts.

(** ** The generic delete route *)

Module DeleteFacts.
Import Applications Routes Router.

Lemma unguarded : forall t,
    ~ In (lower t) guarded_types ->
    segment_is t "subscriptions" = false /\ segment_is t "students" = false
    /\ segment_is t "company-openings" = false /\ segment_is t "companies" = false.
Proof.
  intros t H. unfold segment_is, guarded_types in *. cbn [In] in H.
  repeat split;
    apply String.eqb_neq; intros E; apply H; rewrite E; cbn; now auto 6.
Qed.

Lemma identity_as_companyId : forall req d,
    identity (as_companyId req) d = identity req d.
Proof. intros req d. reflexivity. Qed.

(** C5, as the code has it.  A request [DELETE /api/<type>/<id>] reaches
    the route [/api/:type/:id] exactly when its type segment, as sent and
    without regard to case, is none of subscriptions, students,
    company-openings and companies, which have authenticated routes of
    their own registered before it.  Such a request is answered 200
    whoever sends it.  When the decoded type is students, which takes a
    percent-encoded segment, the rows with that id are gone from
    [students], every other student row stays and [companies] is as it
    was; for every other type the rows with that id are gone from
    [companies], every other company row stays and [students] is as it was.
    No other table, broadcast or message changes, and the outcome is the
    same for every authorization header, body, query string and time.  For
    the four segments that have their own route a request without a
    verified identity is refused and changes nothing. *)
Theorem generic_delete_serves_the_unguarded_types :
  (forall st segment req,
      ~ In (lower segment) guarded_types ->
      let r := run (delete_api segment req) st in
      fst r = {| status := 200; resp_body := RStatus "Deleted" |}
      /\ (if String.eqb (p_type req) "students"
          then (forall s, In s (rows (students (store (snd r))))
                          <-> In s (rows (students (store st)))
                              /\ st_id s <> p_id req)
               /\ seq (students (store (snd r))) = seq (students (store st))
               /\ companies (store (snd r)) = companies (store st)
          else (forall c, In c (rows (companies (store (snd r))))
                          <-> In c (rows (companies (store st)))
                              /\ co_id c <> p_id req)
               /\ seq (companies (store (snd r))) = seq (companies (store st))
               /\ students (store (snd r)) = students (store st))
      /\ set_students (students (store st))
           (set_companies (companies (store st)) (store (snd r))) = store st
      /\ outbox (snd r) = outbox st
      /\ sms_out (snd r) = sms_out st
      /\ forall a q b c now,
          run (delete_api segment (same_target req a q b c now)) st = r)
  /\
  (forall st segment req e,
      In (lower segment) guarded_types ->
      identity req (store st) = inl e ->
      run (delete_api segment req) st = (e, st)).
Proof.
  split.
  - intros st segment req H r. subst r.
    destruct (unguarded _ H) as (H1 & H2 & H3 & H4).
    assert (D : forall req', delete_api segment req' = delete_generic req').
    { intros req'. unfold delete_api. now rewrite H1, H2, H3, H4. }
    rewrite D. unfold run, delete_generic.
    destruct (String.eqb (p_type req) "students") eqn:Ht; step.
    + split; [reflexivity|]. split.
      { split; [|now split].
        intros s. rewrite filter_In, negb_true_iff, Z.eqb_neq. tauto. }
      split; [destruct (store st); reflexivity|].
      split; [reflexivity|]. split; [reflexivity|].
      intros a q b c now. rewrite D. unfold delete_generic.
      cbn [same_target p_type p_id]. rewrite Ht. reflexivity.
    + split; [reflexivity|]. split.
      { split; [|now split].
        intros c. rewrite filter_In, negb_true_iff, Z.eqb_neq. tauto. }
      split; [destruct (store st); reflexivity|].
      split; [reflexivity|]. split; [reflexivity|].
      intros a q b c now. rewrite D. unfold delete_generic.
      cbn [same_target p_type p_id]. rewrite Ht. reflexivity.
  - intros st segment req e H Hid. unfold guarded_types in H. cbn [In] in H.
    unfold run, delete_api, segment_is.
    destruct H as [H|[H|[H|[H|[]]]]]; rewrite <- H; cbn [String.eqb Ascii.eqb Bool.eqb].
    + unfold Subscriptions.delete_subscription.
      rewrite <- (identity_as_companyId req) in Hid.
      now rewrite (unauthenticated _ _ _ Hid).
    + unfold Removal.delete_student. now rewrite (unauthenticated _ _ _ Hid).
    + unfold Openings.delete_company_opening. now rewrite (unauthenticated _ _ _ Hid).
    + unfold Removal.delete_company. now rewrite (unauthenticated _ _ _ Hid).
Qed.

End DeleteFacts.

(** ** Broadcasts *)

Module BroadcastFacts.
Import Applications Openings Thread Routes.

Lemma broadcasts_intro : forall h st names,
    (exists resp st' evs,
        run h st = (resp, st')
        /\ outbox st' = (outbox st ++ evs)%list
        /\ (if Z.eqb (status resp) 200 then map ev_name evs = names else evs = [])) ->
    broadcasts h st names.
Proof.
  intros h st names (resp & st' & evs & E & O & H). exists evs. rewrite E. now split.
Qed.

Lemma identity_refusal : forall req d e,
    identity req d = inl e -> status e = 401 \/ status e = 403.
Proof.
  intros req d e. unfold identity, authenticateToken.
  destruct (authorization req) as [| | |dec]; cbn;
    try (intros H; inversion H; cbn; now auto).
  destruct (negb (truthyZ (userId dec))); cbn;
    [intros H; inversion H; cbn; now auto|].
  destruct (truthyZ (studentId dec) || truthyZ (companyId dec)); cbn; discriminate.
Qed.

Lemma identity_failure : forall req d e,
    identity req d = inl e -> Z.eqb (status e) 200 = false.
Proof.
  intros req d e H. destruct (identity_refusal _ _ H) as [-> | ->]; reflexivity.
Qed.

Lemma find_app_last : forall (A : Type) (p : A -> bool) l x,
    find p (l ++ [x]) = None -> p x = false.
Proof.
  intros A p l x H. destruct (p x) eqn:E; [|reflexivity].
  destruct (find_app_some p l x E) as [y Hy]. congruence.
Qed.

(** Closes a fully evaluated branch: zero, one or two events. *)
Ltac leaf :=
  do 2 eexists;
  first
    [ exists []; split; [reflexivity|]; split;
      [cbn; now rewrite app_nil_r | cbn; reflexivity]
    | eexists [_]; split; [reflexivity|]; split; [reflexivity | cbn; reflexivity]
    | eexists [_; _]; split; [reflexivity|]; split;
      [cbn; now rewrite <- app_assoc | cbn; reflexivity] ].

(** The request was refused by [authenticateToken]. *)
Ltac refused Hid :=
  rewrite (unauthenticated _ _ _ Hid); cbn;
  do 2 eexists; exists []; split; [reflexivity|]; split;
  [now rewrite app_nil_r | now rewrite (identity_failure _ _ Hid)].

(** Unfolds the monadic primitives and the statements. *)
Ltac prims :=
  unfold logAudit, emitApplicationsChanged, emitOpeningsChanged, emit, exec,
    query, json, send, sendSMS, ret, bind, guard, requireRow, requireZ, requireS,
    thread_of, select_one, update_where, insert_row, delete_where;
  cbn -[next_id].

(** Splits on a test of the handler. *)
Ltac branch :=
  match goal with
  | |- context [if ?b then _ else _] => destruct b eqn:?
  | |- context [match ?v with Some _ => _ | None => _ end] => destruct v eqn:?
  end;
  cbn -[next_id].

(** A row that was just written is found again. *)
Ltac impossible :=
  exfalso;
  match goal with
  | F : find _ (_ ++ [_]) = None |- _ =>
      apply find_app_last in F; unfold has_id in F; cbn -[next_id] in F;
      rewrite Z.eqb_refl in F; discriminate F
  | F : find ?p (map _ ?l) = None, G : find ?p ?l = Some _ |- _ =>
      rewrite find_update in F by (intros; assumption);
      rewrite G in F; discriminate F
  end.

Ltac enter Hid :=
  rewrite (authenticated _ _ _ Hid);
  unfold authorizeRole; cbn [List.length Nat.eqb negb andb orb existsb].

Ltac events :=
  prims; repeat (first [leaf | impossible | branch]).

Lemma post_applications_broadcasts : forall req st,
    broadcasts (post_applications req) st (broadcast_of CreateApplication).
Proof.
  intros req st. apply broadcasts_intro. unfold run, post_applications.
  destruct (identity req (store st)) as [e|u] eqn:Hid; [refused Hid|].
  enter Hid. events.
Qed.

Lemma patch_application_status_broadcasts : forall req st,
    broadcasts (patch_application_status req) st (broadcast_of ChangeStage).
Proof.
  intros req st. apply broadcasts_intro. unfold run, patch_application_status.
  destruct (identity req (store st)) as [e|u] eqn:Hid; [refused Hid|].
  enter Hid. events.
Qed.

Lemma put_application_broadcasts : forall req st,
    broadcasts (put_application req) st (broadcast_of ReplaceApplication).
Proof.
  intros req st. apply broadcasts_intro. unfold run, put_application.
  destruct (identity req (store st)) as [e|u] eqn:Hid; [refused Hid|].
  enter Hid. events.
Qed.

Lemma patch_application_broadcasts : forall req st,
    broadcasts (patch_application req) st (broadcast_of EditApplication).
Proof.
  intros req st. apply broadcasts_intro. unfold run, patch_application.
  destruct (identity req (store st)) as [e|u] eqn:Hid; [refused Hid|].
  enter Hid. events.
Qed.

Lemma post_application_request_broadcasts : forall req st,
    broadcasts (post_application_request req) st (broadcast_of SendRequest).
Proof.
  intros req st. apply broadcasts_intro. unfold run, post_application_request.
  destruct (identity req (store st)) as [e|u] eqn:Hid; [refused Hid|].
  enter Hid. events.
Qed.

Lemma patch_request_response_broadcasts : forall req st,
    broadcasts (patch_request_response req) st (broadcast_of Respond).
Proof.
  intros req st. apply broadcasts_intro. unfold run, patch_request_response.
  destruct (identity req (store st)) as [e|u] eqn:Hid; [refused Hid|].
  enter Hid. events.
Qed.

Lemma post_company_openings_broadcasts : forall req st,
    broadcasts (post_company_openings req) st (broadcast_of CreateOpening).
Proof.
  intros req st. apply broadcasts_intro. unfold run, post_company_openings.
  destruct (identity req (store st)) as [e|u] eqn:Hid; [refused Hid|].
  enter Hid. events.
Qed.

Lemma delete_company_opening_broadcasts : forall req st,
    broadcasts (delete_company_opening req) st (broadcast_of DeleteOpening).
Proof.
  intros req st. apply broadcasts_intro. unfold run, delete_company_opening.
  destruct (identity req (store st)) as [e|u] eqn:Hid; [refused Hid|].
  enter Hid. events.
Qed.

(** The row [POST /api/company-openings] reads back is the one it has just
    inserted: the route never fails on a missing row. *)
Lemma post_company_openings_finds_its_row : forall req st,
    status (fst (run (post_company_openings req) st)) <> 500.
Proof.
  intros req st. unfold run, post_company_openings.
  destruct (identity req (store st)) as [e|u] eqn:Hid.
  - rewrite (unauthenticated _ _ _ Hid); cbn.
    destruct (identity_refusal _ _ Hid) as [-> | ->]; discriminate.
  - enter Hid. prims.
    repeat (first [discriminate | impossible | branch]).
Qed.

(** The two routes that write thread rows keep every row with a request
    text, so the stores the server reaches from an empty one satisfy
    [threads_have_request]. *)
Ltac keeps W :=
  first
    [ exact W
    | let r := fresh "r" in
      let Hr := fresh "Hr" in
      intros r Hr; cbn -[next_id] in Hr;
      first
        [ apply in_map_iff in Hr as (?x & ?E & ?Hx);
          match goal with
          | E : (if ?b then _ else _) = _ |- _ =>
              destruct b; subst; cbn; first [discriminate | now apply W]
          end
        | apply in_app_or in Hr as [Hr|[<-|[]]]; [now apply W | discriminate] ] ].

Lemma thread_routes_keep_requests : forall req st,
    threads_have_request (store st) ->
    threads_have_request (store (snd (run (post_application_request req) st)))
    /\ threads_have_request (store (snd (run (patch_request_response req) st))).
Proof.
  intros req st W. split.
  - unfold run, post_application_request.
    destruct (identity req (store st)) as [e|u] eqn:Hid;
      [rewrite (unauthenticated _ _ _ Hid); exact W|].
    enter Hid. prims. repeat (first [keeps W | branch]).
  - unfold run, patch_request_response.
    destruct (identity req (store st)) as [e|u] eqn:Hid;
      [rewrite (unauthenticated _ _ _ Hid); exact W|].
    enter Hid. prims. repeat (first [keeps W | branch]).
Qed.

Lemma route_broadcasts : forall m req st,
    broadcasts (route m req) st (broadcast_of m).
Proof.
  intros [] req st; cbn [route].
  - apply post_applications_broadcasts.
  - apply patch_application_status_broadcasts.
  - apply put_application_broadcasts.
  - apply patch_application_broadcasts.
  - apply post_application_request_broadcasts.
  - apply patch_request_response_broadcasts.
  - apply post_company_openings_broadcasts.
  - apply delete_company_opening_broadcasts.
Qed.

Lemma broadcast_of_kinds : forall m,
    (1 <= List.length (broadcast_of m) <= 2)%nat
    /\ Forall (fun n => In n kinds) (broadcast_of m).
Proof.
  intros []; (split; [cbn; lia|]);
    repeat (apply Forall_cons || apply Forall_nil); cbn; auto.
Qed.

(** C3, as the code has it.  A call of one of the eight mutating routes
    of applications, clarification requests and openings that answers 200
    broadcasts one or two events, each named [applications:changed],
    [openings:changed] or [admin:changed]: one for creating an
    application, replacing one as admin, sending a request, responding and
    deleting an opening; two, [admin:changed] and then the collection's
    event, for a stage change, an edit and a new opening.  A call that
    answers anything else broadcasts nothing. *)
Theorem mutation_broadcasts_once_or_twice :
  forall m req st,
    let r := run (route m req) st in
    exists evs,
      outbox (snd r) = (outbox st ++ evs)%list
      /\ if Z.eqb (status (fst r)) 200
         then map ev_name evs = broadcast_of m
              /\ (1 <= List.length evs <= 2)%nat
              /\ Forall (fun e => In (ev_name e) kinds) evs
         else evs = [].
Proof.
  intros m req st r. destruct (route_broadcasts m req st) as (evs & O & H).
  fold r in O, H. exists evs. split; [exact O|].
  destruct (Z.eqb (status (fst r)) 200); [|exact H].
  destruct (broadcast_of_kinds m) as [L K]. rewrite <- H in L, K.
  rewrite length_map in L. split; [exact H|]. split; [exact L|].
  now apply Forall_map in K.
Qed.

End BroadcastFacts.

(** ** The sample deployment, run *)

Module SampleFacts.
Import Sample.

(** C2 as the specification states it fails here.
    Interviewing is a company transition of the
    specification and not a student one; yet the student who owns an
    application in stage Applied moves it there: the answer is 200 and the
    stage is Interviewing. *)
Lemma student_moves_own_application_to_interviewing :
  Spec41.company_edge "Applied" "Interviewing" = true
  /\ Spec41.student_edge "Applied" "Interviewing" = false
  /\ stage_of 1 (boot (deployment "Applied")) = Some (Some "Applied")
  /\ status (fst (run (Applications.patch_application_status
                         (call (student_token 1) 1
                               (fields None (Some "Interviewing") None None None)))
                      (boot (deployment "Applied")))) = 200
  /\ stage_of 1 (snd (run (Applications.patch_application_status
                             (call (student_token 1) 1
                                   (fields None (Some "Interviewing") None None None)))
                          (boot (deployment "Applied"))))
     = Some (Some "Interviewing").
Proof. repeat split. Qed.

(** C3 as the specification states it fails here.
    One successful stage change broadcasts two
    events. *)
Lemma stage_change_broadcasts_two_events :
  status (fst (run (Applications.patch_application_status
                      (call (company_token 7) 1
                            (fields None (Some "Interviewing") None None None)))
                   (boot (deployment "Applied")))) = 200
  /\ map ev_name
         (outbox (snd (run (Applications.patch_application_status
                             (call (company_token 7) 1
                                   (fields None (Some "Interviewing") None None None)))
                          (boot (deployment "Applied")))))
     = ["admin:changed"; "applications:changed"].
Proof. split; reflexivity. Qed.

(** C4 as the specification states it fails here.
    The student who owns an application in stage
    Interviewing rewrites its four essay fields: the answer is 200, the
    fields have the new texts, and the stage is still Interviewing. *)
Lemma student_edits_essay_while_interviewing :
  stage_of 1 (boot (deployment "Interviewing")) = Some (Some "Interviewing")
  /\ essays_of 1 (boot (deployment "Interviewing"))
     = Some [Some "To learn"; None; None; None]
  /\ status (fst (run (Applications.patch_application
                         (call (student_token 1) 1
                               (essays "For the money" "SQL" "To lead" "Two summers")))
                      (boot (deployment "Interviewing")))) = 200
  /\ essays_of 1 (snd (run (Applications.patch_application
                              (call (student_token 1) 1
                                    (essays "For the money" "SQL" "To lead"
                                            "Two summers")))
                           (boot (deployment "Interviewing"))))
     = Some [Some "For the money"; Some "SQL"; Some "To lead"; Some "Two summers"]
  /\ stage_of 1 (snd (run (Applications.patch_application
                             (call (student_token 1) 1
                                   (essays "For the money" "SQL" "To lead"
                                           "Two summers")))
                          (boot (deployment "Interviewing"))))
     = Some (Some "Interviewing").
Proof. repeat split. Qed.

(** C1 at the sample deployment.
    Student 1, who follows company 7 and was not rejected
    there, applies and gets 200; once application 1 is Rejected the same
    request gets 403. *)
Lemma student_one_applies_to_company_seven :
  status (fst (run (Applications.post_applications
                      (call (student_token 1) 0 (fields (Some 7) None None None None)))
                   (boot (deployment "Applied")))) = 200
  /\ status (fst (run (Applications.post_applications
                         (call (student_token 1) 0 (fields (Some 7) None None None None)))
                      (boot (deployment "Rejected")))) = 403.
Proof.
  split.
  - apply (@CreateFacts.create_application_gate
             (boot (deployment "Applied"))
             (call (student_token 1) 0 (fields (Some 7) None None None None))
             _ 1 7 eq_refl eq_refl eq_refl).
    + discriminate.
    + reflexivity.
    + discriminate.
    + split.
      * eexists. split; [left; reflexivity|]. split; reflexivity.
      * intros a [<-|[]] _ _. discriminate.
  - apply (@CreateFacts.create_application_gate
             (boot (deployment "Rejected"))
             (call (student_token 1) 0 (fields (Some 7) None None None None))
             _ 1 7 eq_refl eq_refl eq_refl).
    + discriminate.
    + reflexivity.
    + discriminate.
    + discriminate.
Defined.

(** C2 at the sample deployment.
    Company 8, which does not own application 1, asks for
    a stage change: 403, and nothing has changed. *)
Lemma other_company_cannot_change_stage :
  status (fst (run (Applications.patch_application_status
                      (call (company_token 8) 1
                            (fields None (Some "Rejected") None None None)))
                   (boot (deployment "Applied")))) = 403
  /\ snd (run (Applications.patch_application_status
                 (call (company_token 8) 1
                       (fields None (Some "Rejected") None None None)))
              (boot (deployment "Applied")))
     = boot (deployment "Applied").
Proof.
  apply (@StageFacts.stage_change_is_gated_by_ownership_only
           (boot (deployment "Applied"))
           (call (company_token 8) 1 (fields None (Some "Rejected") None None None))
           _ (the_application "Applied") "Rejected" eq_refl eq_refl eq_refl).
  discriminate.
Defined.

(** C4 at the sample deployment.
    Student 2, who does not own application 1, edits its
    essay: 403, and nothing has changed. *)
Lemma other_student_cannot_edit :
  status (fst (run (Applications.patch_application
                      (call (student_token 2) 1
                            (fields None None None None (Some "Mine now"))))
                   (boot (deployment "Applied")))) = 403
  /\ snd (run (Applications.patch_application
                 (call (student_token 2) 1
                       (fields None None None None (Some "Mine now"))))
              (boot (deployment "Applied")))
     = boot (deployment "Applied").
Proof.
  exact (@EditFacts.student_edit_is_gated_by_ownership_only
           (boot (deployment "Applied"))
           (call (student_token 2) 1 (fields None None None None (Some "Mine now")))
           _ (the_application "Applied") eq_refl eq_refl eq_refl eq_refl).
Defined.

(** C6 at the sample deployment.
    Company 7 asks about application 1, which has a
    pending request: 200 and the thread holds the new text; and after the
    exchange of the specification the thread holds the second request and
    no response. *)
Lemma second_request_clears_the_response :
  (status (fst (run (Thread.post_application_request (ask "Also share transcript"))
                    (boot (deployment "Applied")))) = 200
   /\ store (snd (run (Thread.post_application_request (ask "Also share transcript"))
                      (boot (deployment "Applied"))))
      = set_application_requests
          (Thread.after_request 1000 1 "Also share transcript"
                                (application_requests (deployment "Applied")))
          (deployment "Applied")
   /\ exists t,
       Thread.thread_of
         (store (snd (run (Thread.post_application_request (ask "Also share transcript"))
                          (boot (deployment "Applied"))))) 1 = Some t
       /\ rq_request_text t = Some "Also share transcript"
       /\ rq_response_text t = None
       /\ rq_updated_at t = 1000)
  /\ exists t,
      Thread.thread_of (store after_exchange) 1 = Some t
      /\ rq_request_text t = Some "Also share transcript"
      /\ rq_response_text t = None.
Proof.
  split.
  - apply (proj1 ThreadFacts.send_request_supersedes
             (boot (deployment "Applied")) (ask "Also share transcript")
             (company_user 7) (the_application "Applied") "Also share transcript"
             eq_refl eq_refl eq_refl eq_refl).
    discriminate.
  - apply (proj2 ThreadFacts.send_request_supersedes
             (boot (deployment "Applied"))
             (ask "Please share your GPA") (answer "3.8/4.0")
             (ask "Also share transcript")
             (company_user 7) (student_user 1) (the_application "Applied")
             "Please share your GPA" "3.8/4.0" "Also share transcript"
             eq_refl eq_refl eq_refl eq_refl eq_refl eq_refl eq_refl eq_refl eq_refl
             eq_refl);
      [discriminate|reflexivity|discriminate|reflexivity|discriminate].
Defined.

(** C7 at the sample deployment.
    Student 1 answers the pending request of application
    1: 200. *)
Lemma owner_answers_pending_request :
  status (fst (run (Thread.patch_request_response (answer "3.8/4.0"))
                   (boot (deployment "Applied")))) = 200.
Proof.
  apply (@ThreadFacts.respond_requires_owner_and_request
           (boot (deployment "Applied")) (answer "3.8/4.0")
           (student_user 1) (the_application "Applied") "3.8/4.0").
  - intros r [<-|[]]. discriminate.
  - reflexivity.
  - reflexivity.
  - reflexivity.
  - discriminate.
  - split; [reflexivity|]. exists the_thread, "Please share your GPA".
    split; reflexivity.
Defined.

(** C8 at the sample deployment.
    Student 1 subscribes twice to company 8: one row; and
    unsubscribing from company 8, which the student does not follow,
    answers 200. *)
Lemma subscribing_twice_leaves_one_row :
  Subscriptions.count_pair
    (store (snd (run (Subscriptions.post_subscriptions (subscribe 1 8))
               (snd (run (Subscriptions.post_subscriptions (subscribe 1 8))
                         (boot (deployment "Applied"))))))) 1 8 = 1%nat
  /\ status (fst (run (Subscriptions.delete_subscription (unsubscribe 1 8))
                      (boot (deployment "Applied")))) = 200.
Proof.
  split.
  - apply (proj1 SubscriptionFacts.subscribe_twice_unsubscribe_absent
             (boot (deployment "Applied")) (subscribe 1 8) (subscribe 1 8)
             (student_user 1) (student_user 1) 1 8).
    + intros s c. cbn. destruct (Subscriptions.matches s c _); cbn; auto.
    + reflexivity.
    + reflexivity.
    + reflexivity.
    + reflexivity.
    + reflexivity.
    + reflexivity.
    + discriminate.
    + reflexivity.
    + reflexivity.
    + discriminate.
  - apply (proj2 SubscriptionFacts.subscribe_twice_unsubscribe_absent
             (boot (deployment "Applied")) (unsubscribe 1 8) (student_user 1) 1
             eq_refl eq_refl eq_refl).
    + discriminate.
    + reflexivity.
Defined.

(** C9 at the sample deployment.
    Student 1 lists the openings: the list holds the
    openings of the followed companies and no other. *)
Lemma student_one_sees_followed_openings :
  exists l,
    run (Openings.get_openings (call (student_token 1) 0 no_body))
        (boot (deployment "Applied"))
    = ({| status := 200; resp_body := RJoinedOpenings l |},
       boot (deployment "Applied"))
    /\ forall o c,
        In (o, c) l
        <-> In o (rows (company_openings (deployment "Applied")))
            /\ In c (rows (companies (deployment "Applied")))
            /\ op_company_id o = Some (co_id c)
            /\ Applications.subscribed (deployment "Applied") 1 (co_id c) = true.
Proof.
  apply (@OpeningFacts.student_lists_subscribed_openings
           (boot (deployment "Applied")) (call (student_token 1) 0 no_body)
           _ 1 eq_refl eq_refl eq_refl).
  discriminate.
Defined.

(** C10 at the sample deployment.
    Student 1 unsubscribes from company 7: 200, and the
    applications and the interview slots are untouched. *)
Lemma unsubscribing_keeps_the_application :
  status (fst (run (Subscriptions.delete_subscription (unsubscribe 1 7))
                   (boot (deployment "Applied")))) = 200
  /\ applications
       (store (snd (run (Subscriptions.delete_subscription (unsubscribe 1 7))
                        (boot (deployment "Applied")))))
     = applications (deployment "Applied")
  /\ company_interviews
       (store (snd (run (Subscriptions.delete_subscription (unsubscribe 1 7))
                        (boot (deployment "Applied")))))
     = company_interviews (deployment "Applied").
Proof.
  destruct (@UnsubscribeFacts.unsubscribe_removes_only_the_pair
              (boot (deployment "Applied")) (unsubscribe 1 7) _ 1
              eq_refl eq_refl eq_refl) as (H1 & _ & H2 & H3).
  - discriminate.
  - exact (conj H1 (conj H2 H3)).
Defined.

(** C5 as the specification states it fails here.
    A request with no token for [DELETE /api/students/1] is
    answered by the authenticated route: 401, and student 1 still has a
    row; the admin's request for the same path is answered 200 and the row
    is gone. *)
Lemma anonymous_delete_of_a_student_is_refused :
  rows (students (deployment "Applied")) = [{| st_id := 1; st_phone := None |}]
  /\ status (fst (run (Router.delete_api "students"
                         (Staffed.delete_request NoHeader "students" 1))
                      (boot (deployment "Applied")))) = 401
  /\ rows (students
             (store (snd (run (Router.delete_api "students"
                                 (Staffed.delete_request NoHeader "students" 1))
                              (boot (deployment "Applied"))))))
     = [{| st_id := 1; st_phone := None |}]
  /\ status (fst (run (Router.delete_api "students"
                         (Staffed.delete_request Staffed.admin_token "students" 1))
                      (boot (deployment "Applied")))) = 200
  /\ rows (students
             (store (snd (run (Router.delete_api "students"
                                 (Staffed.delete_request Staffed.admin_token
                                    "students" 1))
                              (boot (deployment "Applied"))))))
     = [].
Proof. repeat split. Qed.

(** C5 at the sample deployment.  A request with no token for
    [DELETE /api/internships/7] deletes company 7; one for
    [DELETE /api/stud%65nts/1] deletes student 1; one for
    [DELETE /api/Students/1] is refused. *)
Lemma anonymous_delete_reaches_the_last_route :
  (fst (run (Router.delete_api "internships" Staffed.anonymous_internships)
            Staffed.start)
   = {| status := 200; resp_body := RStatus "Deleted" |}
   /\ ((forall c,
           In c (rows (companies
                         (store (snd (run (Router.delete_api "internships"
                                             Staffed.anonymous_internships)
                                          Staffed.start)))))
           <-> In c (rows (companies (store Staffed.start))) /\ co_id c <> 7)
       /\ seq (companies
                 (store (snd (run (Router.delete_api "internships"
                                     Staffed.anonymous_internships)
                                  Staffed.start))))
          = seq (companies (store Staffed.start))
       /\ students (store (snd (run (Router.delete_api "internships"
                                       Staffed.anonymous_internships)
                                    Staffed.start)))
          = students (store Staffed.start))
   /\ set_students (students (store Staffed.start))
         (set_companies (companies (store Staffed.start))
            (store (snd (run (Router.delete_api "internships"
                                Staffed.anonymous_internships)
                             Staffed.start))))
      = store Staffed.start
   /\ outbox (snd (run (Router.delete_api "internships"
                          Staffed.anonymous_internships)
                       Staffed.start)) = outbox Staffed.start
   /\ sms_out (snd (run (Router.delete_api "internships"
                           Staffed.anonymous_internships)
                        Staffed.start)) = sms_out Staffed.start
   /\ forall a q b c now,
       run (Router.delete_api "internships"
              (Routes.same_target Staffed.anonymous_internships a q b c now))
           Staffed.start
       = run (Router.delete_api "internships" Staffed.anonymous_internships)
             Staffed.start)
  /\ (fst (run (Router.delete_api "stud%65nts" Staffed.anonymous_students)
               Staffed.start)
      = {| status := 200; resp_body := RStatus "Deleted" |}
      /\ ((forall s,
              In s (rows (students
                            (store (snd (run (Router.delete_api "stud%65nts"
                                                Staffed.anonymous_students)
                                             Staffed.start)))))
              <-> In s (rows (students (store Staffed.start))) /\ st_id s <> 1)
          /\ seq (students
                    (store (snd (run (Router.delete_api "stud%65nts"
                                        Staffed.anonymous_students)
                                     Staffed.start))))
             = seq (students (store Staffed.start))
          /\ companies (store (snd (run (Router.delete_api "stud%65nts"
                                           Staffed.anonymous_students)
                                        Staffed.start)))
             = companies (store Staffed.start))
      /\ set_students (students (store Staffed.start))
            (set_companies (companies (store Staffed.start))
               (store (snd (run (Router.delete_api "stud%65nts"
                                   Staffed.anonymous_students)
                                Staffed.start))))
         = store Staffed.start
      /\ outbox (snd (run (Router.delete_api "stud%65nts"
                             Staffed.anonymous_students)
                          Staffed.start)) = outbox Staffed.start
      /\ sms_out (snd (run (Router.delete_api "stud%65nts"
                              Staffed.anonymous_students)
                           Staffed.start)) = sms_out Staffed.start
      /\ forall a q b c now,
          run (Router.delete_api "stud%65nts"
                 (Routes.same_target Staffed.anonymous_students a q b c now))
              Staffed.start
          = run (Router.delete_api "stud%65nts" Staffed.anonymous_students)
                Staffed.start)
  /\ run (Router.delete_api "Students" (Staffed.delete_request NoHeader "Students" 1))
         Staffed.start
     = ({| status := 401; resp_body := RError "Missing token" |}, Staffed.start).
Proof.
  split; [|split].
  - apply (proj1 DeleteFacts.generic_delete_serves_the_unguarded_types
             Staffed.start "internships" Staffed.anonymous_internships).
    cbn. intuition discriminate.
  - apply (proj1 DeleteFacts.generic_delete_serves_the_unguarded_types
             Staffed.start "stud%65nts" Staffed.anonymous_students).
    cbn. intuition discriminate.
  - apply (proj2 DeleteFacts.generic_delete_serves_the_unguarded_types
             Staffed.start "Students"
             (Staffed.delete_request NoHeader "Students" 1)).
    + cbn. auto.
    + reflexivity.
Defined.

(** C8 as the specification states it fails here.
    Student 1 unsubscribes from company 8, which the
    student does not follow: the answer is 200, and the call was no no-op:
    the audit log, empty before, has a row, and the broadcast, empty
    before, an event. *)
Lemma unsubscribing_an_absent_pair_leaves_a_trace :
  Subscriptions.count_pair (deployment "Applied") 1 8 = 0%nat
  /\ rows (audit_logs (deployment "Applied")) = []
  /\ outbox (boot (deployment "Applied")) = []
  /\ status (fst (run (Subscriptions.delete_subscription (unsubscribe 1 8))
                      (boot (deployment "Applied")))) = 200
  /\ map au_action_type
         (rows (audit_logs
                  (store (snd (run (Subscriptions.delete_subscription (unsubscribe 1 8))
                                   (boot (deployment "Applied")))))))
     = ["subscription_remove"]
  /\ map ev_name
         (outbox (snd (run (Subscriptions.delete_subscription (unsubscribe 1 8))
                           (boot (deployment "Applied")))))
     = ["admin:changed"].
Proof. repeat split. Qed.

(** C9 as the specification states it fails here.
    After company 7 has deleted itself, student 1 is still
    subscribed to company 7 and opening 1 is still an opening of company
    7, yet the student's list is empty. *)
Lemma followed_opening_of_a_deleted_company_is_not_listed :
  Applications.subscribed (store Staffed.company_seven_gone) 1 7 = true
  /\ rows (company_openings (store Staffed.company_seven_gone))
     = [the_opening 1 7; the_opening 2 8]
  /\ op_company_id (the_opening 1 7) = Some 7
  /\ run (Openings.get_openings (call (student_token 1) 0 no_body))
         Staffed.company_seven_gone
     = ({| status := 200; resp_body := RJoinedOpenings [] |},
        Staffed.company_seven_gone).
Proof. repeat split. Qed.

End SampleFacts.


(** * Properties of the further routes *)

(** ** Joins and orderings *)

Module SqlFacts.
Import Sql.

Lemma left_join_In : forall (A B : Type) (on : A -> B -> bool) l r a ob,
    In (a, ob) (left_join on l r)
    <-> In a l
        /\ match ob with
           | Some b => In b r /\ on a b = true
           | None => forall b, In b r -> on a b = false
           end.
Proof.
  intros A B on l r a ob. unfold left_join. rewrite in_flat_map. split.
  - intros (a' & Ha & H). destruct (filter (on a') r) as [|m ms] eqn:F.
    + destruct H as [E|[]]. inversion E; subst. split; [exact Ha|].
      intros b Hb. destruct (on a b) eqn:O; [|reflexivity].
      assert (In b (filter (on a) r)) as I by (apply filter_In; auto).
      rewrite F in I. destruct I.
    + apply in_map_iff in H as (b & E & Hb). inversion E; subst.
      rewrite <- F in Hb. apply filter_In in Hb. split; [exact Ha|exact Hb].
  - intros [Ha H]. exists a. split; [exact Ha|].
    destruct ob as [b|].
    + destruct H as [Hb O].
      assert (In b (filter (on a) r)) as I by (apply filter_In; auto).
      destruct (filter (on a) r) as [|m ms]; [destruct I|].
      apply in_map_iff. now exists b.
    + destruct (filter (on a) r) as [|m ms] eqn:F; [now left|].
      assert (In m (filter (on a) r)) as I by (rewrite F; now left).
      apply filter_In in I as [Hm O]. rewrite (H m Hm) in O. discriminate.
Qed.

(** A left join loses no left row. *)
Lemma left_join_keeps : forall (A B : Type) (on : A -> B -> bool) l r a,
    In a (map fst (left_join on l r)) <-> In a l.
Proof.
  intros A B on l r a. rewrite in_map_iff. split.
  - intros ([a' ob] & E & H). cbn in E. subst. now apply left_join_In in H.
  - intros Ha. destruct (filter (on a) r) as [|b bs] eqn:F.
    + exists (a, None). split; [reflexivity|]. apply left_join_In. split; [exact Ha|].
      intros b Hb. destruct (on a b) eqn:O; [|reflexivity].
      assert (In b (filter (on a) r)) as I by (apply filter_In; auto).
      rewrite F in I. destruct I.
    + exists (a, Some b). split; [reflexivity|]. apply left_join_In. split; [exact Ha|].
      assert (In b (filter (on a) r)) as I by (rewrite F; now left).
      now apply filter_In in I.
Qed.

Lemma inner_join_In : forall (A B : Type) (on : A -> B -> bool) l r a b,
    In (a, b) (inner_join on l r) <-> In a l /\ In b r /\ on a b = true.
Proof.
  intros A B on l r a b. unfold inner_join. rewrite in_flat_map. split.
  - intros (a' & Ha & H). apply in_map_iff in H as (b' & E & Hb).
    inversion E; subst. apply filter_In in Hb. tauto.
  - intros (Ha & Hb & O). exists a. split; [exact Ha|].
    apply in_map_iff. exists b. split; [reflexivity|]. now apply filter_In.
Qed.

Lemma insert_by_In : forall (A : Type) (le : A -> A -> bool) x y l,
    In y (insert_by le x l) <-> y = x \/ In y l.
Proof.
  intros A le x y l. induction l as [|z l IH]; cbn.
  - intuition.
  - destruct (le x z); cbn; [intuition|]. rewrite IH. intuition.
Qed.

Lemma order_by_In : forall (A : Type) (le : A -> A -> bool) y l,
    In y (order_by le l) <-> In y l.
Proof.
  intros A le y l. unfold order_by. induction l as [|x l IH]; cbn.
  - reflexivity.
  - rewrite insert_by_In, IH. intuition.
Qed.

Lemma eq_param_some : forall col z, eq_param col (Some z) = true <-> col = Some z.
Proof.
  intros col z. unfold eq_param, colEqZ. destruct col as [x|].
  - rewrite Z.eqb_eq. split; [now intros ->|now intros [= ->]].
  - split; discriminate.
Qed.

Lemma colEqZ_some : forall col z, colEqZ col z = true <-> col = Some z.
Proof. intros col z. exact (eq_param_some col z). Qed.

Lemma ne_lit_iff : forall col lit,
    ne_lit col lit = true <-> exists s, col = Some s /\ s <> lit.
Proof.
  intros col lit. unfold ne_lit. destruct col as [s|].
  - rewrite negb_true_iff. split.
    + intros H. exists s. split; [reflexivity|]. now apply String.eqb_neq.
    + intros (s' & [= <-] & H). now apply String.eqb_neq.
  - split; [discriminate|]. intros (s & H & _). discriminate.
Qed.

End SqlFacts.

(** ** Listings *)

Module ListingFacts.
Import Sql SqlFacts Listings.

Lemma map_filter_In : forall (A B : Type) (f : A -> B) (p : B -> bool) l b,
    In b (map f (filter (fun v => p (f v)) l)) <-> In b (map f l) /\ p b = true.
Proof.
  intros A B f p l b. rewrite !in_map_iff. split.
  - intros (v & E & H). apply filter_In in H as [H P]. subst. split; [now exists v|exact P].
  - intros [(v & E & H) P]. exists v. split; [exact E|]. apply filter_In.
    subst. now split.
Qed.

Lemma left_join_twice_keeps :
  forall (A B C : Type) (on1 : A -> B -> bool) (on2 : A * option B -> C -> bool)
         l r1 r2 a,
    In a (map (fun x => fst (fst x)) (left_join on2 (left_join on1 l r1) r2))
    <-> In a l.
Proof.
  intros A B C on1 on2 l r1 r2 a.
  rewrite <- (left_join_keeps on1 l r1 a).
  rewrite <- (map_map fst fst). rewrite in_map_iff. split.
  - intros (x & E & H). rewrite (left_join_keeps on2 _ r2 x) in H.
    rewrite in_map_iff. now exists x.
  - intros H. apply in_map_iff in H as (x & E & H). exists x.
    split; [exact E|]. now rewrite (left_join_keeps on2 _ r2 x).
Qed.

(** Every application is listed by the join, whether or not its student
    and its company still have a row. *)
Lemma joined_applications_apps : forall d a,
    In a (map av_app (joined_applications d)) <-> In a (rows (applications d)).
Proof.
  intros d a. unfold joined_applications. rewrite map_map. cbn [av_app].
  apply left_join_twice_keeps.
Qed.

Lemma student_listing : forall st req u s,
    identity req (store st) = inr u -> role u = Some "student" ->
    studentId u = Some s -> s <> 0 ->
    exists l,
      get_applications req st = (inr l, st)
      /\ forall a, In a (map av_app l)
                   <-> In a (rows (applications (store st)))
                       /\ app_student_id a = Some s.
Proof.
  intros st req u s Hid Hrole Hs Hs0. unfold get_applications.
  rewrite (authenticated _ _ _ Hid). rewrite (roleIs_eq _ Hrole), Hs.
  apply Z.eqb_neq in Hs0. cbn. rewrite Hs0. cbn.
  eexists. split; [reflexivity|]. intros a.
  rewrite (map_filter_In av_app (fun a => eq_param (app_student_id a) (Some s))).
  now rewrite joined_applications_apps, eq_param_some.
Qed.

Lemma company_listing : forall st req u c,
    identity req (store st) = inr u -> role u = Some "company" ->
    companyId u = Some c -> c <> 0 ->
    exists l,
      get_applications req st = (inr l, st)
      /\ forall a, In a (map av_app l)
                   <-> In a (rows (applications (store st)))
                       /\ app_company_id a = Some c
                       /\ exists stage, app_stage a = Some stage /\ stage <> "Withdrawn".
Proof.
  intros st req u c Hid Hrole Hc Hc0. unfold get_applications.
  rewrite (authenticated _ _ _ Hid). unfold roleIs. rewrite Hrole, Hc.
  apply Z.eqb_neq in Hc0. cbn. rewrite Hc0. cbn.
  eexists. split; [reflexivity|]. intros a.
  rewrite (map_filter_In av_app
             (fun a => eq_param (app_company_id a) (Some c)
                       && ne_lit (app_stage a) "Withdrawn")).
  rewrite joined_applications_apps, andb_true_iff, eq_param_some, ne_lit_iff.
  tauto.
Qed.

(** X1.  [GET /api/applications] served as a linked student lists exactly
    the applications of that student, and served as a linked company exactly
    the applications to that company whose stage is set and is not
    Withdrawn; an application is listed even when its student or company row
    is gone.  The server state is not changed. *)
Theorem applications_listing_is_scoped :
  (forall st req u s,
      identity req (store st) = inr u -> role u = Some "student" ->
      studentId u = Some s -> s <> 0 ->
      exists l,
        get_applications req st = (inr l, st)
        /\ forall a, In a (map av_app l)
                     <-> In a (rows (applications (store st)))
                         /\ app_student_id a = Some s)
  /\
  (forall st req u c,
      identity req (store st) = inr u -> role u = Some "company" ->
      companyId u = Some c -> c <> 0 ->
      exists l,
        get_applications req st = (inr l, st)
        /\ forall a, In a (map av_app l)
                     <-> In a (rows (applications (store st)))
                         /\ app_company_id a = Some c
                         /\ exists stage, app_stage a = Some stage /\ stage <> "Withdrawn").
Proof. split; [exact student_listing|exact company_listing]. Qed.

(** X2.  [GET /api/applications] served as anyone who is neither a linked
    student nor a linked company lists every application: an admin, but also
    a student or a company account that is not linked to a profile. *)
Theorem applications_listing_is_open_to_unlinked :
  forall st req u,
    identity req (store st) = inr u ->
    roleIs (role u) "student" && truthyZ (studentId u) = false ->
    roleIs (role u) "company" && truthyZ (companyId u) = false ->
    exists l,
      get_applications req st = (inr l, st)
      /\ forall a, In a (map av_app l) <-> In a (rows (applications (store st))).
Proof.
  intros st req u Hid H1 H2. unfold get_applications.
  rewrite (authenticated _ _ _ Hid). rewrite H1, H2. cbn.
  eexists. split; [reflexivity|]. intros a. apply joined_applications_apps.
Qed.

End ListingFacts.

(** ** The client against the server *)

Module ClientFacts.
Import Sql SqlFacts Listings ListingFacts Client.

Lemma shown_stage_spec : forall a,
    shown_stage a = match app_stage a with
                    | Some s => if String.eqb s "" then "Applied" else s
                    | None => "Applied"
                    end.
Proof.
  intros a. unfold shown_stage, orElseS, truthyS.
  destruct (app_stage a) as [s|]; [|reflexivity].
  destruct (String.eqb s ""); reflexivity.
Qed.

Lemma shown_stage_rejected : forall a,
    String.eqb (shown_stage a) "Rejected" = colEqS (app_stage a) "Rejected".
Proof.
  intros a. rewrite shown_stage_spec. unfold colEqS.
  destruct (app_stage a) as [s|]; [|reflexivity].
  destruct (String.eqb_spec s ""); [subst; reflexivity|reflexivity].
Qed.

Lemma strictEqZ_some : forall col z, strictEqZ col (Some z) = colEqZ col z.
Proof. intros [x|] z; reflexivity. Qed.

Lemma existsb_map_fn : forall (A B : Type) (f : A -> B) (p : B -> bool) l,
    existsb (fun v => p (f v)) l = existsb p (map f l).
Proof.
  intros A B f p l. induction l as [|x l IH]; cbn; [reflexivity|]. now rewrite IH.
Qed.

Lemma existsb_ext_In : forall (A : Type) (p q : A -> bool) (l m : list A),
    (forall a, In a l /\ p a = true <-> In a m /\ q a = true) ->
    existsb p l = existsb q m.
Proof.
  intros A p q l m H. apply Bool.eq_iff_eq_true. rewrite !existsb_exists.
  split; intros (a & Ha & Pa); exists a; apply H; auto.
Qed.

(** X3.  The client's rejection lock agrees with the server's: on the list a
    linked student has just fetched from [GET /api/applications],
    [hasRejectionForCompany] holds of a company exactly when [POST
    /api/applications] would find a Rejected application of that student
    with that company. *)
Theorem client_rejection_lock_agrees :
  forall st req u s c,
    identity req (store st) = inr u -> role u = Some "student" ->
    studentId u = Some s -> s <> 0 ->
    exists l,
      get_applications req st = (inr l, st)
      /\ hasRejectionForCompany l (Some c)
         = Applications.rejected_before (store st) s c.
Proof.
  intros st req u s c Hid Hrole Hs Hs0.
  destruct (student_listing st req Hid Hrole Hs Hs0) as (l & E & L).
  exists l. split; [exact E|].
  unfold hasRejectionForCompany, Applications.rejected_before.
  rewrite (existsb_map_fn av_app
             (fun a => strictEqZ (app_company_id a) (Some c)
                       && String.eqb (shown_stage a) "Rejected")).
  apply existsb_ext_In. intros a. rewrite L.
  unfold Applications.is_rejected_for.
  rewrite strictEqZ_some, shown_stage_rejected, !andb_true_iff, !colEqZ_some.
  tauto.
Qed.

End ClientFacts.

(** ** Interview slots *)

Module InterviewFacts.
Import Sql SqlFacts Interviews.

Lemma for_application_reschedule : forall id now f i,
    for_application id i = true -> for_application id (reschedule now f i) = true.
Proof. intros id now f i H. exact H. Qed.

Lemma for_application_new_slot : forall id now f c k,
    for_application id (new_slot now f c id k) = true.
Proof. intros. unfold for_application, new_slot, colEqZ. cbn. apply Z.eqb_refl. Qed.

Lemma find_none_all : forall (A : Type) (p : A -> bool) l,
    find p l = None -> forall r, In r l -> p r = false.
Proof.
  intros A p l H r Hr. destruct (p r) eqn:E; [|reflexivity].
  destruct (find p l) eqn:F; [discriminate|].
  now rewrite (find_none _ _ F r Hr) in E.
Qed.

Lemma filter_none : forall (A : Type) (p : A -> bool) l,
    (forall r, In r l -> p r = false) -> filter p l = [].
Proof.
  intros A p l. induction l as [|x l IH]; cbn; intros H; [reflexivity|].
  rewrite (H x (or_introl eq_refl)). apply IH. auto.
Qed.

Lemma filter_update_length : forall (A : Type) (p : A -> bool) (f : A -> A) l,
    (forall r, p r = true -> p (f r) = true) ->
    List.length (filter p (map (fun r => if p r then f r else r) l))
    = List.length (filter p l).
Proof.
  intros A p f l Hf. induction l as [|x l IH]; cbn; [reflexivity|].
  destruct (p x) eqn:E.
  - rewrite (Hf x E). cbn. now rewrite IH.
  - now rewrite E.
Qed.

Lemma filter_update_other : forall (A : Type) (p q : A -> bool) (f : A -> A) l,
    (forall r, p r = true -> q r = false) ->
    (forall r, p r = true -> q (f r) = false) ->
    filter q (map (fun r => if p r then f r else r) l) = filter q l.
Proof.
  intros A p q f l H1 H2. induction l as [|x l IH]; cbn; [reflexivity|].
  destruct (p x) eqn:E.
  - now rewrite (H1 x E), (H2 x E).
  - destruct (q x); now rewrite IH.
Qed.

Lemma for_application_apart : forall id id' i,
    id' <> id -> for_application id i = true -> for_application id' i = false.
Proof.
  intros id id' i Hne. unfold for_application, colEqZ.
  destruct (iv_application_id i) as [z|]; [|discriminate].
  intros H. apply Z.eqb_eq in H. subst. now apply Z.eqb_neq.
Qed.

(** What the upsert leaves in the table. *)
Lemma after_put_slot : forall now id f c t,
    exists i,
      select_one (for_application id) (after_put now id f c t) = Some i
      /\ iv_application_id i = Some id
      /\ iv_interview_date i = orNullS (f_interview_date f)
      /\ iv_interview_time i = orNullS (f_interview_time f)
      /\ iv_mode i = orNullS (f_mode f)
      /\ iv_location i = orNullS (f_location f)
      /\ iv_updated_at i = now.
Proof.
  intros now id f c [l n]. unfold after_put, select_one, update_where, insert_row.
  cbn [rows seq].
  destruct (find (for_application id) l) as [i|] eqn:F; cbn [rows].
  - rewrite (find_update _ _ _ (for_application_reschedule id now f)), F.
    cbn [option_map]. eexists. split; [reflexivity|]. cbn.
    apply find_some in F as [_ F]. unfold for_application in F.
    apply colEqZ_some in F. now repeat split.
  - rewrite (find_app_fresh _ _ _ (find_none_all _ _ F)
               (for_application_new_slot id now f c _)).
    eexists. split; [reflexivity|]. cbn. now repeat split.
Qed.

Lemma after_put_count : forall now id f c t,
    List.length (select_all (for_application id) (after_put now id f c t))
    = Nat.max 1 (List.length (select_all (for_application id) t)).
Proof.
  intros now id f c [l n]. unfold after_put, select_one, select_all, update_where,
    insert_row. cbn [rows seq].
  destruct (find (for_application id) l) as [i|] eqn:F; cbn [rows].
  - rewrite (filter_update_length _ _ _ (for_application_reschedule id now f)).
    apply find_some in F as [I F].
    assert (In i (filter (for_application id) l)) as H by (now apply filter_In).
    destruct (filter (for_application id) l); [destruct H|]. cbn. reflexivity.
  - rewrite filter_app, (filter_none _ _ (find_none_all _ _ F)). cbn [filter app].
    now rewrite for_application_new_slot.
Qed.

Lemma after_put_others : forall now id f c t id',
    id' <> id ->
    select_all (for_application id') (after_put now id f c t)
    = select_all (for_application id') t.
Proof.
  intros now id f c [l n] id' Hne. unfold after_put, select_one, select_all,
    update_where, insert_row. cbn [rows seq].
  destruct (find (for_application id) l) as [i|] eqn:F; cbn [rows].
  - apply filter_update_other; intros r Hr.
    + eapply for_application_apart; eauto.
    + eapply for_application_apart; eauto.
  - rewrite filter_app. cbn [filter].
    rewrite (@for_application_apart id id' _ Hne
               (for_application_new_slot id now f c _)).
    apply app_nil_r.
Qed.

Lemma put_company_interview_run : forall st req f u a,
    identity req (store st) = inr u ->
    select_one (Applications.has_id (p_id req)) (applications (store st)) = Some a ->
    may_schedule u a = true ->
    put_company_interview req f st
    = (inr (select_one (for_application (p_id req))
              (after_put (clock req) (p_id req) f (app_company_id a)
                         (company_interviews (store st)))),
       {| store := set_company_interviews
                     (after_put (clock req) (p_id req) f (app_company_id a)
                                (company_interviews (store st)))
                     (store st);
          outbox := (outbox st
                     ++ [{| ev_name := "applications:changed";
                            ev_payload := PApplicationId "interview" (p_id req) |}])%list;
          sms_out := sms_out st |}).
Proof.
  intros st req f u a Hid Ha Hmay. unfold put_company_interview.
  rewrite (authenticated _ _ _ Hid).
  assert (G : roleIs (role u) "company" || roleIs (role u) "admin" = true).
  { unfold may_schedule in Hmay. destruct (roleIs (role u) "admin");
      [apply orb_true_r|]. destruct (roleIs (role u) "company"); [reflexivity|].
    discriminate. }
  step. rewrite G. cbn. rewrite Ha. cbn.
  unfold may_schedule in Hmay. rewrite Hmay. cbn.
  unfold after_put.
  destruct (select_one (for_application (p_id req)) (company_interviews (store st)));
    reflexivity.
Qed.

(** X4.  [PUT /api/company-interviews/:applicationId] served as an admin or
    as the company that owns the application answers with the slot of the
    application: it carries the four fields of the body (an empty or absent
    one as null) and the time of the call, and it is the slot the table then
    holds for the application.  One [applications:changed] event with action
    "interview" is broadcast, and no table but the slots changes. *)
Theorem interview_is_scheduled :
  forall st req f u a,
    identity req (store st) = inr u ->
    select_one (Applications.has_id (p_id req)) (applications (store st)) = Some a ->
    may_schedule u a = true ->
    exists i st',
      put_company_interview req f st = (inr (Some i), st')
      /\ select_one (for_application (p_id req)) (company_interviews (store st')) = Some i
      /\ iv_application_id i = Some (p_id req)
      /\ iv_interview_date i = orNullS (f_interview_date f)
      /\ iv_interview_time i = orNullS (f_interview_time f)
      /\ iv_mode i = orNullS (f_mode f)
      /\ iv_location i = orNullS (f_location f)
      /\ iv_updated_at i = clock req
      /\ outbox st'
         = (outbox st ++ [{| ev_name := "applications:changed";
                             ev_payload := PApplicationId "interview" (p_id req) |}])%list
      /\ store st' = set_company_interviews (company_interviews (store st')) (store st).
Proof.
  intros st req f u a Hid Ha Hmay.
  rewrite (put_company_interview_run st req f Hid Ha Hmay).
  destruct (after_put_slot (clock req) (p_id req) f (app_company_id a)
              (company_interviews (store st))) as (i & E & H).
  rewrite E. exists i. eexists. split; [reflexivity|]. cbn.
  split; [exact E|]. tauto.
Qed.

(** X5.  [PUT /api/company-interviews/:applicationId] is an upsert: after a
    successful call the application has as many slots as before, or one if
    it had none, and the slots of every other application are the same rows. *)
Theorem interview_upsert_keeps_one_slot :
  forall st req f u a,
    identity req (store st) = inr u ->
    select_one (Applications.has_id (p_id req)) (applications (store st)) = Some a ->
    may_schedule u a = true ->
    let st' := snd (put_company_interview req f st) in
    slots_of (store st') (p_id req) = Nat.max 1 (slots_of (store st) (p_id req))
    /\ forall id', id' <> p_id req ->
         select_all (for_application id') (company_interviews (store st'))
         = select_all (for_application id') (company_interviews (store st)).
Proof.
  intros st req f u a Hid Ha Hmay st'. subst st'.
  rewrite (put_company_interview_run st req f Hid Ha Hmay). cbn. unfold slots_of. cbn.
  split; [apply after_put_count|]. intros id' Hne. now apply after_put_others.
Qed.

(** X6.  A caller that [PUT /api/company-interviews/:applicationId] does not
    allow changes nothing: when the request is not served as an admin or as
    the company that owns the application (no identity, another role,
    another company, or no such application), the answer is 401, 403 or 404
    and the server state is the same. *)
Theorem interview_is_refused_to_others :
  forall st req f,
    (forall u a,
        identity req (store st) = inr u ->
        select_one (Applications.has_id (p_id req)) (applications (store st)) = Some a ->
        may_schedule u a = false) ->
    exists r,
      put_company_interview req f st = (inl r, st)
      /\ (status r = 401 \/ status r = 403 \/ status r = 404).
Proof.
  intros st req f H. unfold put_company_interview.
  destruct (identity req (store st)) as [e|u] eqn:Hid.
  - rewrite (unauthenticated _ _ _ Hid). exists e. split; [reflexivity|].
    destruct (BroadcastFacts.identity_refusal _ _ Hid); auto.
  - rewrite (authenticated _ _ _ Hid). step.
    destruct (roleIs (role u) "company" || roleIs (role u) "admin"); cbn;
      [|eexists; split; [reflexivity|cbn; auto]].
    destruct (select_one (Applications.has_id (p_id req)) (applications (store st)))
      as [a|] eqn:Ha; cbn; [|eexists; split; [reflexivity|cbn; auto]].
    specialize (H u a eq_refl eq_refl). unfold may_schedule in H. rewrite H. cbn.
    eexists; split; [reflexivity|cbn; auto].
Qed.

Lemma joined_interviews_In : forall d i a c,
    In {| iw_slot := i; iw_app := a; iw_company := c |} (joined_interviews d)
    <-> In i (rows (company_interviews d)) /\ In a (rows (applications d))
        /\ In c (rows (companies d))
        /\ iv_application_id i = Some (app_id a)
        /\ app_company_id a = Some (co_id c).
Proof.
  intros d i a c. unfold joined_interviews. rewrite in_map_iff. split.
  - intros ([[i' a'] c'] & E & H). cbn in E. inversion E; subst.
    apply inner_join_In in H as (H & Hc & O). cbn in O.
    apply inner_join_In in H as (Hi & Ha & O').
    apply colEqZ_some in O, O'. tauto.
  - intros (Hi & Ha & Hc & O' & O). exists ((i, a), c). split; [reflexivity|].
    apply inner_join_In. cbn. rewrite <- colEqZ_some in O, O'.
    split; [|split; assumption]. apply inner_join_In. tauto.
Qed.

Lemma get_my_interviews_run : forall st req u s,
    identity req (store st) = inr u -> role u = Some "student" ->
    studentId u = Some s -> s <> 0 ->
    get_my_interviews req st
    = (inr (filter (fun v => eq_param (app_student_id (iw_app v)) (Some s))
                   (joined_interviews (store st))), st).
Proof.
  intros st req u s Hid Hrole Hs Hs0. unfold get_my_interviews.
  rewrite (authenticated _ _ _ Hid). rewrite (roleIs_eq _ Hrole), Hs.
  apply Z.eqb_neq in Hs0. step. now rewrite Hs0.
Qed.

(** X7.  [GET /api/my-interviews] served as a linked student lists exactly
    the slots of that student's applications, each with its application and
    the application's company; a slot of an application whose company row is
    gone is not listed.  Anyone else gets 403.  The server state is not
    changed. *)
Theorem my_interviews_are_own :
  forall st req u,
    identity req (store st) = inr u ->
    if roleIs (role u) "student" && truthyZ (studentId u)
    then exists l,
        get_my_interviews req st = (inr l, st)
        /\ forall i a c,
            In {| iw_slot := i; iw_app := a; iw_company := c |} l
            <-> In i (rows (company_interviews (store st)))
                /\ In a (rows (applications (store st)))
                /\ In c (rows (companies (store st)))
                /\ iv_application_id i = Some (app_id a)
                /\ app_company_id a = Some (co_id c)
                /\ app_student_id a = studentId u
    else get_my_interviews req st
         = (inl {| status := 403; resp_body := RError "Forbidden" |}, st).
Proof.
  intros st req u Hid.
  destruct (roleIs (role u) "student" && truthyZ (studentId u)) eqn:G.
  - apply andb_prop in G as [G1 G2].
    unfold truthyZ in G2. destruct (studentId u) as [s|] eqn:Hs; [|discriminate].
    apply negb_true_iff, Z.eqb_neq in G2.
    unfold roleIs in G1. destruct (role u) as [r|] eqn:Hr; [|discriminate].
    apply String.eqb_eq in G1. subst r.
    eexists. split; [exact (get_my_interviews_run st req Hid Hr Hs G2)|].
    intros i a c. rewrite filter_In, joined_interviews_In. cbn [iw_app].
    rewrite eq_param_some. tauto.
  - unfold get_my_interviews. rewrite (authenticated _ _ _ Hid). step.
    now rewrite G.
Qed.

(** X8.  A slot scheduled for an application reaches its student: after a
    successful [PUT /api/company-interviews/:applicationId], the student's
    [GET /api/my-interviews] lists the slot the route answered with, beside
    the application and its company, provided the company still has a row. *)
Theorem scheduled_interview_reaches_the_student :
  forall st req f u a reqS us s co,
    identity req (store st) = inr u ->
    select_one (Applications.has_id (p_id req)) (applications (store st)) = Some a ->
    may_schedule u a = true ->
    identity reqS (store st) = inr us -> role us = Some "student" ->
    studentId us = Some s -> s <> 0 ->
    app_student_id a = Some s ->
    In co (rows (companies (store st))) -> app_company_id a = Some (co_id co) ->
    exists i st' l,
      put_company_interview req f st = (inr (Some i), st')
      /\ get_my_interviews reqS st' = (inr l, st')
      /\ In {| iw_slot := i; iw_app := a; iw_company := co |} l.
Proof.
  intros st req f u a reqS us s co Hid Ha Hmay HidS Hrole Hs Hs0 Has Hco Hac.
  rewrite (put_company_interview_run st req f Hid Ha Hmay).
  destruct (after_put_slot (clock req) (p_id req) f (app_company_id a)
              (company_interviews (store st))) as (i & E & Hi & _).
  rewrite E.
  match goal with
  | |- exists i st' l, (_, ?x) = _ /\ _ => set (st1 := x)
  end.
  assert (HidS' : identity reqS (store st1) = inr us)
    by (rewrite <- HidS; apply identity_users; reflexivity).
  exists i, st1. eexists. split; [reflexivity|].
  split; [exact (get_my_interviews_run st1 reqS HidS' Hrole Hs Hs0)|].
  - subst st1. cbn [store]. apply filter_In. cbn [iw_app]. split; [|now apply eq_param_some].
    apply joined_interviews_In. cbn.
    unfold select_one in Ha, E. apply find_some in Ha as [Ia Pa].
    apply find_some in E as [Ii _]. unfold Applications.has_id in Pa.
    apply Z.eqb_eq in Pa. rewrite Pa. tauto.
Qed.

End InterviewFacts.

(** ** Listing the clarification threads *)

Module ThreadListingFacts.
Import Sql SqlFacts Listings Client.

Lemma joined_threads_In : forall d r a c,
    In {| tv_request := r; tv_app := a; tv_company := c |} (joined_threads d)
    <-> In r (rows (application_requests d)) /\ In a (rows (applications d))
        /\ In c (rows (companies d))
        /\ rq_application_id r = Some (app_id a)
        /\ app_company_id a = Some (co_id c).
Proof.
  intros d r a c. unfold joined_threads. rewrite in_map_iff. split.
  - intros ([[r' a'] c'] & E & H). cbn in E. inversion E; subst.
    apply inner_join_In in H as (H & Hc & O). cbn in O.
    apply inner_join_In in H as (Hi & Ha & O').
    apply colEqZ_some in O, O'. tauto.
  - intros (Hi & Ha & Hc & O' & O). exists ((r, a), c). split; [reflexivity|].
    apply inner_join_In. cbn. rewrite <- colEqZ_some in O, O'.
    split; [|split; assumption]. apply inner_join_In. tauto.
Qed.

Lemma truthyZ_some : forall v, truthyZ v = true -> exists z, v = Some z /\ z <> 0.
Proof.
  intros [z|]; cbn; [|discriminate]. intros H. exists z. split; [reflexivity|].
  now apply negb_true_iff, Z.eqb_neq in H.
Qed.

Lemma student_threads : forall st req u s,
    identity req (store st) = inr u -> role u = Some "student" ->
    studentId u = Some s -> s <> 0 ->
    get_application_requests req st
    = (inr (filter (fun v => eq_param (app_student_id (tv_app v)) (Some s))
                   (joined_threads (store st))), st).
Proof.
  intros st req u s Hid Hrole Hs Hs0. unfold get_application_requests.
  rewrite (authenticated _ _ _ Hid). rewrite (roleIs_eq _ Hrole), Hs.
  apply Z.eqb_neq in Hs0. step. now rewrite Hs0.
Qed.

(** X9.  [GET /api/application-requests] lists threads joined with their
    application and the application's company, so a thread whose application
    or whose company row is gone is never listed.  A linked student gets the
    threads of that student's applications, a linked company those of the
    applications to it (Withdrawn ones included), and anyone else all of
    them.  The server state is not changed. *)
Theorem threads_listing_is_scoped :
  forall st req u,
    identity req (store st) = inr u ->
    exists l,
      get_application_requests req st = (inr l, st)
      /\ forall r a c,
          In {| tv_request := r; tv_app := a; tv_company := c |} l
          <-> In r (rows (application_requests (store st)))
              /\ In a (rows (applications (store st)))
              /\ In c (rows (companies (store st)))
              /\ rq_application_id r = Some (app_id a)
              /\ app_company_id a = Some (co_id c)
              /\ (if roleIs (role u) "student" && truthyZ (studentId u)
                  then app_student_id a = studentId u
                  else if roleIs (role u) "company" && truthyZ (companyId u)
                       then app_company_id a = companyId u
                       else True).
Proof.
  intros st req u Hid. unfold get_application_requests.
  rewrite (authenticated _ _ _ Hid).
  destruct (roleIs (role u) "student" && truthyZ (studentId u)) eqn:G1.
  - apply andb_prop in G1 as [_ G]. apply truthyZ_some in G as (s & Hs & _).
    step. eexists. split; [reflexivity|]. intros r a c.
    rewrite filter_In, joined_threads_In. cbn [tv_app]. rewrite Hs, eq_param_some.
    tauto.
  - destruct (roleIs (role u) "company" && truthyZ (companyId u)) eqn:G2.
    + apply andb_prop in G2 as [_ G]. apply truthyZ_some in G as (z & Hz & _).
      step. eexists. split; [reflexivity|]. intros r a c.
      rewrite filter_In, joined_threads_In. cbn [tv_app]. rewrite Hz, eq_param_some.
      tauto.
    + step. eexists. split; [reflexivity|]. intros r a c.
      rewrite joined_threads_In. tauto.
Qed.

(** X10.  A clarification request flags the student's applications tab:
    after the owning company's [POST /api/applications/:id/request], the
    thread list the student's session fetches on [applications:changed]
    holds a request without a response, so [student_target] is
    "applications" whatever the stages of the student's applications --
    provided the company still has a row.  A company's session needs no such
    look: the three branches of [company_target] are the same, and it flags
    "company-applications" whatever it has fetched. *)
Theorem request_flags_the_students_tab :
  forall st req u a text reqS us s co apps,
    identity req (store st) = inr u -> role u = Some "company" ->
    select_one (Applications.has_id (p_id req)) (applications (store st)) = Some a ->
    b_request_text (req_body req) = Some text -> text <> "" ->
    Thread.company_owns u a = true ->
    identity reqS (store st) = inr us -> role us = Some "student" ->
    studentId us = Some s -> s <> 0 ->
    app_student_id a = Some s ->
    In co (rows (companies (store st))) -> app_company_id a = Some (co_id co) ->
    exists st' l,
      snd (run (Thread.post_application_request req) st) = st'
      /\ status (fst (run (Thread.post_application_request req) st)) = 200
      /\ get_application_requests reqS st' = (inr l, st')
      /\ student_target l apps = "applications"
      /\ forall requestList apps',
          company_target requestList apps' = "company-applications".
Proof.
  intros st req u a text reqS us s co apps Hid Hrole Ha Ht Ht0 Hown
         HidS HroleS Hs Hs0 Has Hco Hac.
  destruct (ThreadFacts.post_application_request_run st req Hid Hrole Ha Ht Ht0 Hown)
    as (b & st' & E & S).
  rewrite E. cbn [fst snd status].
  assert (HidS' : identity reqS (store st') = inr us).
  { rewrite <- HidS. apply identity_users. now rewrite S. }
  exists st'. eexists. split; [reflexivity|]. split; [reflexivity|].
  split; [exact (student_threads st' reqS HidS' HroleS Hs Hs0)|].
  destruct (ThreadFacts.after_request_thread (clock req) (p_id req) text
              (application_requests (store st))) as (r & F & _ & R & _).
  split.
  - unfold student_target.
    replace (existsb _ _) with true; [reflexivity|]. symmetry.
    apply existsb_exists.
    exists {| tv_request := r; tv_app := a; tv_company := co |}. split.
    + apply filter_In. cbn [tv_app]. split; [|now apply eq_param_some].
      apply joined_threads_In. rewrite S. cbn.
      unfold select_one in Ha, F. apply find_some in Ha as [Ia Pa].
      apply find_some in F as [Ir Pr]. unfold Applications.has_id in Pa.
      apply Z.eqb_eq in Pa. unfold Thread.for_app in Pr. apply colEqZ_some in Pr.
      rewrite Pa. tauto.
    + cbn. now rewrite R.
  - intros requestList apps'. unfold company_target.
    destruct (existsb _ requestList); [reflexivity|].
    destruct (existsb _ apps'); reflexivity.
Qed.

End ThreadListingFacts.

(** ** Reading the subscription registry *)

Module RegistryFacts.
Import Sql SqlFacts Subscriptions Registry Listings Client.

Lemma get_subscribers_count_run : forall st req u,
    identity req (store st) = inr u ->
    admin_or_company u (p_id req) = true ->
    get_subscribers_count req st
    = (inr (Z.of_nat (List.length
                        (select_all (fun r => Z.eqb (sub_company_id r) (p_id req))
                                    (student_company_subscriptions (store st))))), st).
Proof.
  intros st req u Hid H. unfold get_subscribers_count.
  rewrite (authenticated _ _ _ Hid). unfold admin_or_company in H.
  cbv beta zeta. now rewrite H.
Qed.

Lemma insert_or_ignore_company_count : forall now s c k t,
    Z.of_nat (List.length (select_all (fun r => Z.eqb (sub_company_id r) k)
                                      (insert_or_ignore now s c t)))
    = Z.of_nat (List.length (select_all (fun r => Z.eqb (sub_company_id r) k) t))
      + (if Z.eqb c k && negb (existsb (matches s c) (rows t)) then 1 else 0).
Proof.
  intros now s c k [l n]. unfold insert_or_ignore, select_all, insert_row. cbn [rows].
  destruct (existsb (matches s c) l); cbn [rows negb].
  - rewrite andb_false_r. lia.
  - rewrite andb_true_r, filter_app, length_app. cbn [filter sub_company_id].
    destruct (Z.eqb c k); cbn [List.length]; lia.
Qed.

Lemma delete_pair_company_count : forall s c k (l : list subscription),
    Z.of_nat (List.length (filter (fun r => Z.eqb (sub_company_id r) k)
                                  (filter (fun r => negb (matches s c r)) l)))
    + (if Z.eqb c k then Z.of_nat (List.length (filter (matches s c) l)) else 0)
    = Z.of_nat (List.length (filter (fun r => Z.eqb (sub_company_id r) k) l)).
Proof.
  intros s c k l. destruct (Z.eqb c k) eqn:E4;
    (induction l as [|x l IH]; cbn [filter List.length]; [reflexivity|]);
    destruct (matches s c x) eqn:M; cbn [negb filter];
    destruct (Z.eqb (sub_company_id x) k) eqn:E3; cbn [List.length];
    try lia;
    exfalso; unfold matches in M; apply andb_prop in M as [_ M];
    rewrite ?Z.eqb_eq, ?Z.eqb_neq in *; congruence.
Qed.

Lemma delete_subscription_run : forall st req u s,
    identity req (store st) = inr u -> role u = Some "student" ->
    studentId u = Some s -> s <> 0 ->
    exists st',
      run (delete_subscription req) st
        = ({| status := 200; resp_body := RStatus "unsubscribed" |}, st')
      /\ student_company_subscriptions (store st')
         = delete_where (matches s (p_companyId req))
                        (student_company_subscriptions (store st))
      /\ users (store st') = users (store st).
Proof.
  intros st req u s Hid Hrole Hs Hs0.
  unfold run, delete_subscription. rewrite (authenticated _ _ _ Hid).
  step. rewrite (roleIs_eq _ Hrole); cbn.
  rewrite Hs. unfold requireZ. apply Z.eqb_neq in Hs0. rewrite Hs0. cbn.
  eexists. split; [reflexivity|]. cbn. split; reflexivity.
Qed.

(** X11.  Subscribing is what moves a company's subscriber count: after a
    student's successful [POST /api/subscriptions] for company [c], [GET
    /api/companies/:id/subscribers-count] (served as an admin or as that
    company) answers one more than before when [id] is [c] and the student
    was not yet subscribed, and the same number otherwise. *)
Theorem subscribing_moves_the_count :
  forall st reqS us s c reqC uc,
    identity reqS (store st) = inr us -> role us = Some "student" ->
    studentId us = Some s -> s <> 0 ->
    b_company_id (req_body reqS) = Some c -> c <> 0 ->
    identity reqC (store st) = inr uc -> admin_or_company uc (p_id reqC) = true ->
    exists n n' st',
      get_subscribers_count reqC st = (inr n, st)
      /\ snd (run (post_subscriptions reqS) st) = st'
      /\ get_subscribers_count reqC st' = (inr n', st')
      /\ n' = n + (if Z.eqb c (p_id reqC)
                       && negb (Applications.subscribed (store st) s c)
                    then 1 else 0).
Proof.
  intros st reqS us s c reqC uc Hid Hrole Hs Hs0 Hc Hc0 HidC Hown.
  destruct (SubscriptionFacts.post_subscriptions_run st reqS Hid Hrole Hs Hs0 Hc Hc0)
    as (st' & E & S & U).
  assert (HidC' : identity reqC (store st') = inr uc)
    by (rewrite <- HidC; now apply identity_users).
  do 2 eexists. exists st'.
  split; [exact (get_subscribers_count_run st reqC HidC Hown)|].
  split; [now rewrite E|].
  split; [exact (get_subscribers_count_run st' reqC HidC' Hown)|].
  rewrite S. apply insert_or_ignore_company_count.
Qed.

(** X12.  Unsubscribing lowers the subscriber count: after a student's
    successful [DELETE /api/subscriptions/:companyId], the count of that
    company is lower by the number of rows the registry held for the pair,
    and the count of every other company is the same. *)
Theorem unsubscribing_moves_the_count :
  forall st reqS us s reqC uc,
    identity reqS (store st) = inr us -> role us = Some "student" ->
    studentId us = Some s -> s <> 0 ->
    identity reqC (store st) = inr uc -> admin_or_company uc (p_id reqC) = true ->
    exists n n' st',
      get_subscribers_count reqC st = (inr n, st)
      /\ snd (run (delete_subscription reqS) st) = st'
      /\ get_subscribers_count reqC st' = (inr n', st')
      /\ n' + (if Z.eqb (p_companyId reqS) (p_id reqC)
               then Z.of_nat (count_pair (store st) s (p_companyId reqS))
               else 0)
         = n.
Proof.
  intros st reqS us s reqC uc Hid Hrole Hs Hs0 HidC Hown.
  destruct (delete_subscription_run st reqS Hid Hrole Hs Hs0) as (st' & E & S & U).
  assert (HidC' : identity reqC (store st') = inr uc)
    by (rewrite <- HidC; now apply identity_users).
  do 2 eexists. exists st'.
  split; [exact (get_subscribers_count_run st reqC HidC Hown)|].
  split; [now rewrite E|].
  split; [exact (get_subscribers_count_run st' reqC HidC' Hown)|].
  rewrite S. unfold count_pair, select_all, delete_where. cbn [rows].
  apply delete_pair_company_count.
Qed.

Lemma get_member_companies_run : forall st req u s,
    identity req (store st) = inr u -> role u = Some "student" ->
    studentId u = Some s -> s <> 0 ->
    exists l,
      get_member_companies req st = (inr l, st)
      /\ forall mc,
          In mc l
          <-> In (mc_company mc) (rows (companies (store st)))
              /\ mc_subscribed mc
                 = if Applications.subscribed (store st) s (co_id (mc_company mc))
                   then 1 else 0.
Proof.
  intros st req u s Hid Hrole Hs Hs0. unfold get_member_companies.
  rewrite (authenticated _ _ _ Hid). step. rewrite (roleIs_eq _ Hrole); cbn.
  rewrite Hs. unfold requireZ. apply Z.eqb_neq in Hs0. rewrite Hs0. cbn.
  eexists. split; [reflexivity|]. intros [c flag]. cbn [mc_company mc_subscribed].
  rewrite order_by_In, in_map_iff.
  assert (M : forall r, Z.eqb (sub_company_id r) (co_id c) && Z.eqb (sub_student_id r) s
                        = matches s (co_id c) r)
    by (intros r; unfold matches; apply andb_comm).
  unfold Applications.subscribed. split.
  - intros ([c' ob] & E & H). cbn in E. inversion E; subst. clear E.
    apply left_join_In in H as [Hc H]. split; [exact Hc|].
    destruct ob as [r|].
    + destruct H as [Hr O]. rewrite M in O.
      replace (existsb _ _) with true; [reflexivity|]. symmetry.
      apply existsb_exists. now exists r.
    + replace (existsb _ _) with false; [reflexivity|]. symmetry.
      apply not_true_is_false. intros X. apply existsb_exists in X as (r & Hr & O).
      rewrite <- M, (H r Hr) in O. discriminate.
  - intros [Hc Hf].
    destruct (existsb (matches s (co_id c)) _) eqn:X.
    + apply existsb_exists in X as (r & Hr & O). exists (c, Some r).
      split; [now subst|]. apply left_join_In. rewrite M. tauto.
    + exists (c, None). split; [now subst|]. apply left_join_In.
      split; [exact Hc|]. intros r Hr. rewrite M.
      apply not_true_is_false. intros O.
      assert (existsb (matches s (co_id c))
                (rows (student_company_subscriptions (store st))) = true)
        by (apply existsb_exists; now exists r).
      congruence.
Qed.

Lemma get_subscriptions_run : forall st req u s,
    identity req (store st) = inr u -> role u = Some "student" ->
    studentId u = Some s -> s <> 0 ->
    exists l,
      get_subscriptions req st = (inr l, st)
      /\ forall c, In c l <-> Applications.subscribed (store st) s c = true.
Proof.
  intros st req u s Hid Hrole Hs Hs0. unfold get_subscriptions.
  rewrite (authenticated _ _ _ Hid). step. rewrite (roleIs_eq _ Hrole); cbn.
  rewrite Hs. unfold requireZ. apply Z.eqb_neq in Hs0. rewrite Hs0. cbn.
  eexists. split; [reflexivity|]. intros c.
  unfold Applications.subscribed, select_all.
  rewrite in_map_iff, existsb_exists. split.
  - intros (r & E & H). apply filter_In in H as [Hr H]. exists r.
    split; [exact Hr|]. unfold matches. rewrite H, E. cbn. apply Z.eqb_refl.
  - intros (r & Hr & H). unfold matches in H. apply andb_prop in H as [H1 H2].
    exists r. split; [now apply Z.eqb_eq|]. apply filter_In. now split.
Qed.

(** X13.  What a linked student reads of the registry is what [POST
    /api/applications] tests.  [GET /api/member-companies] lists every
    company row, and nothing else, and flags a company as subscribed (1,
    else 0) exactly when the registry holds the pair, that is, when the
    student may apply to it.  [GET /api/subscriptions] lists a company id
    exactly when the registry holds the pair, whether or not the company has
    a row.  Neither changes the server state. *)
Theorem registry_listings_show_the_gate :
  forall st req u s,
    identity req (store st) = inr u -> role u = Some "student" ->
    studentId u = Some s -> s <> 0 ->
    (exists l,
        get_member_companies req st = (inr l, st)
        /\ forall mc,
            In mc l
            <-> In (mc_company mc) (rows (companies (store st)))
                /\ mc_subscribed mc
                   = if Applications.subscribed (store st) s (co_id (mc_company mc))
                     then 1 else 0)
    /\ (exists l,
           get_subscriptions req st = (inr l, st)
           /\ forall c, In c l <-> Applications.subscribed (store st) s c = true).
Proof.
  intros st req u s Hid Hrole Hs Hs0. split.
  - exact (get_member_companies_run st req Hid Hrole Hs Hs0).
  - exact (get_subscriptions_run st req Hid Hrole Hs Hs0).
Qed.

Lemma subscribed_ids_In : forall d s (l : list member_company),
    (forall mc,
        In mc l
        <-> In (mc_company mc) (rows (companies d))
            /\ mc_subscribed mc
               = if Applications.subscribed d s (co_id (mc_company mc)) then 1 else 0) ->
    forall c, In c (subscribedCompanyIds l) <-> follows d s c.
Proof.
  intros d s l L c. unfold subscribedCompanyIds, follows. rewrite in_map_iff. split.
  - intros (mc & E & H). apply filter_In in H as [H F]. apply L in H as [Hc Hf].
    rewrite Hf in F. subst c.
    destruct (Applications.subscribed d s (co_id (mc_company mc))); [|discriminate].
    split; [reflexivity|]. now exists (mc_company mc).
  - intros (S & co & Hco & E). subst c.
    exists {| mc_company := co; mc_subscribed := 1 |}. split; [reflexivity|].
    apply filter_In. split; [|reflexivity]. apply L. cbn. now rewrite S.
Qed.

Lemma has_In : forall ids c, has ids (Some c) = true <-> In c ids.
Proof.
  intros ids c. cbn. rewrite existsb_exists. split.
  - intros (x & Hx & E). apply Z.eqb_eq in E. now subst.
  - intros H. exists c. split; [exact H|apply Z.eqb_refl].
Qed.

(** X14.  What a student's dashboard shows of the applications the server
    lists: once the student follows at least one company that has a row,
    only the applications to followed companies; an application to a company
    the student has unsubscribed from is hidden although the server still
    lists it.  A student who follows no such company sees them all. *)
Theorem dashboard_hides_unfollowed_applications :
  forall st req u s,
    identity req (store st) = inr u -> role u = Some "student" ->
    studentId u = Some s -> s <> 0 ->
    exists apps mcs,
      get_applications req st = (inr apps, st)
      /\ get_member_companies req st = (inr mcs, st)
      /\ forall v,
          In v (visibleStudentApplications mcs apps)
          <-> In v apps
              /\ ((forall c, ~ follows (store st) s c)
                  \/ exists c, app_company_id (av_app v) = Some c
                               /\ follows (store st) s c).
Proof.
  intros st req u s Hid Hrole Hs Hs0.
  destruct (ListingFacts.student_listing st req Hid Hrole Hs Hs0) as (apps & E & _).
  destruct (get_member_companies_run st req Hid Hrole Hs Hs0) as (mcs & E' & L).
  exists apps, mcs. split; [exact E|]. split; [exact E'|].
  pose proof (subscribed_ids_In (store st) s mcs L) as I.
  intros v. unfold visibleStudentApplications.
  destruct (subscribedCompanyIds mcs) as [|k ids] eqn:K.
  - split; [|tauto]. intros H. split; [exact H|]. left. intros c F.
    now apply I in F.
  - rewrite filter_In. split.
    + intros [H F]. split; [exact H|]. right.
      destruct (app_company_id (av_app v)) as [c|]; [|discriminate].
      exists c. split; [reflexivity|]. apply I. now apply has_In.
    + intros [H [F|(c & Ec & F)]].
      * exfalso. apply (F k), I. now left.
      * split; [exact H|]. rewrite Ec. apply has_In. now apply I.
Qed.

(** X15.  Which [openings:changed] events a student's session reacts to,
    given the member companies it has fetched: every event without a company
    id, every event at all while the student follows no company that has a
    row, and otherwise the events of followed companies. *)
Theorem student_heeds_followed_openings :
  forall st req u s,
    identity req (store st) = inr u -> role u = Some "student" ->
    studentId u = Some s -> s <> 0 ->
    exists mcs,
      get_member_companies req st = (inr mcs, st)
      /\ student_heeds_opening mcs None = true
      /\ forall c,
          student_heeds_opening mcs (Some c) = true
          <-> c = 0 \/ (forall k, ~ follows (store st) s k) \/ follows (store st) s c.
Proof.
  intros st req u s Hid Hrole Hs Hs0.
  destruct (get_member_companies_run st req Hid Hrole Hs Hs0) as (mcs & E' & L).
  exists mcs. split; [exact E'|]. split; [reflexivity|].
  pose proof (subscribed_ids_In (store st) s mcs L) as I.
  intros c. unfold student_heeds_opening.
  rewrite negb_true_iff, !andb_false_iff, !negb_false_iff.
  rewrite Nat.eqb_eq, has_In, I. unfold truthyZ. rewrite negb_false_iff, Z.eqb_eq.
  split.
  - intros [[H|H]|H]; [now left| |now right; right].
    right. left. intros k F. apply I in F.
    destruct (subscribedCompanyIds mcs); [destruct F|discriminate].
  - intros [H|[H|H]]; [now left; left| |now right].
    left. right. destruct (subscribedCompanyIds mcs) as [|k ids] eqn:K; [reflexivity|].
    exfalso. apply (H k), I. now left.
Qed.

End RegistryFacts.

(** ** Deleting students and companies *)

Module RemovalFacts.
Import Sql SqlFacts Listings Registry Removal Client.

Lemma joined_applications_In : forall d a os oc,
    In {| av_app := a; av_student := os; av_company := oc |} (joined_applications d)
    <-> In a (rows (applications d))
        /\ match os with
           | Some s => In s (rows (students d)) /\ app_student_id a = Some (st_id s)
           | None => forall s, In s (rows (students d)) -> app_student_id a <> Some (st_id s)
           end
        /\ match oc with
           | Some c => In c (rows (companies d)) /\ app_company_id a = Some (co_id c)
           | None => forall c, In c (rows (companies d)) -> app_company_id a <> Some (co_id c)
           end.
Proof.
  intros d a os oc. unfold joined_applications. rewrite in_map_iff.
  assert (N : forall col z, colEqZ col z = false <-> col <> Some z).
  { intros col z. rewrite <- colEqZ_some. destruct (colEqZ col z); split; congruence. }
  split.
  - intros ([[a' os'] oc'] & E & H). cbn in E. inversion E; subst. clear E.
    apply left_join_In in H as [H Hc]. apply left_join_In in H as [Ha Hs].
    cbn [fst] in Hc. split; [exact Ha|]. split.
    + destruct os as [s|]; [now rewrite <- colEqZ_some|].
      intros s I. apply N. now apply Hs.
    + destruct oc as [c|]; [now rewrite <- colEqZ_some|].
      intros c I. apply N. now apply Hc.
  - intros (Ha & Hs & Hc). exists ((a, os), oc). split; [reflexivity|].
    apply left_join_In. cbn [fst]. split.
    + apply left_join_In. split; [exact Ha|].
      destruct os as [s|]; [now rewrite colEqZ_some|].
      intros s I. apply N. now apply Hs.
    + destruct oc as [c|]; [now rewrite colEqZ_some|].
      intros c I. apply N. now apply Hc.
Qed.

(** Whoever asks, the listing is drawn from the join. *)
Lemma get_applications_joined : forall st req u,
    identity req (store st) = inr u ->
    exists l, get_applications req st = (inr l, st)
              /\ forall v, In v l -> In v (joined_applications (store st)).
Proof.
  intros st req u Hid. unfold get_applications. rewrite (authenticated _ _ _ Hid).
  destruct (roleIs (role u) "student" && truthyZ (studentId u));
    [|destruct (roleIs (role u) "company" && truthyZ (companyId u))];
    step; eexists; (split; [reflexivity|]); intros v H;
    try (apply filter_In in H as [H _]); exact H.
Qed.

Lemma delete_student_run : forall st req u,
    identity req (store st) = inr u -> role u = Some "admin" ->
    exists st',
      run (delete_student req) st
        = ({| status := 200; resp_body := RStatus "deleted" |}, st')
      /\ store st'
         = set_audit_logs (audit_logs (store st'))
             (set_students
                (delete_where (fun r => Z.eqb (st_id r) (p_id req)) (students (store st)))
                (store st)).
Proof.
  intros st req u Hid Hrole. unfold run, delete_student.
  rewrite (authenticated _ _ _ Hid). step. rewrite (roleIs_eq _ Hrole). cbn.
  eexists. split; reflexivity.
Qed.

(** X16.  [DELETE /api/students/:id] by an admin removes the student row and
    nothing that refers to it: the applications, the subscriptions, the
    threads and the slots are the same tables afterwards, and [GET
    /api/applications] then lists each application of that student with no
    student beside it. *)
Theorem deleting_a_student_orphans_the_applications :
  forall st req u,
    identity req (store st) = inr u -> role u = Some "admin" ->
    exists st',
      run (delete_student req) st
        = ({| status := 200; resp_body := RStatus "deleted" |}, st')
      /\ (forall r, In r (rows (students (store st')))
                    <-> In r (rows (students (store st))) /\ st_id r <> p_id req)
      /\ applications (store st') = applications (store st)
      /\ student_company_subscriptions (store st')
         = student_company_subscriptions (store st)
      /\ application_requests (store st') = application_requests (store st)
      /\ company_interviews (store st') = company_interviews (store st)
      /\ forall reqL ul,
          identity reqL (store st') = inr ul ->
          exists l,
            get_applications reqL st' = (inr l, st')
            /\ forall v, In v l -> app_student_id (av_app v) = Some (p_id req) ->
                         av_student v = None.
Proof.
  intros st req u Hid Hrole.
  destruct (delete_student_run st req Hid Hrole) as (st' & E & S).
  exists st'. split; [exact E|].
  assert (R : forall r, In r (rows (students (store st')))
                        <-> In r (rows (students (store st))) /\ st_id r <> p_id req).
  { intros r. rewrite S. cbn. rewrite filter_In, negb_true_iff, Z.eqb_neq. tauto. }
  split; [exact R|]. do 4 (split; [now rewrite S|]).
  intros reqL ul HidL.
  destruct (get_applications_joined st' reqL HidL) as (l & El & J).
  exists l. split; [exact El|]. intros [a os oc] Hv Ha. cbn in *.
  apply J, joined_applications_In in Hv as (_ & Hs & _).
  destruct os as [s|]; [|reflexivity]. destruct Hs as [Is Es].
  apply R in Is as [_ Ne]. congruence.
Qed.

(** Whoever asks, the openings listed are drawn from the join with the
    companies. *)
Lemma get_openings_joined : forall st req l,
    resp_body (fst (run (Openings.get_openings req) st)) = RJoinedOpenings l ->
    forall oc, In oc l -> In oc (Openings.join_companies (store st)).
Proof.
  intros st req l. unfold run, Openings.get_openings.
  destruct (identity req (store st)) as [e|u] eqn:Hid.
  - rewrite (unauthenticated _ _ _ Hid). cbn.
    unfold identity, authenticateToken in Hid.
    destruct (authorization req) as [| | |dec]; cbn in Hid;
      try (inversion Hid; subst; cbn; discriminate).
    destruct (negb (truthyZ (userId dec))); cbn in Hid;
      [inversion Hid; subst; cbn; discriminate|].
    destruct (truthyZ (studentId dec) || truthyZ (companyId dec)); discriminate.
  - rewrite (authenticated _ _ _ Hid).
    destruct (roleIs (role u) "student").
    + unfold requireZ. destruct (studentId u) as [z|]; [|step; discriminate].
      destruct (Z.eqb z 0); step; [discriminate|].
      intros [= <-] [o c] H. apply OpeningFacts.order_by_desc_In in H.
      now apply OpeningFacts.join_subscriptions_In in H.
    + step. intros [= <-] oc H. now apply OpeningFacts.order_by_desc_In in H.
Qed.

Lemma delete_company_run : forall st req u,
    identity req (store st) = inr u -> admin_or_company u (p_id req) = true ->
    exists st',
      run (delete_company req) st
        = ({| status := 200; resp_body := RStatus "deleted" |}, st')
      /\ store st'
         = set_audit_logs (audit_logs (store st'))
             (set_companies
                (delete_where (fun r => Z.eqb (co_id r) (p_id req)) (companies (store st)))
                (store st)).
Proof.
  intros st req u Hid H. unfold run, delete_company.
  rewrite (authenticated _ _ _ Hid). unfold admin_or_company in H.
  cbv beta zeta. rewrite H. step. eexists. split; reflexivity.
Qed.

(** X17.  [DELETE /api/companies/:id] is open to an admin and to the company
    itself; anyone else gets 403 and changes nothing.  It removes the
    company row only: the openings, the applications and the subscriptions
    are the same tables afterwards.  Yet no opening of the company is listed
    by [GET /api/openings] any more, whoever asks. *)
Theorem deleting_a_company_hides_its_openings :
  forall st req u,
    identity req (store st) = inr u ->
    if admin_or_company u (p_id req)
    then exists st',
        run (delete_company req) st
          = ({| status := 200; resp_body := RStatus "deleted" |}, st')
        /\ (forall r, In r (rows (companies (store st')))
                      <-> In r (rows (companies (store st))) /\ co_id r <> p_id req)
        /\ company_openings (store st') = company_openings (store st)
        /\ applications (store st') = applications (store st)
        /\ student_company_subscriptions (store st')
           = student_company_subscriptions (store st)
        /\ forall req' l,
            resp_body (fst (run (Openings.get_openings req') st')) = RJoinedOpenings l ->
            forall o c, In (o, c) l -> op_company_id o <> Some (p_id req)
    else run (delete_company req) st
         = ({| status := 403; resp_body := RError "Forbidden" |}, st).
Proof.
  intros st req u Hid. destruct (admin_or_company u (p_id req)) eqn:G.
  - destruct (delete_company_run st req Hid G) as (st' & E & S).
    exists st'. split; [exact E|].
    assert (R : forall r, In r (rows (companies (store st')))
                          <-> In r (rows (companies (store st))) /\ co_id r <> p_id req).
    { intros r. rewrite S. cbn. rewrite filter_In, negb_true_iff, Z.eqb_neq. tauto. }
    split; [exact R|]. do 3 (split; [now rewrite S|]).
    intros req' l Hl o c H.
    apply (@get_openings_joined st' req' l Hl), OpeningFacts.join_companies_In in H
      as (_ & Ic & Ec).
    apply R in Ic as [_ Ne]. congruence.
  - unfold run, delete_company. rewrite (authenticated _ _ _ Hid).
    unfold admin_or_company in G. cbv beta zeta. rewrite G. reflexivity.
Qed.

End RemovalFacts.

(** ** Deleting an account with everything it owns *)

Module AccountFacts.
Import Sql SqlFacts Accounts.

Lemma in_params_iff : forall col ps,
    in_params col ps = true <-> exists k, In k ps /\ col = Some k.
Proof.
  intros col ps. unfold in_params. rewrite existsb_exists.
  split; intros (k & H & E); exists k; (split; [exact H|]); now apply colEqZ_some.
Qed.

Lemma in_params_false : forall col ps,
    in_params col ps = false <-> ~ exists k, In k ps /\ col = Some k.
Proof.
  intros col ps. rewrite <- in_params_iff. destruct (in_params col ps); split; congruence.
Qed.

Lemma colEqZ_false : forall col z, colEqZ col z = false <-> col <> Some z.
Proof.
  intros col z. rewrite <- colEqZ_some. destruct (colEqZ col z); split; congruence.
Qed.

Lemma delete_where_In : forall (A : Type) (p : A -> bool) (t : table A) r,
    In r (rows (delete_where p t)) <-> In r (rows t) /\ p r = false.
Proof.
  intros A p t r. unfold delete_where. cbn [rows].
  now rewrite filter_In, negb_true_iff.
Qed.

(** The ids of the applications a column value selects. *)
Lemma selected_ids : forall (col : application -> option Z) z t k,
    In k (map app_id (select_all (fun a => colEqZ (col a) z) t))
    <-> exists a, In a (rows t) /\ col a = Some z /\ app_id a = k.
Proof.
  intros col z t k. unfold select_all. rewrite in_map_iff. split.
  - intros (a & E & H). apply filter_In in H as [H C]. apply colEqZ_some in C.
    now exists a.
  - intros (a & H & C & E). exists a. split; [exact E|]. apply filter_In.
    split; [exact H|]. now apply colEqZ_some.
Qed.

Lemma deleteByAppIds_spec : forall ids d,
    (forall r, In r (rows (application_requests (deleteByAppIds ids d)))
               <-> In r (rows (application_requests d))
                   /\ in_params (rq_application_id r) ids = false)
    /\ (forall i, In i (rows (company_interviews (deleteByAppIds ids d)))
                  <-> In i (rows (company_interviews d))
                      /\ in_params (iv_application_id i) ids = false)
    /\ users (deleteByAppIds ids d) = users d
    /\ students (deleteByAppIds ids d) = students d
    /\ companies (deleteByAppIds ids d) = companies d
    /\ applications (deleteByAppIds ids d) = applications d
    /\ company_openings (deleteByAppIds ids d) = company_openings d
    /\ student_company_subscriptions (deleteByAppIds ids d)
       = student_company_subscriptions d
    /\ audit_logs (deleteByAppIds ids d) = audit_logs d.
Proof.
  intros ids d. destruct ids as [|k ids].
  - cbn. repeat split; try tauto.
  - unfold deleteByAppIds. cbn -[in_params].
    split; [intros r; apply delete_where_In|].
    split; [intros r; apply delete_where_In|]. repeat split.
Qed.

Lemma purge_student_spec : forall sid o,
    let d := store (front o) in
    let o' := purge_student sid o in
    let d' := store (front o') in
    (forall a, In a (rows (applications d'))
               <-> In a (rows (applications d)) /\ app_student_id a <> Some sid)
    /\ (forall r, In r (rows (application_requests d'))
                  <-> In r (rows (application_requests d))
                      /\ ~ exists a, In a (rows (applications d))
                                     /\ app_student_id a = Some sid
                                     /\ rq_application_id r = Some (app_id a))
    /\ (forall i, In i (rows (company_interviews d'))
                  <-> In i (rows (company_interviews d))
                      /\ ~ exists a, In a (rows (applications d))
                                     /\ app_student_id a = Some sid
                                     /\ iv_application_id i = Some (app_id a))
    /\ (forall r, In r (rows (student_company_subscriptions d'))
                  <-> In r (rows (student_company_subscriptions d))
                      /\ sub_student_id r <> sid)
    /\ (forall r, In r (rows (students d'))
                  <-> In r (rows (students d)) /\ st_id r <> sid)
    /\ (forall p, In p (rows (student_profiles_extended o'))
                  <-> In p (rows (student_profiles_extended o))
                      /\ pf_student_id p <> Some sid)
    /\ users d' = users d /\ companies d' = companies d
    /\ company_openings d' = company_openings d /\ audit_logs d' = audit_logs d
    /\ support_tickets o' = support_tickets o
    /\ outbox (front o') = outbox (front o) /\ sms_out (front o') = sms_out (front o).
Proof.
  intros sid o d o' d'. subst d o' d'.
  set (ids := map app_id (select_all (fun a => colEqZ (app_student_id a) sid)
                                     (applications (store (front o))))).
  destruct (deleteByAppIds_spec ids (store (front o)))
    as (R & I & U & S & C & A & O & B & L).
  unfold purge_student, on_db. cbn -[deleteByAppIds]. fold ids.
  rewrite A, B, S, U, C, O, L.
  split; [intros a; now rewrite filter_In, negb_true_iff, colEqZ_false|].
  split.
  { intros r. rewrite R, in_params_false. unfold ids.
    split; intros [H N]; (split; [exact H|]); intros X; apply N.
    - destruct X as (a & X). exists (app_id a). split; [|tauto].
      apply selected_ids. exists a. tauto.
    - destruct X as (k & X & E). apply selected_ids in X as (a & X1 & X2 & X3).
      exists a. subst k. tauto. }
  split.
  { intros r. rewrite I, in_params_false. unfold ids.
    split; intros [H N]; (split; [exact H|]); intros X; apply N.
    - destruct X as (a & X). exists (app_id a). split; [|tauto].
      apply selected_ids. exists a. tauto.
    - destruct X as (k & X & E). apply selected_ids in X as (a & X1 & X2 & X3).
      exists a. subst k. tauto. }
  split; [intros r; now rewrite filter_In, negb_true_iff, Z.eqb_neq|].
  split; [intros r; now rewrite filter_In, negb_true_iff, Z.eqb_neq|].
  split; [intros r; now rewrite filter_In, negb_true_iff, colEqZ_false|].
  repeat split.
Qed.

Lemma purge_company_spec : forall cid o,
    let d := store (front o) in
    let o' := purge_company cid o in
    let d' := store (front o') in
    (forall a, In a (rows (applications d'))
               <-> In a (rows (applications d)) /\ app_company_id a <> Some cid)
    /\ (forall r, In r (rows (application_requests d'))
                  <-> In r (rows (application_requests d))
                      /\ ~ exists a, In a (rows (applications d))
                                     /\ app_company_id a = Some cid
                                     /\ rq_application_id r = Some (app_id a))
    /\ (forall i, In i (rows (company_interviews d'))
                  <-> In i (rows (company_interviews d))
                      /\ iv_company_id i <> Some cid
                      /\ ~ exists a, In a (rows (applications d))
                                     /\ app_company_id a = Some cid
                                     /\ iv_application_id i = Some (app_id a))
    /\ (forall x, In x (rows (company_openings d'))
                  <-> In x (rows (company_openings d)) /\ op_company_id x <> Some cid)
    /\ (forall r, In r (rows (student_company_subscriptions d'))
                  <-> In r (rows (student_company_subscriptions d))
                      /\ sub_company_id r <> cid)
    /\ (forall r, In r (rows (companies d'))
                  <-> In r (rows (companies d)) /\ co_id r <> cid)
    /\ users d' = users d /\ students d' = students d
    /\ audit_logs d' = audit_logs d
    /\ support_tickets o' = support_tickets o
    /\ student_profiles_extended o' = student_profiles_extended o
    /\ outbox (front o') = outbox (front o) /\ sms_out (front o') = sms_out (front o).
Proof.
  intros cid o d o' d'. subst d o' d'.
  set (ids := map app_id (select_all (fun a => colEqZ (app_company_id a) cid)
                                     (applications (store (front o))))).
  destruct (deleteByAppIds_spec ids (store (front o)))
    as (R & I & U & S & C & A & O & B & L).
  unfold purge_company, on_db. cbn -[deleteByAppIds]. fold ids.
  rewrite A, B, S, U, C, O, L.
  split; [intros a; now rewrite filter_In, negb_true_iff, colEqZ_false|].
  split.
  { intros r. rewrite R, in_params_false. unfold ids.
    split; intros [H N]; (split; [exact H|]); intros X; apply N.
    - destruct X as (a & X). exists (app_id a). split; [|tauto].
      apply selected_ids. exists a. tauto.
    - destruct X as (k & X & E). apply selected_ids in X as (a & X1 & X2 & X3).
      exists a. subst k. tauto. }
  split.
  { intros r. rewrite filter_In, negb_true_iff, I, in_params_false, colEqZ_false. unfold ids.
    split; [intros [[H N] K]|intros (H & K & N)];
      (repeat split; [exact H|..]; try exact K); intros X; apply N.
    - destruct X as (a & X). exists (app_id a). split; [|tauto].
      apply selected_ids. exists a. tauto.
    - destruct X as (k & X & E). apply selected_ids in X as (a & X1 & X2 & X3).
      exists a. subst k. tauto. }
  split; [intros r; now rewrite filter_In, negb_true_iff, colEqZ_false|].
  split; [intros r; now rewrite filter_In, negb_true_iff, Z.eqb_neq|].
  split; [intros r; now rewrite filter_In, negb_true_iff, Z.eqb_neq|].
  repeat split.
Qed.

Lemma with_front_same : forall o, with_front (front o) o = o.
Proof. intros [f t p]. reflexivity. Qed.

(** The row and the event [logAudit] adds for a deleted account. *)
Lemma delete_user_run : forall us_status req o u user,
    identity req (store (front o)) = inr u -> role u = Some "admin" ->
    p_id req <> 0 ->
    select_one (fun x => Z.eqb (us_id x) (p_id req)) (users (store (front o))) = Some user ->
    roleIs (us_role user) "admin"
    && Nat.eqb (other_active_admins us_status (p_id req) (store (front o))) 0 = false ->
    exists o' row ev,
      delete_user us_status req o
      = ({| status := 200; resp_body := RStatus "deleted" |}, o')
      /\ store (front o')
         = set_audit_logs (audit_logs (store (front o')))
                          (store (front (cascade user (p_id req) o)))
      /\ rows (audit_logs (store (front o')))
         = (rows (audit_logs (store (front (cascade user (p_id req) o)))) ++ [row])%list
      /\ au_action_type row = "user_delete" /\ au_entity_id row = Some (p_id req)
      /\ outbox (front o') = (outbox (front (cascade user (p_id req) o)) ++ [ev])%list
      /\ ev_name ev = "admin:changed"
      /\ sms_out (front o') = sms_out (front (cascade user (p_id req) o))
      /\ support_tickets o' = support_tickets (cascade user (p_id req) o)
      /\ student_profiles_extended o'
         = student_profiles_extended (cascade user (p_id req) o).
Proof.
  intros us_status req o u user Hid Hrole Hp Hu Hlast. unfold delete_user.
  rewrite authenticateToken_spec, Hid. unfold authorizeRole.
  cbn [List.length Nat.eqb negb andb orb existsb].
  rewrite (roleIs_eq _ Hrole). cbn -[cascade other_active_admins].
  apply Z.eqb_neq in Hp. rewrite Hp, with_front_same, Hu, Hlast.
  do 3 eexists. split; [reflexivity|]. cbn -[cascade next_id].
  repeat split.
Qed.

Lemma cascade_users : forall user uid o x,
    In x (rows (users (store (front (cascade user uid o)))))
    <-> In x (rows (users (store (front o)))) /\ us_id x <> uid.
Proof.
  intros user uid o x. unfold cascade. cbn -[purge_student purge_company].
  rewrite filter_In, negb_true_iff, Z.eqb_neq.
  assert (E : users (store (front
                (match us_company_id user with
                 | Some cid =>
                     if Z.eqb cid 0
                     then match us_student_id user with
                          | Some sid => if Z.eqb sid 0 then o else purge_student sid o
                          | None => o
                          end
                     else purge_company cid
                            match us_student_id user with
                            | Some sid => if Z.eqb sid 0 then o else purge_student sid o
                            | None => o
                            end
                 | None => match us_student_id user with
                           | Some sid => if Z.eqb sid 0 then o else purge_student sid o
                           | None => o
                           end
                 end))) = users (store (front o))).
  { assert (E1 : forall o1, users (store (front
                   (match us_student_id user with
                    | Some sid => if Z.eqb sid 0 then o1 else purge_student sid o1
                    | None => o1
                    end))) = users (store (front o1))).
    { intros o1. destruct (us_student_id user) as [sid|]; [|reflexivity].
      destruct (Z.eqb sid 0); [reflexivity|]. apply (purge_student_spec sid o1). }
    destruct (us_company_id user) as [cid|]; [|apply E1].
    destruct (Z.eqb cid 0); [apply E1|].
    etransitivity; [apply (purge_company_spec cid)|apply E1]. }
  now rewrite E.
Qed.

Lemma falsy : forall v : option Z, truthyZ v = false -> v = None \/ v = Some 0.
Proof.
  intros [c|] H; [|now left]. cbn in H. apply negb_false_iff, Z.eqb_eq in H.
  subst. now right.
Qed.

(** X18.  [DELETE /api/admin/users/:id] on the account of a student takes
    with it everything the student owns: afterwards there is no account with
    that id, no student row, application, subscription or extended profile
    of the student, no support ticket of the account, and no thread or
    interview slot of an application the student had; every other row of
    these tables is kept, and the companies and the openings are the same
    tables. *)
Theorem deleting_a_student_account_cascades :
  forall us_status req o u user sid,
    identity req (store (front o)) = inr u -> role u = Some "admin" ->
    p_id req <> 0 ->
    select_one (fun x => Z.eqb (us_id x) (p_id req)) (users (store (front o))) = Some user ->
    roleIs (us_role user) "admin"
    && Nat.eqb (other_active_admins us_status (p_id req) (store (front o))) 0 = false ->
    us_student_id user = Some sid -> sid <> 0 -> truthyZ (us_company_id user) = false ->
    exists o',
      delete_user us_status req o
      = ({| status := 200; resp_body := RStatus "deleted" |}, o')
      /\ let d := store (front o) in
         let d' := store (front o') in
         (forall x, In x (rows (users d'))
                    <-> In x (rows (users d)) /\ us_id x <> p_id req)
         /\ (forall r, In r (rows (students d'))
                       <-> In r (rows (students d)) /\ st_id r <> sid)
         /\ (forall a, In a (rows (applications d'))
                       <-> In a (rows (applications d)) /\ app_student_id a <> Some sid)
         /\ (forall r, In r (rows (student_company_subscriptions d'))
                       <-> In r (rows (student_company_subscriptions d))
                           /\ sub_student_id r <> sid)
         /\ (forall r, In r (rows (application_requests d'))
                       <-> In r (rows (application_requests d))
                           /\ ~ exists a, In a (rows (applications d))
                                          /\ app_student_id a = Some sid
                                          /\ rq_application_id r = Some (app_id a))
         /\ (forall i, In i (rows (company_interviews d'))
                       <-> In i (rows (company_interviews d))
                           /\ ~ exists a, In a (rows (applications d))
                                          /\ app_student_id a = Some sid
                                          /\ iv_application_id i = Some (app_id a))
         /\ (forall p, In p (rows (student_profiles_extended o'))
                       <-> In p (rows (student_profiles_extended o))
                           /\ pf_student_id p <> Some sid)
         /\ (forall t, In t (rows (support_tickets o'))
                       <-> In t (rows (support_tickets o))
                           /\ tk_user_id t <> Some (p_id req))
         /\ companies d' = companies d
         /\ company_openings d' = company_openings d.
Proof.
  intros us_status req o u user sid Hid Hrole Hp Hu Hlast Hsid Hsid0 Hco.
  destruct (delete_user_run us_status req o Hid Hrole Hp Hu Hlast)
    as (o' & row & ev & E & S & _ & _ & _ & _ & _ & _ & T & P).
  exists o'. split; [exact E|]. cbv zeta.
  assert (C : cascade user (p_id req) o
              = on_db (fun d => set_users
                         (delete_where (fun x => Z.eqb (us_id x) (p_id req)) (users d)) d)
                  {| front := front (purge_student sid o);
                     support_tickets :=
                       delete_where (fun t => colEqZ (tk_user_id t) (p_id req))
                                    (support_tickets (purge_student sid o));
                     student_profiles_extended :=
                       student_profiles_extended (purge_student sid o) |}).
  { unfold cascade. cbv zeta. rewrite Hsid. apply Z.eqb_neq in Hsid0. rewrite Hsid0.
    destruct (falsy _ Hco) as [-> | ->]; reflexivity. }
  destruct (purge_student_spec sid o)
    as (A & R & I & B & St & Pf & U & Co & Op & _ & Tk & _).
  rewrite S, T, P, C. cbn -[purge_student].
  split; [intros x; now rewrite filter_In, negb_true_iff, Z.eqb_neq, U|].
  split; [exact St|]. split; [exact A|]. split; [exact B|]. split; [exact R|].
  split; [exact I|]. split; [exact Pf|].
  split; [intros t; now rewrite filter_In, negb_true_iff, colEqZ_false, Tk|].
  split; [exact Co|exact Op].
Qed.

(** X19.  [DELETE /api/admin/users/:id] on the account of a company takes
    what the company owns: afterwards there is no account with that id, no
    company row, opening, application or subscription of the company, no
    interview slot of the company, and no thread or slot of an application
    it had received; every other row of these tables is kept, and the
    students are the same table. *)
Theorem deleting_a_company_account_cascades :
  forall us_status req o u user cid,
    identity req (store (front o)) = inr u -> role u = Some "admin" ->
    p_id req <> 0 ->
    select_one (fun x => Z.eqb (us_id x) (p_id req)) (users (store (front o))) = Some user ->
    roleIs (us_role user) "admin"
    && Nat.eqb (other_active_admins us_status (p_id req) (store (front o))) 0 = false ->
    us_company_id user = Some cid -> cid <> 0 -> truthyZ (us_student_id user) = false ->
    exists o',
      delete_user us_status req o
      = ({| status := 200; resp_body := RStatus "deleted" |}, o')
      /\ let d := store (front o) in
         let d' := store (front o') in
         (forall x, In x (rows (users d'))
                    <-> In x (rows (users d)) /\ us_id x <> p_id req)
         /\ (forall r, In r (rows (companies d'))
                       <-> In r (rows (companies d)) /\ co_id r <> cid)
         /\ (forall x, In x (rows (company_openings d'))
                       <-> In x (rows (company_openings d))
                           /\ op_company_id x <> Some cid)
         /\ (forall a, In a (rows (applications d'))
                       <-> In a (rows (applications d)) /\ app_company_id a <> Some cid)
         /\ (forall r, In r (rows (student_company_subscriptions d'))
                       <-> In r (rows (student_company_subscriptions d))
                           /\ sub_company_id r <> cid)
         /\ (forall r, In r (rows (application_requests d'))
                       <-> In r (rows (application_requests d))
                           /\ ~ exists a, In a (rows (applications d))
                                          /\ app_company_id a = Some cid
                                          /\ rq_application_id r = Some (app_id a))
         /\ (forall i, In i (rows (company_interviews d'))
                       <-> In i (rows (company_interviews d))
                           /\ iv_company_id i <> Some cid
                           /\ ~ exists a, In a (rows (applications d))
                                          /\ app_company_id a = Some cid
                                          /\ iv_application_id i = Some (app_id a))
         /\ (forall t, In t (rows (support_tickets o'))
                       <-> In t (rows (support_tickets o))
                           /\ tk_user_id t <> Some (p_id req))
         /\ students d' = students d
         /\ student_profiles_extended o' = student_profiles_extended o.
Proof.
  intros us_status req o u user cid Hid Hrole Hp Hu Hlast Hcid Hcid0 Hst.
  destruct (delete_user_run us_status req o Hid Hrole Hp Hu Hlast)
    as (o' & row & ev & E & S & _ & _ & _ & _ & _ & _ & T & P).
  exists o'. split; [exact E|]. cbv zeta.
  assert (C : cascade user (p_id req) o
              = on_db (fun d => set_users
                         (delete_where (fun x => Z.eqb (us_id x) (p_id req)) (users d)) d)
                  {| front := front (purge_company cid o);
                     support_tickets :=
                       delete_where (fun t => colEqZ (tk_user_id t) (p_id req))
                                    (support_tickets (purge_company cid o));
                     student_profiles_extended :=
                       student_profiles_extended (purge_company cid o) |}).
  { unfold cascade. cbv zeta. rewrite Hcid. apply Z.eqb_neq in Hcid0. rewrite Hcid0.
    destruct (falsy _ Hst) as [-> | ->]; reflexivity. }
  destruct (purge_company_spec cid o)
    as (A & R & I & Op & B & Co & U & St & _ & Tk & Pf & _).
  rewrite S, T, P, C. cbn -[purge_company].
  split; [intros x; now rewrite filter_In, negb_true_iff, Z.eqb_neq, U|].
  split; [exact Co|]. split; [exact Op|]. split; [exact A|]. split; [exact B|].
  split; [exact R|]. split; [exact I|].
  split; [intros t; now rewrite filter_In, negb_true_iff, colEqZ_false, Tk|].
  split; [exact St|exact Pf].
Qed.

(** The outcomes of the route: a refusal, which changes nothing, or the
    cascade. *)
Lemma delete_user_cases : forall us_status req o,
    (snd (delete_user us_status req o) = o
     /\ Z.eqb (status (fst (delete_user us_status req o))) 200 = false)
    \/ exists u user,
        identity req (store (front o)) = inr u /\ role u = Some "admin"
        /\ p_id req <> 0
        /\ select_one (fun x => Z.eqb (us_id x) (p_id req)) (users (store (front o)))
           = Some user
        /\ roleIs (us_role user) "admin"
           && Nat.eqb (other_active_admins us_status (p_id req) (store (front o))) 0
           = false.
Proof.
  intros us_status req o. unfold delete_user. rewrite authenticateToken_spec.
  destruct (identity req (store (front o))) as [e|u] eqn:Hid.
  - left. cbn. split; [apply with_front_same|].
    exact (BroadcastFacts.identity_failure _ _ Hid).
  - unfold authorizeRole. cbn [List.length Nat.eqb negb andb orb existsb].
    destruct (roleIs (role u) "admin") eqn:Hrole; cbn -[cascade other_active_admins];
      [|left; split; [apply with_front_same|reflexivity]].
    rewrite with_front_same.
    destruct (Z.eqb (p_id req) 0) eqn:Hp; [left; now split|].
    destruct (select_one _ (users (store (front o)))) as [user|] eqn:Hu;
      [|left; now split].
    destruct (roleIs (us_role user) "admin" && _) eqn:Hlast; [left; now split|].
    right. exists u, user. repeat split; try assumption.
    + unfold roleIs in Hrole. destruct (role u) as [r|]; [|discriminate].
      apply String.eqb_eq in Hrole. now subst.
    + now apply Z.eqb_neq.
Qed.

Lemma cascade_frame : forall user uid o,
    audit_logs (store (front (cascade user uid o))) = audit_logs (store (front o))
    /\ outbox (front (cascade user uid o)) = outbox (front o)
    /\ sms_out (front (cascade user uid o)) = sms_out (front o).
Proof.
  intros user uid o. unfold cascade. cbv zeta.
  assert (E1 : forall o1,
             let o2 := match us_student_id user with
                       | Some sid => if Z.eqb sid 0 then o1 else purge_student sid o1
                       | None => o1
                       end in
             audit_logs (store (front o2)) = audit_logs (store (front o1))
             /\ outbox (front o2) = outbox (front o1)
             /\ sms_out (front o2) = sms_out (front o1)).
  { intros o1. destruct (us_student_id user) as [sid|]; [|now cbn].
    destruct (Z.eqb sid 0); [now cbn|]. cbv zeta.
    destruct (purge_student_spec sid o1)
      as (_ & _ & _ & _ & _ & _ & _ & _ & _ & L & _ & O & M). auto. }
  specialize (E1 o). cbv zeta in E1. destruct E1 as (L1 & O1 & M1).
  cbn -[purge_student purge_company].
  destruct (us_company_id user) as [cid|]; [|auto].
  destruct (Z.eqb cid 0); [auto|].
  match goal with
  | |- context [purge_company cid ?x] =>
      destruct (purge_company_spec cid x)
        as (_ & _ & _ & _ & _ & _ & _ & _ & L & _ & _ & O & M)
  end.
  rewrite L, O, M. auto.
Qed.

(** X20.  [DELETE /api/admin/users/:id] never leaves the platform without an
    active admin: when the user ids are distinct and some account is an
    active admin, some account is an active admin after the call, whatever
    was asked and whatever was answered. *)
Theorem an_active_admin_remains :
  forall us_status req o,
    NoDup (map us_id (rows (users (store (front o))))) ->
    (exists x, In x (rows (users (store (front o))))
               /\ active_admin us_status x = true) ->
    exists x, In x (rows (users (store (front (snd (delete_user us_status req o))))))
              /\ active_admin us_status x = true.
Proof.
  intros us_status req o Hnd (x & Hx & Ax).
  destruct (delete_user_cases us_status req o)
    as [[E _]|(u & user & Hid & Hrole & Hp & Hu & Hlast)].
  - rewrite E. now exists x.
  - destruct (delete_user_run us_status req o Hid Hrole Hp Hu Hlast)
      as (o' & row & ev & E & S & _).
    rewrite E. cbn [snd]. rewrite S. cbn [users set_audit_logs].
    destruct (roleIs (us_role user) "admin") eqn:Hadmin.
    + cbn in Hlast. apply Nat.eqb_neq in Hlast. unfold other_active_admins in Hlast.
      destruct (select_all _ (users (store (front o)))) as [|y l] eqn:F;
        [now destruct Hlast|].
      assert (Hy : In y (select_all
                           (fun x => colEqS (us_role x) "admin"
                                     && colEqS (us_status x) "active"
                                     && negb (Z.eqb (us_id x) (p_id req)))
                           (users (store (front o)))))
        by (rewrite F; now left).
      apply filter_In in Hy as [Iy Py]. apply andb_prop in Py as [Py Ny].
      exists y. split; [|exact Py]. apply cascade_users. split; [exact Iy|].
      now apply negb_true_iff, Z.eqb_neq in Ny.
    + exists x. split; [|exact Ax]. apply cascade_users. split; [exact Hx|].
      intros Hid'. apply find_some in Hu as [Iu Pu]. apply Z.eqb_eq in Pu.
      assert (x = user).
      { clear - Hnd Hx Iu Pu Hid'. rewrite <- Pu in Hid'.
        induction (rows (users (store (front o)))) as [|z l IH]; [destruct Hx|].
        cbn in Hnd. inversion Hnd as [|? ? Hn Hnd']. subst.
        destruct Hx as [->|Hx], Iu as [->|Iu]; auto.
        - exfalso. apply Hn. rewrite Hid'. now apply in_map.
        - exfalso. apply Hn. rewrite <- Hid'. now apply in_map. }
      subst x. unfold active_admin in Ax. apply andb_prop in Ax as [Ax _].
      unfold roleIs in Hadmin. unfold colEqS in Ax. congruence.
Qed.

(** X21.  What a call of [DELETE /api/admin/users/:id] leaves behind.  A
    refusal changes nothing.  A deletion appends one row, of type
    "user_delete", to the audit log and broadcasts one [admin:changed] event
    and nothing else: the applications, threads and slots the cascade has
    removed are not announced by an [applications:changed] event. *)
Theorem account_deletion_is_announced_to_admins_only :
  forall us_status req o,
    let r := delete_user us_status req o in
    if Z.eqb (status (fst r)) 200
    then exists row ev,
        rows (audit_logs (store (front (snd r))))
        = (rows (audit_logs (store (front o))) ++ [row])%list
        /\ au_action_type row = "user_delete"
        /\ au_entity_id row = Some (p_id req)
        /\ outbox (front (snd r)) = (outbox (front o) ++ [ev])%list
        /\ ev_name ev = "admin:changed"
        /\ sms_out (front (snd r)) = sms_out (front o)
    else snd r = o.
Proof.
  intros us_status req o r. subst r.
  destruct (delete_user_cases us_status req o)
    as [[E F]|(u & user & Hid & Hrole & Hp & Hu & Hlast)].
  - now rewrite F.
  - destruct (delete_user_run us_status req o Hid Hrole Hp Hu Hlast)
      as (o' & row & ev & E & _ & A & T & I & O & N & M & _).
    destruct (cascade_frame user (p_id req) o) as (L' & O' & M').
    rewrite E. cbn [fst snd status Z.eqb]. exists row, ev.
    rewrite A, O, M, L', O', M'. repeat split; assumption.
Qed.

(** X22.  Deleting an account does not revoke its token.  A request that
    carries a verified token of the deleted account is still served
    afterwards, under the user id and the role the token claims; when the
    token names a student or a company it is served exactly as the token
    says. *)
Theorem deleted_account_keeps_its_token :
  forall us_status reqA o req dec,
    status (fst (delete_user us_status reqA o)) = 200 ->
    authorization req = Bearer dec -> userId dec = Some (p_id reqA) ->
    exists u,
      identity req (store (front (snd (delete_user us_status reqA o)))) = inr u
      /\ userId u = userId dec /\ role u = role dec
      /\ (truthyZ (studentId dec) || truthyZ (companyId dec) = true -> u = dec).
Proof.
  intros us_status reqA o req dec H200 Hauth Hdec.
  destruct (delete_user_cases us_status reqA o)
    as [[E F]|(u & user & Hid & Hrole & Hp & Hu & Hlast)].
  - rewrite H200 in F. discriminate.
  - destruct (delete_user_run us_status reqA o Hid Hrole Hp Hu Hlast)
      as (o' & row & ev & E & S & _).
    rewrite E. cbn [snd]. unfold identity, authenticateToken. rewrite Hauth, Hdec.
    cbn [truthyZ]. apply Z.eqb_neq in Hp. rewrite Hp. cbn [negb].
    destruct (truthyZ (studentId dec) || truthyZ (companyId dec)) eqn:L.
    + exists dec. cbn. auto.
    + unfold bind, query, ret. cbn [fst store boot]. rewrite S.
      cbn [users set_audit_logs].
      assert (N : select_one (fun x => Z.eqb (us_id x) (p_id reqA))
                    (users (store (front (cascade user (p_id reqA) o)))) = None).
      { unfold select_one.
        destruct (find _ (rows (users (store (front (cascade user (p_id reqA) o))))))
          as [y|] eqn:Fy; [|reflexivity].
        apply find_some in Fy as [Iy Py]. apply cascade_users in Iy as [_ Ny].
        apply Z.eqb_eq in Py. contradiction. }
      rewrite N. eexists. split; [reflexivity|]. cbn.
      split; [reflexivity|]. split; [reflexivity|discriminate].
Qed.

End AccountFacts.

(** ** The audit trail *)

Module AuditFacts.
Import Applications Openings Thread Subscriptions Removal Routes Audit.

Ltac still :=
  exists [], []; cbn; rewrite ?app_nil_r; solve [repeat split; reflexivity].

Ltac logged :=
  first
    [ still
    | eexists [_], [_]; cbn -[next_id];
      solve [repeat split; reflexivity]
    | eexists [_], [_; _]; cbn -[next_id]; rewrite <- ?app_assoc;
      solve [repeat split; reflexivity]
    | eexists [], [_]; cbn -[next_id]; rewrite ?app_nil_r;
      solve [repeat split; reflexivity] ].

Ltac unfolded :=
  unfold logAudit, emitApplicationsChanged, emitOpeningsChanged, emit, exec,
    query, json, send, sendSMS, ret, bind, guard, requireRow, requireZ, requireS,
    authorizeRole, thread_of, select_one, update_where, insert_row, delete_where;
  cbn -[next_id].

Ltac fork :=
  match goal with
  | |- context [if ?b then _ else _] => destruct b eqn:?
  | |- context [match ?v with Some _ => _ | None => _ end] => destruct v eqn:?
  end;
  cbn -[next_id].

Ltac audit_route :=
  intros req st; unfold in_step, run;
  destruct (identity req (store st)) as [e|u] eqn:Hid;
  [ rewrite (unauthenticated _ _ _ Hid); cbn; still
  | rewrite (authenticated _ _ _ Hid); unfolded; repeat (first [logged | fork]) ].

Lemma post_applications_in_step : forall req st,
    in_step st (snd (run (post_applications req) st)).
Proof. unfold post_applications. audit_route. Qed.

Lemma patch_application_status_in_step : forall req st,
    in_step st (snd (run (patch_application_status req) st)).
Proof. unfold patch_application_status. audit_route. Qed.

Lemma put_application_in_step : forall req st,
    in_step st (snd (run (put_application req) st)).
Proof. unfold put_application. audit_route. Qed.

Lemma patch_application_in_step : forall req st,
    in_step st (snd (run (patch_application req) st)).
Proof. unfold patch_application. audit_route. Qed.

Lemma post_application_request_in_step : forall req st,
    in_step st (snd (run (post_application_request req) st)).
Proof. unfold post_application_request. audit_route. Qed.

Lemma patch_request_response_in_step : forall req st,
    in_step st (snd (run (patch_request_response req) st)).
Proof. unfold patch_request_response. audit_route. Qed.

Lemma post_company_openings_in_step : forall req st,
    in_step st (snd (run (post_company_openings req) st)).
Proof. unfold post_company_openings. audit_route. Qed.

Lemma delete_company_opening_in_step : forall req st,
    in_step st (snd (run (delete_company_opening req) st)).
Proof. unfold delete_company_opening. audit_route. Qed.

Lemma post_subscriptions_in_step : forall req st,
    in_step st (snd (run (post_subscriptions req) st)).
Proof. unfold post_subscriptions. audit_route. Qed.

Lemma delete_subscription_in_step : forall req st,
    in_step st (snd (run (delete_subscription req) st)).
Proof. unfold delete_subscription. audit_route. Qed.

Lemma delete_student_in_step : forall req st,
    in_step st (snd (run (delete_student req) st)).
Proof. unfold delete_student. audit_route. Qed.

Lemma delete_company_in_step : forall req st,
    in_step st (snd (run (delete_company req) st)).
Proof. unfold delete_company. audit_route. Qed.

Lemma get_openings_in_step : forall req st,
    in_step st (snd (run (get_openings req) st)).
Proof. unfold get_openings. audit_route. Qed.

Lemma delete_generic_in_step : forall req st,
    in_step st (snd (run (delete_generic req) st)).
Proof.
  intros req st. unfold in_step, run, delete_generic. unfolded.
  repeat (first [logged | fork]).
Qed.

(** X23.  The audit log and the [admin:changed] broadcast move in step.
    Whatever a route is asked and whatever it answers, the audit log and the
    broadcast only grow, and the [admin:changed] events it has added are
    exactly the events of the audit rows it has added, in order: no row is
    written without its event and no such event is sent without its row. *)
Theorem audit_rows_and_events_move_in_step :
  forall e req st, in_step st (snd (run (serve e req) st)).
Proof.
  intros [m| | | | | |] req st; cbn [serve].
  - destruct m; cbn [route].
    + apply post_applications_in_step.
    + apply patch_application_status_in_step.
    + apply put_application_in_step.
    + apply patch_application_in_step.
    + apply post_application_request_in_step.
    + apply patch_request_response_in_step.
    + apply post_company_openings_in_step.
    + apply delete_company_opening_in_step.
  - apply post_subscriptions_in_step.
  - apply delete_subscription_in_step.
  - apply delete_student_in_step.
  - apply delete_company_in_step.
  - apply delete_generic_in_step.
  - apply get_openings_in_step.
Qed.

End AuditFacts.

(** ** The company's application card against the stage route *)

Module CardFacts.
Import Applications Client.

Lemma card_actions_named : forall a n,
    In n (company_card_actions a) ->
    n <> shown_stage a
    /\ (n = "Interviewing" \/ n = "Offer" \/ n = "Placed"
        \/ n = "Waitlisted" \/ n = "Rejected").
Proof.
  intros a n. unfold company_card_actions, getNextStage.
  generalize (shown_stage a). intros s H.
  apply in_app_or in H as [H|H]; [|apply in_app_or in H as [H|H]].
  - destruct (String.eqb_spec s "Applied");
      [subst; destruct H as [<-|[]]; split; [discriminate|auto]|].
    destruct (String.eqb_spec s "Interviewing");
      [subst; destruct H as [<-|[]]; split; [discriminate|auto]|].
    destruct (String.eqb_spec s "Offer");
      [subst; destruct H as [<-|[]]; split; [discriminate|auto 6]|].
    destruct H.
  - destruct (String.eqb_spec s "Waitlisted"); [destruct H|].
    cbn [negb andb] in H. destruct (_ && _); [|destruct H].
    destruct H as [<-|[]]. split; [congruence|auto 6].
  - destruct (String.eqb_spec s "Rejected"); [destruct H|].
    destruct H as [<-|[]]. split; [congruence|auto 6].
Qed.

(** X24.  Every button of a company's application card does what it says.
    For each stage the card offers for an application, the stage differs
    from the one shown, [updateApplicationStage] sends the request, and
    [PATCH /api/applications/:id/status], served as someone who may touch
    the application, answers 200 and stores that stage, which is the stage
    the card then shows. *)
Theorem every_card_button_is_accepted :
  forall st session now a n u,
    In n (company_card_actions a) ->
    identity (stage_request session now a n) (store st) = inr u ->
    select_one (has_id (app_id a)) (applications (store st)) = Some a ->
    may_touch u a = true ->
    n <> shown_stage a
    /\ updateApplicationStage session now (Some a) (Some n)
       = Some (stage_request session now a n)
    /\ status (fst (run (patch_application_status (stage_request session now a n)) st))
       = 200
    /\ select_one (has_id (app_id a))
         (applications
            (store (snd (run (patch_application_status (stage_request session now a n))
                             st))))
       = Some (set_stage (Some n) a)
    /\ shown_stage (set_stage (Some n) a) = n.
Proof.
  intros st session now a n u Hn Hid Ha Hmay.
  destruct (card_actions_named a n Hn) as [Hne Hnames].
  assert (Hn0 : n <> "") by (intros ->; intuition discriminate).
  split; [exact Hne|]. split.
  { unfold updateApplicationStage, truthyS.
    destruct (String.eqb_spec n ""); [contradiction|reflexivity]. }
  destruct (@StageFacts.patch_application_status_run st
              (stage_request session now a n) u a n Hid Ha eq_refl Hn0 Hmay)
    as (st' & E & S & _).
  rewrite E. cbn [fst snd status]. split; [reflexivity|]. split.
  - rewrite S. cbn [applications set_audit_logs set_applications].
    unfold select_one, update_where in *. cbn [rows p_id stage_request].
    rewrite (find_update _ _ _ (StageFacts.has_id_set_stage (app_id a) (Some n))).
    now rewrite Ha.
  - unfold shown_stage, orElseS, truthyS. cbn [app_stage set_stage].
    destruct (String.eqb_spec n ""); [contradiction|reflexivity].
Qed.

(** X25.  What the card offers, stage by stage: it never offers the stage it
    shows; on a Rejected application it offers nothing; on a Placed or a
    Waitlisted one it offers Reject only, so the card has no way back from
    the waitlist; and the advance button exists exactly when its label does. *)
Theorem card_offers :
  forall a,
    ~ In (shown_stage a) (company_card_actions a)
    /\ (shown_stage a = "Rejected" -> company_card_actions a = [])
    /\ (shown_stage a = "Placed" \/ shown_stage a = "Waitlisted" ->
        company_card_actions a = ["Rejected"])
    /\ (getNextStage (shown_stage a) = None
        <-> getStageActionLabel (shown_stage a) = None).
Proof.
  intros a. split; [intros H; now apply card_actions_named in H as [H _]|].
  unfold company_card_actions, getNextStage, getStageActionLabel.
  generalize (shown_stage a). intros s.
  split; [intros ->; reflexivity|]. split; [intros [-> | ->]; reflexivity|].
  destruct (String.eqb s "Applied"); [split; discriminate|].
  destruct (String.eqb s "Interviewing"); [split; discriminate|].
  destruct (String.eqb s "Offer"); [split; discriminate|]. tauto.
Qed.

End CardFacts.

(** ** Reading student rows *)

Module StudentFacts.
Import Sql SqlFacts Applications Students.






End StudentFacts.

(** ** The accounts and their administration *)

Module DirectoryFacts.
Import Directory.

Lemma unique_id : forall (l : list account) x y,
    NoDup (map ac_id l) -> In x l -> In y l -> ac_id x = ac_id y -> x = y.
Proof.
  intros l x y. induction l as [|z l IH]; [intros _ []|].
  cbn. intros Hnd Hx Hy E. inversion Hnd as [|? ? Hn Hnd']. subst.
  destruct Hx as [->|Hx], Hy as [->|Hy]; auto.
  - exfalso. apply Hn. rewrite E. now apply in_map.
  - exfalso. apply Hn. rewrite <- E. now apply in_map.
Qed.

Lemma updated_In : forall (A : Type) (p : A -> bool) (g : A -> A) l x,
    In x l -> In (if p x then g x else x) (map (fun r => if p r then g r else r) l).
Proof. intros A p g l x H. now apply (in_map (fun r => if p r then g r else r)). Qed.

(** X28.  [PATCH /api/admin/users/:id] never leaves the platform without an
    active admin: when the user ids are distinct and some account is an
    active admin, some account is an active admin after the call, whatever
    the fields sent and whatever was answered. *)
Theorem patching_keeps_an_active_admin :
  forall req f r,
    NoDup (map ac_id (rows (accounts r))) ->
    (exists x, In x (rows (accounts r)) /\ active_admin x = true) ->
    exists x, In x (rows (accounts (snd (patch_user req f r))))
              /\ active_admin x = true.
Proof.
  intros req f r Hnd (x & Hx & Ax). unfold patch_user.
  destruct (as_admin req r) as [e|u]; [now exists x|]. cbv zeta.
  destruct (negb _); [now exists x|].
  destruct (select_one _ (accounts r)) as [row|] eqn:Hrow; [|now exists x].
  destruct (_ && Nat.eqb _ 0) eqn:G; [now exists x|].
  destruct (email_taken f (p_id req) (accounts r)); [now exists x|].
  cbn [snd accounts update_where rows].
  apply find_some in Hrow as [Irow Prow]. apply Z.eqb_eq in Prow.
  assert (Keep : forall y, In y (rows (accounts r)) -> ac_id y <> p_id req ->
                           active_admin y = true ->
                           exists z, In z (map (fun k => if Z.eqb (ac_id k) (p_id req)
                                                          then set_fields f k else k)
                                               (rows (accounts r)))
                                     /\ active_admin z = true).
  { intros y Iy Ny Ay. exists y. split; [|exact Ay].
    apply Z.eqb_neq in Ny.
    pose proof (updated_In (fun k => Z.eqb (ac_id k) (p_id req)) (set_fields f)
                  (rows (accounts r)) y Iy) as H.
    cbv beta in H. now rewrite Ny in H. }
  destruct (Z.eq_dec (ac_id x) (p_id req)) as [E|N]; [|now apply (Keep x)].
  assert (x = row) by (apply (unique_id (rows (accounts r))); congruence).
  subst x. apply andb_false_iff in G as [G|G].
  - exists (set_fields f row). split.
    + pose proof (updated_In (fun k => Z.eqb (ac_id k) (p_id req)) (set_fields f)
                    (rows (accounts r)) row Irow) as H.
      cbv beta in H. apply Z.eqb_eq in E. now rewrite E in H.
    + unfold active_admin in *. apply andb_prop in Ax as [A1 A2].
      unfold roleIs in G. unfold colEqS in A1. rewrite A1 in G. cbn [andb] in G.
      apply orb_false_iff in G as [G1 G2]. apply negb_false_iff in G1, G2.
      cbn [set_fields ac_role ac_status]. unfold colEqS. now rewrite G1, G2.
  - apply Nat.eqb_neq in G. unfold other_active_admins in G.
    destruct (select_all _ (accounts r)) as [|y l] eqn:F; [now destruct G|].
    assert (Hy : In y (select_all (fun k => active_admin k
                                            && negb (Z.eqb (ac_id k) (p_id req)))
                                  (accounts r))) by (rewrite F; now left).
    apply filter_In in Hy as [Iy Py]. apply andb_prop in Py as [Ay Ny].
    apply negb_true_iff, Z.eqb_neq in Ny. now apply (Keep y).
Qed.

Lemma listed_set_status : forall ids v x, listed ids (set_status v x) = listed ids x.
Proof. reflexivity. Qed.

Lemma view_set_status : forall v x, view (set_status v x) = view x.
Proof. reflexivity. Qed.

(** X29.  [POST /api/admin/users/bulk] has no last-admin guard.  With action
    "disable" it sets every listed account to disabled, admins included, and
    leaves the other accounts as they were: when every active admin is
    listed, no active admin is left.  The sessions go on: every token is
    served afterwards exactly as before, since no column that
    [authenticateToken] reads has changed. *)
Theorem bulk_disable_spares_no_admin :
  forall trim req f r u ids,
    as_admin req r = inr u ->
    f_user_ids f = Some ids -> ids <> [] ->
    trim (or_empty (f_action f)) = "disable" ->
    exists n r',
      bulk_users trim req f r = (inr n, r')
      /\ (forall x, In x (rows (accounts r')) -> listed ids x = true ->
                    ac_status x = Some "disabled")
      /\ (forall x, listed ids x = false ->
                    (In x (rows (accounts r')) <-> In x (rows (accounts r))))
      /\ ((forall x, In x (rows (accounts r)) -> active_admin x = true ->
                     listed ids x = true) ->
          forall x, In x (rows (accounts r')) -> active_admin x = false)
      /\ forall req', identity req' (store (whole r')) = identity req' (store (whole r)).
Proof.
  intros trim req f r u ids Hadm Hids Hne Hact. unfold bulk_users.
  rewrite Hadm, Hids. destruct ids as [|i ids]; [contradiction|].
  cbv zeta. rewrite Hact. cbn [next_status String.eqb Ascii.eqb Bool.eqb orb].
  set (l := i :: ids). do 2 eexists. split; [reflexivity|].
  cbn [accounts update_where rows].
  assert (Img : forall x, In x (map (fun k => if listed l k then set_status "disabled" k
                                               else k) (rows (accounts r)))
                          <-> exists y, In y (rows (accounts r))
                                        /\ x = if listed l y then set_status "disabled" y
                                               else y).
  { intros x. rewrite in_map_iff. split; intros (y & A & B); exists y; auto. }
  split; [|split; [|split]].
  - intros x Hx Lx. apply Img in Hx as (y & Iy & ->).
    destruct (listed l y) eqn:Ly; [reflexivity|congruence].
  - intros x Lx. rewrite Img. split.
    + intros (y & Iy & ->). destruct (listed l y) eqn:Ly; [|exact Iy].
      rewrite listed_set_status in Lx. congruence.
    + intros Ix. exists x. now rewrite Lx.
  - intros All x Hx. apply Img in Hx as (y & Iy & ->).
    destruct (listed l y) eqn:Ly.
    + unfold active_admin. cbn. apply andb_false_r.
    + destruct (active_admin y) eqn:Ay; [|reflexivity].
      rewrite (All y Iy Ay) in Ly. discriminate.
  - intros req'. apply identity_users. cbn -[listed]. f_equal.
    rewrite map_map. apply map_ext. intros k. now destruct (listed l k).
Qed.

Lemma find_map_view : forall id (l : list account),
    find (fun x => Z.eqb (us_id x) id) (map view l)
    = option_map view (find (fun x => Z.eqb (ac_id x) id) l).
Proof.
  intros id l. induction l as [|a l IH]; [reflexivity|]. cbn.
  destruct (Z.eqb (ac_id a) id); [reflexivity|exact IH].
Qed.

(** A token that [login] has signed for an account is served as signed
    while the account is the row its id selects. *)
Lemma payload_round_trip : forall r a req,
    ac_id a <> 0 ->
    select_one (fun x => Z.eqb (ac_id x) (ac_id a)) (accounts r) = Some a ->
    authorization req = Bearer (payload_of a) ->
    identity req (store (whole r)) = inr (payload_of a).
Proof.
  intros r a req Hid Hsel Hauth. unfold identity, authenticateToken. rewrite Hauth.
  cbn [payload_of userId studentId companyId role truthyZ].
  apply Z.eqb_neq in Hid. rewrite Hid. cbn [negb].
  destruct (truthyZ (orNullZ (ac_student_id a)) || truthyZ (orNullZ (ac_company_id a)))
    eqn:L; [reflexivity|].
  unfold bind, query, ret. cbn [fst store boot whole Accounts.set_users users].
  unfold select_one in *. cbn [rows]. rewrite find_map_view, Hsel.
  cbn [option_map view us_role us_student_id us_company_id].
  f_equal. unfold payload_of. f_equal.
  unfold orElseS. now destruct (truthyS (ac_role a)).
Qed.

(** X30.  [POST /api/auth/login] signs a token only for an account on record
    whose password matches, whose status reads active and whose role fits
    the portal (admins through the admin portal, everyone else through the
    other).  The token names the account's id and role and its student and
    company, if any; and a request that carries it is served as exactly
    that, as long as the account is the row its id selects. *)
Theorem login_signs_what_is_served :
  forall trim toLowerCase compare f r p,
    login trim toLowerCase compare f r = inr p ->
    exists a,
      In a (rows (accounts r))
      /\ p = payload_of a
      /\ compare (or_empty (l_password f))
                 (match orElseS (ac_password_hash a) (Some "") with
                  | Some h => h
                  | None => ""
                  end) = true
      /\ toLowerCase (match orElseS (ac_status a) (Some "active") with
                      | Some t => t
                      | None => "active"
                      end) = "active"
      /\ l_admin_only f = roleIs (ac_role a) "admin"
      /\ (ac_id a <> 0 ->
          select_one (fun x => Z.eqb (ac_id x) (ac_id a)) (accounts r) = Some a ->
          forall req, authorization req = Bearer p ->
                      identity req (store (whole r)) = inr p).
Proof.
  intros trim toLowerCase compare f r p. unfold login. cbv zeta.
  destruct (_ || String.eqb (or_empty (l_password f)) ""); [discriminate|].
  destruct (select_one _ (accounts r)) as [a|] eqn:Hsel; [|discriminate].
  destruct (l_admin_only f) eqn:Hadm; cbn [andb negb];
    destruct (roleIs (ac_role a) "admin") eqn:Hrole; cbn [negb]; try discriminate;
    (destruct (compare _ _) eqn:Hcmp; cbn [negb]; [|discriminate]);
    (destruct (String.eqb_spec (toLowerCase
                                  (match orElseS (ac_status a) (Some "active") with
                                   | Some t => t
                                   | None => "active"
                                   end)) "active") as [Hst|Hst];
     cbn [negb]; [|discriminate]);
    intros [= <-]; exists a; apply find_some in Hsel as [Ia _];
    (split; [exact Ia|]); (split; [reflexivity|]); (split; [exact Hcmp|]);
    (split; [exact Hst|]); (split; [now rewrite Hrole|]);
    intros H0 Hs req Ha; now apply payload_round_trip.
Qed.

End DirectoryFacts.

(** ** The properties at the sample deployment *)

Module Walkthrough.
Import Sample Staffed.

(** X1 at the sample deployment: student 1 and company 7 each list
    application 1, which is theirs. *)
Lemma student_one_and_company_seven_list_their_own :
  (exists l,
      Listings.get_applications (student_asks 0) start = (inr l, start)
      /\ forall a, In a (map Listings.av_app l)
                   <-> In a (rows (applications (store start)))
                       /\ app_student_id a = Some 1)
  /\ (exists l,
         Listings.get_applications (company_asks 7 0) start = (inr l, start)
         /\ forall a, In a (map Listings.av_app l)
                      <-> In a (rows (applications (store start)))
                          /\ app_company_id a = Some 7
                          /\ exists stage, app_stage a = Some stage
                                           /\ stage <> "Withdrawn").
Proof.
  split.
  - apply (proj1 ListingFacts.applications_listing_is_scoped
             start (student_asks 0) (student_user 1) 1);
      [reflexivity|reflexivity|reflexivity|discriminate].
  - apply (proj2 ListingFacts.applications_listing_is_scoped
             start (company_asks 7 0) (company_user 7) 7);
      [reflexivity|reflexivity|reflexivity|discriminate].
Defined.

(** X2 at the sample deployment: a student account with no profile lists
    every application. *)
Lemma unlinked_student_lists_every_application :
  exists l,
    Listings.get_applications (call (Bearer unlinked_student) 0 no_body) start
    = (inr l, start)
    /\ forall a, In a (map Listings.av_app l)
                 <-> In a (rows (applications (store start))).
Proof.
  apply (@ListingFacts.applications_listing_is_open_to_unlinked
           start (call (Bearer unlinked_student) 0 no_body) unlinked_student);
    reflexivity.
Defined.

(** X3 at the sample deployment, with application 1 Rejected: the client
    and the server both find the rejection by company 7. *)
Lemma rejection_by_company_seven_is_seen_by_both :
  exists l,
    Listings.get_applications (student_asks 0) (boot (Sample.deployment "Rejected"))
    = (inr l, boot (Sample.deployment "Rejected"))
    /\ Client.hasRejectionForCompany l (Some 7)
       = Applications.rejected_before (Sample.deployment "Rejected") 1 7.
Proof.
  apply (@ClientFacts.client_rejection_lock_agrees
           (boot (Sample.deployment "Rejected")) (student_asks 0) (student_user 1) 1 7);
    [reflexivity|reflexivity|reflexivity|discriminate].
Defined.

(** X4 at the sample deployment: company 7 schedules the interview of
    application 1; the empty mode is stored as null. *)
Lemma company_seven_schedules_application_one :
  exists i st',
    Interviews.put_company_interview (company_asks 7 1) form start = (inr (Some i), st')
    /\ select_one (Interviews.for_application 1) (company_interviews (store st')) = Some i
    /\ iv_application_id i = Some 1
    /\ iv_interview_date i = Some "2025-04-02"
    /\ iv_interview_time i = Some "14:30"
    /\ iv_mode i = None
    /\ iv_location i = None
    /\ iv_updated_at i = 1000
    /\ outbox st'
       = [{| ev_name := "applications:changed";
             ev_payload := PApplicationId "interview" 1 |}]
    /\ store st'
       = Interviews.set_company_interviews (company_interviews (store st')) (store start).
Proof.
  apply (@InterviewFacts.interview_is_scheduled
           start (company_asks 7 1) form (company_user 7) (the_application "Applied"));
    reflexivity.
Defined.

(** X5 at the staffed deployment, where application 1 has a slot: after
    company 7 reschedules it, it still has one. *)
Lemma rescheduling_keeps_the_one_slot :
  Interviews.slots_of
    (store (snd (Interviews.put_company_interview (company_asks 7 1) form
                   (boot (Staffed.deployment "Applied"))))) 1
  = 1%nat
  /\ forall id', id' <> 1 ->
       select_all (Interviews.for_application id')
         (company_interviews
            (store (snd (Interviews.put_company_interview (company_asks 7 1) form
                           (boot (Staffed.deployment "Applied"))))))
       = select_all (Interviews.for_application id')
           (company_interviews (Staffed.deployment "Applied")).
Proof.
  apply (@InterviewFacts.interview_upsert_keeps_one_slot
           (boot (Staffed.deployment "Applied")) (company_asks 7 1) form
           (company_user 7) (the_application "Applied"));
    reflexivity.
Defined.

(** X6 at the sample deployment: company 8 cannot schedule application 1. *)
Lemma company_eight_cannot_schedule :
  exists r,
    Interviews.put_company_interview (company_asks 8 1) form start = (inl r, start)
    /\ (status r = 401 \/ status r = 403 \/ status r = 404).
Proof.
  apply (@InterviewFacts.interview_is_refused_to_others start (company_asks 8 1) form).
  intros u a Hu Ha. inversion Hu. inversion Ha. reflexivity.
Defined.

(** X7 at the staffed deployment: what student 1 gets. *)
Lemma student_one_lists_own_interviews :
  exists l,
    Interviews.get_my_interviews (student_asks 0) (boot (Staffed.deployment "Applied"))
    = (inr l, boot (Staffed.deployment "Applied"))
    /\ forall i a c,
        In {| Interviews.iw_slot := i; Interviews.iw_app := a;
              Interviews.iw_company := c |} l
        <-> In i (rows (company_interviews (Staffed.deployment "Applied")))
            /\ In a (rows (applications (Staffed.deployment "Applied")))
            /\ In c (rows (companies (Staffed.deployment "Applied")))
            /\ iv_application_id i = Some (app_id a)
            /\ app_company_id a = Some (co_id c)
            /\ app_student_id a = Some 1.
Proof.
  apply (@InterviewFacts.my_interviews_are_own
           (boot (Staffed.deployment "Applied")) (student_asks 0) (student_user 1)).
  reflexivity.
Defined.

(** X8 at the sample deployment: the slot company 7 schedules is listed
    to student 1. *)
Lemma slot_of_company_seven_reaches_student_one :
  exists i st' l,
    Interviews.put_company_interview (company_asks 7 1) form start = (inr (Some i), st')
    /\ Interviews.get_my_interviews (student_asks 0) st' = (inr l, st')
    /\ In {| Interviews.iw_slot := i; Interviews.iw_app := the_application "Applied";
             Interviews.iw_company := acme |} l.
Proof.
  apply (@InterviewFacts.scheduled_interview_reaches_the_student
           start (company_asks 7 1) form (company_user 7) (the_application "Applied")
           (student_asks 0) (student_user 1) 1 acme);
    try reflexivity.
  - discriminate.
  - left. reflexivity.
Defined.

(** X9 at the sample deployment: the threads student 1 gets. *)
Lemma student_one_lists_own_threads :
  exists l,
    Listings.get_application_requests (student_asks 0) start = (inr l, start)
    /\ forall r a c,
        In {| Listings.tv_request := r; Listings.tv_app := a;
              Listings.tv_company := c |} l
        <-> In r (rows (application_requests (store start)))
            /\ In a (rows (applications (store start)))
            /\ In c (rows (companies (store start)))
            /\ rq_application_id r = Some (app_id a)
            /\ app_company_id a = Some (co_id c)
            /\ app_student_id a = Some 1.
Proof.
  apply (@ThreadListingFacts.threads_listing_is_scoped
           start (student_asks 0) (student_user 1)).
  reflexivity.
Defined.

(** X10 at the sample deployment: the request of company 7 flags the
    applications tab of student 1, who has no application to show for it. *)
Lemma request_of_company_seven_flags_student_one :
  exists st' l,
    snd (run (Thread.post_application_request (ask "Also share transcript")) start) = st'
    /\ status (fst (run (Thread.post_application_request (ask "Also share transcript"))
                        start)) = 200
    /\ Listings.get_application_requests (student_asks 0) st' = (inr l, st')
    /\ Client.student_target l [] = "applications"
    /\ forall requestList apps',
        Client.company_target requestList apps' = "company-applications".
Proof.
  apply (@ThreadListingFacts.request_flags_the_students_tab
           start (ask "Also share transcript") (company_user 7) (the_application "Applied")
           "Also share transcript" (student_asks 0) (student_user 1) 1 acme []);
    try reflexivity.
  - discriminate.
  - discriminate.
  - left. reflexivity.
Defined.

(** X11 at the sample deployment: student 1 subscribes to company 8,
    whose count goes up by one. *)
Lemma subscribing_to_company_eight_counts :
  exists n n' st',
    Registry.get_subscribers_count (admin_asks 8) start = (inr n, start)
    /\ snd (run (Subscriptions.post_subscriptions (subscribe 1 8)) start) = st'
    /\ Registry.get_subscribers_count (admin_asks 8) st' = (inr n', st')
    /\ n' = n + 1.
Proof.
  apply (@RegistryFacts.subscribing_moves_the_count
           start (subscribe 1 8) (student_user 1) 1 8 (admin_asks 8) admin_user);
    try reflexivity; discriminate.
Defined.

(** X12 at the sample deployment: student 1 unsubscribes from company 7,
    whose count goes down by one. *)
Lemma unsubscribing_from_company_seven_counts :
  exists n n' st',
    Registry.get_subscribers_count (admin_asks 7) start = (inr n, start)
    /\ snd (run (Subscriptions.delete_subscription (unsubscribe 1 7)) start) = st'
    /\ Registry.get_subscribers_count (admin_asks 7) st' = (inr n', st')
    /\ n' + 1 = n.
Proof.
  apply (@RegistryFacts.unsubscribing_moves_the_count
           start (unsubscribe 1 7) (student_user 1) 1 (admin_asks 7) admin_user);
    try reflexivity; discriminate.
Defined.

(** X13 at the sample deployment. *)
Lemma student_one_reads_the_registry :
  (exists l,
      Registry.get_member_companies (student_asks 0) start = (inr l, start)
      /\ forall mc,
          In mc l
          <-> In (Registry.mc_company mc) (rows (companies (store start)))
              /\ Registry.mc_subscribed mc
                 = if Applications.subscribed (store start) 1
                        (co_id (Registry.mc_company mc))
                   then 1 else 0)
  /\ (exists l,
         Registry.get_subscriptions (student_asks 0) start = (inr l, start)
         /\ forall c, In c l <-> Applications.subscribed (store start) 1 c = true).
Proof.
  apply (@RegistryFacts.registry_listings_show_the_gate
           start (student_asks 0) (student_user 1) 1);
    try reflexivity; discriminate.
Defined.

(** X14 at the sample deployment. *)
Lemma student_one_sees_followed_applications :
  exists apps mcs,
    Listings.get_applications (student_asks 0) start = (inr apps, start)
    /\ Registry.get_member_companies (student_asks 0) start = (inr mcs, start)
    /\ forall v,
        In v (Client.visibleStudentApplications mcs apps)
        <-> In v apps
            /\ ((forall c, ~ Registry.follows (store start) 1 c)
                \/ exists c, app_company_id (Listings.av_app v) = Some c
                             /\ Registry.follows (store start) 1 c).
Proof.
  apply (@RegistryFacts.dashboard_hides_unfollowed_applications
           start (student_asks 0) (student_user 1) 1);
    try reflexivity; discriminate.
Defined.

(** X15 at the sample deployment. *)
Lemma student_one_heeds_followed_openings :
  exists mcs,
    Registry.get_member_companies (student_asks 0) start = (inr mcs, start)
    /\ Client.student_heeds_opening mcs None = true
    /\ forall c,
        Client.student_heeds_opening mcs (Some c) = true
        <-> c = 0 \/ (forall k, ~ Registry.follows (store start) 1 k)
            \/ Registry.follows (store start) 1 c.
Proof.
  apply (@RegistryFacts.student_heeds_followed_openings
           start (student_asks 0) (student_user 1) 1);
    try reflexivity; discriminate.
Defined.

(** X16 at the sample deployment: the admin deletes student 1, whose
    application stays and is listed without a student. *)
Lemma deleting_student_one_orphans_application_one :
  exists st',
    run (Removal.delete_student (admin_asks 1)) start
    = ({| status := 200; resp_body := RStatus "deleted" |}, st')
    /\ (forall r, In r (rows (students (store st')))
                  <-> In r (rows (students (store start))) /\ st_id r <> 1)
    /\ applications (store st') = applications (store start)
    /\ student_company_subscriptions (store st')
       = student_company_subscriptions (store start)
    /\ application_requests (store st') = application_requests (store start)
    /\ company_interviews (store st') = company_interviews (store start)
    /\ forall reqL ul,
        identity reqL (store st') = inr ul ->
        exists l,
          Listings.get_applications reqL st' = (inr l, st')
          /\ forall v, In v l -> app_student_id (Listings.av_app v) = Some 1 ->
                       Listings.av_student v = None.
Proof.
  apply (@RemovalFacts.deleting_a_student_orphans_the_applications
           start (admin_asks 1) admin_user);
    reflexivity.
Defined.

(** X17 at the sample deployment: company 7 deletes itself; its opening
    stays in the table and is listed no more. *)
Lemma company_seven_deletes_itself :
  exists st',
    run (Removal.delete_company (company_asks 7 7)) start
    = ({| status := 200; resp_body := RStatus "deleted" |}, st')
    /\ (forall r, In r (rows (companies (store st')))
                  <-> In r (rows (companies (store start))) /\ co_id r <> 7)
    /\ company_openings (store st') = company_openings (store start)
    /\ applications (store st') = applications (store start)
    /\ student_company_subscriptions (store st')
       = student_company_subscriptions (store start)
    /\ forall req' l,
        resp_body (fst (run (Openings.get_openings req') st')) = RJoinedOpenings l ->
        forall o c, In (o, c) l -> op_company_id o <> Some 7.
Proof.
  apply (@RemovalFacts.deleting_a_company_hides_its_openings
           start (company_asks 7 7) (company_user 7)).
  reflexivity.
Defined.

(** X18 at the staffed deployment: with the account of student 1 go the
    student row, application 1, its thread, its slot, the subscription,
    the profile and the ticket; the companies stay. *)
Lemma deleting_the_account_of_student_one :
  exists o',
    Accounts.delete_user all_active (admin_asks 11) (office "Applied")
    = ({| status := 200; resp_body := RStatus "deleted" |}, o')
    /\ map us_id (rows (users (store (Accounts.front o')))) = [21; 31]
    /\ rows (students (store (Accounts.front o'))) = []
    /\ rows (applications (store (Accounts.front o'))) = []
    /\ rows (student_company_subscriptions (store (Accounts.front o'))) = []
    /\ rows (application_requests (store (Accounts.front o'))) = []
    /\ rows (company_interviews (store (Accounts.front o'))) = []
    /\ rows (Accounts.student_profiles_extended o') = []
    /\ map Accounts.tk_id (rows (Accounts.support_tickets o')) = [2]
    /\ companies (store (Accounts.front o')) = companies (Staffed.deployment "Applied").
Proof.
  destruct (@AccountFacts.deleting_a_student_account_cascades
              all_active (admin_asks 11) (office "Applied") admin_user
              {| us_id := 11; us_role := Some "student";
                 us_student_id := Some 1; us_company_id := None |} 1)
    as (o' & E & _); try reflexivity; try discriminate.
  exists o'. split; [exact E|].
  apply (f_equal snd) in E. cbn [snd] in E. subst o'. repeat split.
Defined.

(** X19 at the staffed deployment: with the account of company 7 go the
    company row, its opening, application 1 with its thread and slot, and
    the subscription; the student stays. *)
Lemma deleting_the_account_of_company_seven :
  exists o',
    Accounts.delete_user all_active (admin_asks 21) (office "Applied")
    = ({| status := 200; resp_body := RStatus "deleted" |}, o')
    /\ map us_id (rows (users (store (Accounts.front o')))) = [11; 31]
    /\ map co_id (rows (companies (store (Accounts.front o')))) = [8]
    /\ map op_id (rows (company_openings (store (Accounts.front o')))) = [2]
    /\ rows (applications (store (Accounts.front o'))) = []
    /\ rows (student_company_subscriptions (store (Accounts.front o'))) = []
    /\ rows (application_requests (store (Accounts.front o'))) = []
    /\ rows (company_interviews (store (Accounts.front o'))) = []
    /\ map Accounts.tk_id (rows (Accounts.support_tickets o')) = [1]
    /\ students (store (Accounts.front o')) = students (Staffed.deployment "Applied").
Proof.
  destruct (@AccountFacts.deleting_a_company_account_cascades
              all_active (admin_asks 21) (office "Applied") admin_user
              {| us_id := 21; us_role := Some "company";
                 us_student_id := None; us_company_id := Some 7 |} 7)
    as (o' & E & _); try reflexivity; try discriminate.
  exists o'. split; [exact E|].
  apply (f_equal snd) in E. cbn [snd] in E. subst o'. repeat split.
Defined.

(** X20 at the staffed deployment: the only admin asks for the deletion
    of its own account, and an active admin remains. *)
Lemma the_only_admin_stays :
  exists x,
    In x (rows (users (store (Accounts.front
                                (snd (Accounts.delete_user all_active (admin_asks 31)
                                        (office "Applied")))))))
    /\ Accounts.active_admin all_active x = true.
Proof.
  apply (@AccountFacts.an_active_admin_remains all_active (admin_asks 31)
           (office "Applied")).
  - cbn. repeat constructor; cbn; intuition discriminate.
  - exists {| us_id := 31; us_role := Some "admin";
              us_student_id := None; us_company_id := None |}.
    split; [cbn; auto|reflexivity].
Defined.

(** X22 at the staffed deployment: after the account of student 1 is
    deleted, the token of student 1 is served as before. *)
Lemma token_of_student_one_outlives_the_account :
  exists u,
    identity (student_asks 0)
      (store (Accounts.front
                (snd (Accounts.delete_user all_active (admin_asks 11)
                        (office "Applied")))))
    = inr u
    /\ userId u = Some 11 /\ role u = Some "student"
    /\ (truthyZ (studentId (student_user 1)) || truthyZ (companyId (student_user 1))
        = true -> u = student_user 1).
Proof.
  apply (@AccountFacts.deleted_account_keeps_its_token
           all_active (admin_asks 11) (office "Applied") (student_asks 0)
           (student_user 1));
    reflexivity.
Defined.

(** X24 at the sample deployment: company 7 presses Invite to Interview
    on application 1. *)
Lemma company_seven_invites_to_interview :
  "Interviewing" <> Client.shown_stage (the_application "Applied")
  /\ Client.updateApplicationStage (company_token 7) 1000
       (Some (the_application "Applied")) (Some "Interviewing")
     = Some (Client.stage_request (company_token 7) 1000 (the_application "Applied")
               "Interviewing")
  /\ status (fst (run (Applications.patch_application_status
                         (Client.stage_request (company_token 7) 1000
                            (the_application "Applied") "Interviewing")) start))
     = 200
  /\ select_one (Applications.has_id 1)
       (applications
          (store (snd (run (Applications.patch_application_status
                              (Client.stage_request (company_token 7) 1000
                                 (the_application "Applied") "Interviewing")) start))))
     = Some (Applications.set_stage (Some "Interviewing") (the_application "Applied"))
  /\ Client.shown_stage
       (Applications.set_stage (Some "Interviewing") (the_application "Applied"))
     = "Interviewing".
Proof.
  apply (@CardFacts.every_card_button_is_accepted
           start (company_token 7) 1000 (the_application "Applied") "Interviewing"
           (company_user 7));
    try reflexivity.
  left. reflexivity.
Defined.

(** X25 at a Waitlisted application: the card offers Reject only. *)
Lemma waitlisted_card_offers_reject_only :
  Client.company_card_actions (the_application "Waitlisted") = ["Rejected"].
Proof.
  apply (proj1 (proj2 (proj2 (CardFacts.card_offers (the_application "Waitlisted"))))).
  right. reflexivity.
Defined.



(** X28 at the sample accounts: the only admin asks to become a student
    and is refused; an active admin remains. *)
Lemma the_only_admin_cannot_step_down :
  exists x,
    In x (rows (Directory.accounts
                  (snd (Directory.patch_user (admin_asks 31) Desk.demotion Desk.staff))))
    /\ Directory.active_admin x = true.
Proof.
  apply (@DirectoryFacts.patching_keeps_an_active_admin
           (admin_asks 31) Desk.demotion Desk.staff).
  - cbn. repeat constructor; cbn; intuition discriminate.
  - exists Desk.root. split; [cbn; auto|reflexivity].
Defined.

(** X29 at the sample accounts: the admin disables all three accounts,
    its own included; none is active afterwards, and the admin's token is
    still served as an admin's. *)
Lemma disabling_everyone_disables_the_admin :
  exists n r',
    Directory.bulk_users Desk.as_is (admin_asks 0) Desk.disable_everyone Desk.staff
    = (inr n, r')
    /\ n = 3
    /\ map Directory.ac_status (rows (Directory.accounts r'))
       = [Some "disabled"; Some "disabled"; Some "disabled"]
    /\ existsb Directory.active_admin (rows (Directory.accounts r')) = false
    /\ identity (admin_asks 0) (store (Directory.whole r')) = inr admin_user.
Proof.
  destruct (@DirectoryFacts.bulk_disable_spares_no_admin
              Desk.as_is (admin_asks 0) Desk.disable_everyone Desk.staff
              admin_user [11; 21; 31])
    as (n & r' & E & _); try reflexivity; try discriminate.
  exists n, r'. split; [exact E|].
  cbv in E. injection E as <- <-. repeat split.
Defined.

(** X30 at the sample accounts: sam signs in and is served as student 1. *)
Lemma sam_signs_in_as_student_one :
  exists a,
    In a (rows (Directory.accounts Desk.staff))
    /\ student_user 1 = Directory.payload_of a
    /\ Desk.same_text
         (Directory.or_empty (Directory.l_password Desk.sam_signs_in))
         (match orElseS (Directory.ac_password_hash a) (Some "") with
          | Some h => h
          | None => ""
          end) = true
    /\ Desk.as_is (match orElseS (Directory.ac_status a) (Some "active") with
                   | Some t => t
                   | None => "active"
                   end) = "active"
    /\ Directory.l_admin_only Desk.sam_signs_in = roleIs (Directory.ac_role a) "admin"
    /\ (Directory.ac_id a <> 0 ->
        select_one (fun x => Z.eqb (Directory.ac_id x) (Directory.ac_id a))
                   (Directory.accounts Desk.staff) = Some a ->
        forall req, authorization req = Bearer (student_user 1) ->
                    identity req (store (Directory.whole Desk.staff))
                    = inr (student_user 1)).
Proof.
  apply (@DirectoryFacts.login_signs_what_is_served
           Desk.as_is Desk.as_is Desk.same_text Desk.sam_signs_in Desk.staff
           (student_user 1)).
  reflexivity.
Defined.

End Walkthrough.
